(** * lavago: a shallow embedding of the Lavalink client core

    The development follows the Go sources:
    - [socket.go]   : the websocket connection ([Socket]);
    - [player.go]   : the per-guild player ([Player]) and [Track];
    - [payloads.go] : the outbound frame structs and their JSON tags;
    - the node file : [Node], the registry and the inbound dispatcher.

    Go code is stateful, so every method is a computation over one
    explicit program state, [World].  A method either returns (a value and
    the new state), panics, or never returns ([Stuck]: a goroutine blocked
    on a channel nobody reads).  Locks are not modelled: the
    embedding is sequential, one call at a time. *)

From Stdlib Require Import ZArith Lia List Ascii String DecimalString.
From stdpp Require Import base option gmap strings list.

Set Warnings "-register-all".

Local Open Scope Z_scope.
Local Open Scope string_scope.

(** ** Machine integers

    Go's [int] and [time.Duration] are 64-bit two's complement. *)

Definition int64_min : Z := - 2 ^ 63.
Definition int64_max : Z := 2 ^ 63 - 1.
Definition in_int64 (z : Z) : Prop := int64_min <= z <= int64_max.
Definition wrap64 (z : Z) : Z := (z + 2 ^ 63) mod 2 ^ 64 - 2 ^ 63.

(** ** Errors and panics *)

Inductive error : Type :=
| errors_New (msg : string)
  (* fmt.Errorf("value must not be higer than %s", length) *)
| fmt_Errorf_higher (length : Z)
  (* an error value built by another package (websocket, strconv, json) *)
| foreign_error (msg : string).

Inductive panic : Type :=
| panic_msg (msg : string)
| panic_err (msg : string) (e : error)
| nil_dereference
| index_out_of_range
| close_of_closed_channel
| send_on_closed_channel
| type_assertion.

(** ** Data model *)

Record Config := mkConfig {
  Authorization : string;
  BufferSize : Z;
  EnableResume : bool;
  Hostname : string;
  LogSeverity : Z;
  Port : Z;
  SSL : bool;
  UserAgent : string;
  ReconnectAttempts : Z;
  ReconnectDelay : Z;
  ResumeKey : string;
  ResumeTimeout : Z;
  SelfDeaf : bool
}.

Definition NewConfig : Config :=
  {| Authorization := "youshallnotpass"; BufferSize := 512;
     EnableResume := true; Hostname := "127.0.0.1"; LogSeverity := 5;
     Port := 2333; SSL := false; UserAgent := "";
     ReconnectAttempts := 10; ReconnectDelay := 10 * 1000000000;
     ResumeKey := "Lavago"; ResumeTimeout := 30 * 1000000000;
     SelfDeaf := true |}.

(** [*websocket.Conn] handles are opaque: a number names the connection. *)
Definition Conn := nat.

(** The fields of [Socket].  The dialer is a constant of the configuration
    and the three callbacks are fixed by [NewNode], so neither is stored.
    [sock_sendClosed] records that [close(s.sendChan)] ran. *)
Record Socket := mkSocket {
  sock_cfg : Config;
  connectionAttempts : Z;
  reconnectInterval : Z;
  sock_conn : option Conn;
  sock_connected : bool;
  sock_sendClosed : bool
}.

Inductive PlayerState := PlayerStateNone | PlayerStatePlaying
                       | PlayerStateStopped | PlayerStatePaused.

Record TrackInfo := mkTrackInfo {
  Identifier : string;
  Author : string;
  Title : string;
  CanSeek : bool;
  Length : Z;
  IsStream : bool;
  Position : Z;
  URL : string;
  SourceName : string
}.

Record Track := mkTrack { Track_hash : string; Info : TrackInfo }.

(** [t.Info.Position = pos] *)
Definition updatePosition (pos : Z) (t : Track) : Track :=
  let i := Info t in
  {| Track_hash := Track_hash t;
     Info := {| Identifier := Identifier i; Author := Author i;
                Title := Title i; CanSeek := CanSeek i; Length := Length i;
                IsStream := IsStream i; Position := pos; URL := URL i;
                SourceName := SourceName i |} |}.

(** A queue slot holds an [interface{}]: a [*Track] (possibly nil) or a
    value of some other dynamic type. *)
Inductive queued := queued_track (t : option Track) | queued_other.

Inductive Time := Time_zero | Time_Unix (sec : Z).

(** [*Player] values are addresses into the heap of the [World]; the
    socket every player holds is the node's socket.  A [*Track] is held
    by value ([None] for nil): the one write through it, [updatePosition],
    is applied to the player's own track.  That one [*Track] may be held
    by several queue slots or players is therefore not represented, and
    what is proved of [updatePosition] speaks of the updated player's
    view of its track only, never of other holders. *)
Definition ptr := positive.

Record Player := mkPlayer {
  LastUpdate : Time;
  State : PlayerState;
  Queue : list queued;
  p_Track : option Track;
  GuildID : string;
  Volume : Z
}.

Record PlayArgs := mkPlayArgs {
  a_Track : option Track;
  NoReplace : bool;
  a_Volume : Z;
  ShouldPause : bool;
  StartTime : Z;
  EndTime : Z
}.

(** *** Events handed to the subscriber callbacks *)

Definition TrackEndReason := ascii.
Definition FinishedReason : TrackEndReason := "F"%char.
Definition LoadFailedReason : TrackEndReason := "L"%char.
Definition StoppedReason : TrackEndReason := "S"%char.
Definition ReplacedReason : TrackEndReason := "R"%char.
Definition CleanupReason : TrackEndReason := "C"%char.

Record PlayerUpdatedState := mkPUState {
  pu_Position : Z; pu_Time : Z; pu_Connected : bool
}.

Record PlayerUpdatedEvent := mkPlayerUpdated {
  pu_Player : option ptr;
  pu_Track : option Track;
  pu_State : PlayerUpdatedState
}.

Record StatsReceivedEvent := mkStats {
  CPU : string; Frames : string; Memory : string;
  Players : Z; PlayingPlayers : Z; Uptime : Time
}.

Inductive Event :=
| PlayerUpdated_ev (e : PlayerUpdatedEvent)
| StatsReceived_ev (e : StatsReceivedEvent)
| TrackStarted_ev (player : ptr) (track : option Track)
| TrackEnded_ev (player : ptr) (track : option Track) (reason : TrackEndReason)
| TrackException_ev (player : ptr) (track : option Track) (message : string)
| TrackStuck_ev (player : ptr) (track : option Track) (threshold : Z)
| WebSocketClosed_ev (guild : string) (code : Z) (reason : string)
                     (byRemote : bool).

Record voiceState := mkVoiceState { vs_GuildID : string; vs_SessionID : string }.

(** The node.  [sync.Map] pointers are nil after [Close], hence the
    options.  A callback field is [true] when a function is registered;
    calling it appends the event to the trace.  [ConnectVoice] is the
    external voice-join collaborator; its answer is the error it returns. *)
Record Node := mkNode {
  node_cfg : Config;
  node_connected : bool;
  players : option (gmap string ptr);
  voiceStates : option (gmap string voiceState);
  ConnectVoice : option (string -> string -> bool -> option error);
  PlayerUpdated : bool;
  StatsReceived : bool;
  TrackStarted : bool;
  TrackEnded : bool;
  TrackException : bool;
  TrackStuck : bool;
  WebSocketClosed : bool
}.

Inductive goroutine :=
| go_OnOpen | go_sendListener | go_readListener
| go_ErrorReceived (err : error) | go_DataReceived (data : string).

(** What the program did to its environment, oldest first. *)
Record Trace := mkTrace {
  dialled : nat;                          (* calls of dialer.Dial *)
  slept : list Z;                         (* arguments of time.Sleep *)
  written : list string;                  (* frames given to conn.WriteMessage *)
  spawned : list goroutine;               (* go statements *)
  voiceCalls : list (string * string * bool); (* calls of ConnectVoice *)
  delivered : list Event;                 (* subscriber callbacks invoked *)
  printed : list string                   (* fmt.Println *)
}.

Record World := mkWorld {
  socket : Socket;
  node : Node;
  heap : gmap ptr Player;
  trace : Trace
}.

(** ** The computation monad *)

Inductive outcome (A : Type) : Type :=
| Ret (a : A) (w : World)
| Panic (p : panic)
| Stuck.
Arguments Ret {A} a w.
Arguments Panic {A} p.
Arguments Stuck {A}.

Definition M (A : Type) : Type := World -> outcome A.

Definition ret {A} (a : A) : M A := fun w => Ret a w.
Definition bind {A B} (m : M A) (k : A -> M B) : M B :=
  fun w => match m w with
           | Ret a w' => k a w'
           | Panic p => Panic p
           | Stuck => Stuck
           end.
Definition throw {A} (p : panic) : M A := fun _ => Panic p.
Definition get : M World := fun w => Ret w w.
Definition modify (f : World -> World) : M unit := fun w => Ret tt (f w).

Notation "'let*' x ':=' m 'in' k" := (bind m (fun x => k))
  (at level 10, x pattern, m at level 100, k at level 200).
Notation "m ';;' k" := (bind m (fun _ => k))
  (at level 100, k at level 200, right associativity).

(** *** Field updates *)

Definition with_socket (f : Socket -> Socket) (w : World) : World :=
  {| socket := f (socket w); node := node w; heap := heap w;
     trace := trace w |}.
Definition with_node (f : Node -> Node) (w : World) : World :=
  {| socket := socket w; node := f (node w); heap := heap w;
     trace := trace w |}.
Definition with_heap (f : gmap ptr Player -> gmap ptr Player) (w : World) : World :=
  {| socket := socket w; node := node w; heap := f (heap w);
     trace := trace w |}.
Definition with_trace (f : Trace -> Trace) (w : World) : World :=
  {| socket := socket w; node := node w; heap := heap w;
     trace := f (trace w) |}.

Definition log_dial (t : Trace) : Trace :=
  {| dialled := S (dialled t); slept := slept t; written := written t;
     spawned := spawned t; voiceCalls := voiceCalls t;
     delivered := delivered t; printed := printed t |}.
Definition log_sleep (d : Z) (t : Trace) : Trace :=
  {| dialled := dialled t; slept := (slept t ++ [d])%list; written := written t;
     spawned := spawned t; voiceCalls := voiceCalls t;
     delivered := delivered t; printed := printed t |}.
Definition log_write (data : string) (t : Trace) : Trace :=
  {| dialled := dialled t; slept := slept t;
     written := (written t ++ [data])%list;
     spawned := spawned t; voiceCalls := voiceCalls t;
     delivered := delivered t; printed := printed t |}.
Definition log_go (g : goroutine) (t : Trace) : Trace :=
  {| dialled := dialled t; slept := slept t; written := written t;
     spawned := (spawned t ++ [g])%list; voiceCalls := voiceCalls t;
     delivered := delivered t; printed := printed t |}.
Definition log_voice (c : string * string * bool) (t : Trace) : Trace :=
  {| dialled := dialled t; slept := slept t; written := written t;
     spawned := spawned t; voiceCalls := (voiceCalls t ++ [c])%list;
     delivered := delivered t; printed := printed t |}.
Definition log_event (e : Event) (t : Trace) : Trace :=
  {| dialled := dialled t; slept := slept t; written := written t;
     spawned := spawned t; voiceCalls := voiceCalls t;
     delivered := (delivered t ++ [e])%list; printed := printed t |}.
Definition log_print (s : string) (t : Trace) : Trace :=
  {| dialled := dialled t; slept := slept t; written := written t;
     spawned := spawned t; voiceCalls := voiceCalls t;
     delivered := delivered t; printed := (printed t ++ [s])%list |}.

Definition empty_trace : Trace :=
  {| dialled := 0; slept := []; written := []; spawned := [];
     voiceCalls := []; delivered := []; printed := [] |}.

(** ** strconv.Atoi *)

Definition is_digit (c : ascii) : bool :=
  let n := N_of_ascii c in ((48 <=? n) && (n <=? 57))%N.

Fixpoint digits_value (acc : Z) (s : string) : option Z :=
  match s with
  | EmptyString => Some acc
  | String c s' =>
      if is_digit c
      then digits_value (10 * acc + (Z.of_N (N_of_ascii c) - 48)) s'
      else None
  end.

Definition strconv_Atoi (s : string) : error + Z :=
  let '(neg, body) :=
    match s with
    | String "-"%char r => (true, r)
    | String "+"%char r => (false, r)
    | _ => (false, s)
    end in
  match body with
  | EmptyString => inl (foreign_error "strconv.Atoi: invalid syntax")
  | _ =>
      match digits_value 0 body with
      | None => inl (foreign_error "strconv.Atoi: invalid syntax")
      | Some v =>
          let v' := if neg then - v else v in
          if ((int64_min <=? v') && (v' <=? int64_max))%Z
          then inr v'
          else inl (foreign_error "strconv.Atoi: value out of range")
      end
  end.

(** ** JSON values

    Outbound frames are built from Go structs by [json.Marshal]: the
    struct tags fix the member names, their order, and which members are
    left out when empty.  That part is modelled on trees; only the
    quoting of string contents is left to the library. *)

Inductive json :=
| JString (s : string)
| JNumber (n : Z)
| JBool (b : bool)
| JObject (members : list (string * json)).

Definition dquote : string := String (ascii_of_nat 34) EmptyString.

Definition decimal (n : Z) : string := NilZero.string_of_int (Z.to_int n).

Fixpoint join (sep : string) (l : list string) : string :=
  match l with
  | [] => EmptyString
  | [x] => x
  | x :: rest => x ++ sep ++ join sep rest
  end.

(** The text of a tree; [quote] renders a string value. *)
Fixpoint json_encode (quote : string -> string) (j : json) : string :=
  match j with
  | JString s => quote s
  | JNumber n => decimal n
  | JBool b => if b then "true" else "false"
  | JObject ms =>
      "{" ++ join ","
               (List.map (fun m => dquote ++ fst m ++ dquote ++ ":"
                                   ++ json_encode quote (snd m)) ms)
          ++ "}"
  end.

(** The [omitempty] option of a struct tag. *)
Definition omitempty_string (k v : string) : list (string * json) :=
  if String.eqb v EmptyString then [] else [(k, JString v)].
Definition omitempty_int (k : string) (n : Z) : list (string * json) :=
  if (n =? 0)%Z then [] else [(k, JNumber n)].
Definition omitempty_bool (k : string) (b : bool) : list (string * json) :=
  if b then [(k, JBool true)] else [].

(** [member k j] : the value of the first member named [k]. *)
Fixpoint member (k : string) (ms : list (string * json)) : option json :=
  match ms with
  | [] => None
  | (k', v) :: rest => if String.eqb k k' then Some v else member k rest
  end.

(** ** The environment

    Whatever lies outside the package is a parameter: the network
    ([Dial], [WriteMessage], [conn_Close]) and the byte-level work of
    encoding/json.  [Dial i h] is the answer to the [i]-th dial of the
    run; [WriteMessage ws d] is the answer to writing [d] after the
    frames [ws]. *)

Definition Header := list (string * string).

Inductive DialResult :=
| dial_ok (c : Conn) (api_version : string)
| dial_err (e : error).

Section Lavago.

Variable Dial : nat -> Header -> DialResult.
Variable WriteMessage : list string -> string -> option error.
Variable conn_Close : Conn -> option error.

(** [json.Marshal] of an arbitrary value (used by [SendJSON] only). *)
Variable GoValue : Type.
Variable json_Marshal_value : GoValue -> error + string.

(** ** socket.go *)

Definition NewSocket (cfg : Config) : Socket :=
  {| sock_cfg := cfg; connectionAttempts := 0; reconnectInterval := 0;
     sock_conn := None; sock_connected := false; sock_sendClosed := false |}.

(** [s.connectionAttempts++; s.reconnectInterval += s.cfg.ReconnectDelay].
    The increment runs under [connectionAttempts < ReconnectAttempts], so it
    cannot wrap; the addition can. *)
Definition bump_retry (s : Socket) : Socket :=
  {| sock_cfg := sock_cfg s;
     connectionAttempts := connectionAttempts s + 1;
     reconnectInterval :=
       wrap64 (reconnectInterval s + ReconnectDelay (sock_cfg s));
     sock_conn := sock_conn s; sock_connected := sock_connected s;
     sock_sendClosed := sock_sendClosed s |}.

Definition set_open (c : Conn) (s : Socket) : Socket :=
  {| sock_cfg := sock_cfg s; connectionAttempts := connectionAttempts s;
     reconnectInterval := reconnectInterval s;
     sock_conn := Some c; sock_connected := true;
     sock_sendClosed := sock_sendClosed s |}.

Definition set_connected (b : bool) (s : Socket) : Socket :=
  {| sock_cfg := sock_cfg s; connectionAttempts := connectionAttempts s;
     reconnectInterval := reconnectInterval s;
     sock_conn := sock_conn s; sock_connected := b;
     sock_sendClosed := sock_sendClosed s |}.

Definition set_sendClosed (s : Socket) : Socket :=
  {| sock_cfg := sock_cfg s; connectionAttempts := connectionAttempts s;
     reconnectInterval := reconnectInterval s;
     sock_conn := sock_conn s; sock_connected := sock_connected s;
     sock_sendClosed := true |}.

(** [Connect] calls itself after each failed dial while the attempt
    counter is below the limit.  The recursion is on a fuel argument;
    [Socket_Connect] supplies one more than the attempts still allowed,
    which is always enough ([Socket_Connect_returns]). *)
Fixpoint Connect_rec (fuel : nat) (headers : Header) : M (option error) :=
  match fuel with
  | O => fun _ => Stuck
  | S fuel' =>
      let* w := get in
      match sock_conn (socket w) with
      | Some _ => ret (Some (errors_New "websocket is already in open state"))
      | None =>
          modify (with_trace log_dial) ;;
          match Dial (dialled (trace w)) headers with
          | dial_err err =>
              if (connectionAttempts (socket w)
                    <? ReconnectAttempts (sock_cfg (socket w)))%Z
              then
                modify (with_socket bump_retry) ;;
                let* w1 := get in
                modify (with_trace (log_sleep (reconnectInterval (socket w1)))) ;;
                Connect_rec fuel' headers
              else ret (Some err)
          | dial_ok c lverS =>
              match strconv_Atoi lverS with
              | inl err => ret (Some err)
              | inr lver =>
                  if (lver =? 3)%Z
                  then
                    modify (with_socket (set_open c)) ;;
                    modify (with_trace (log_go go_OnOpen)) ;;
                    modify (with_trace (log_go go_sendListener)) ;;
                    modify (with_trace (log_go go_readListener)) ;;
                    ret None
                  else ret (Some (errors_New
                         "this version of lavago only supports Lavalink v3.x"))
              end
          end
      end
  end.

Definition Connect_fuel (s : Socket) : nat :=
  S (Z.to_nat (ReconnectAttempts (sock_cfg s) - connectionAttempts s)).

Definition Socket_Connect (headers : Header) : M (option error) :=
  fun w => Connect_rec (Connect_fuel (socket w)) headers w.

(** [s.sendChan <- wsData{data, errChan}; err := <-errChan].  The channel
    is unbuffered and its only reader is [sendListener], which [Connect]
    starts when it stores the connection and which ends when the channel
    is closed; it answers with the result of [conn.WriteMessage]. *)
Definition through_sendChan (data : string) : M (option error) :=
  let* w := get in
  if sock_sendClosed (socket w) then throw send_on_closed_channel
  else match sock_conn (socket w) with
       | None => fun _ => Stuck
       | Some _ =>
           modify (with_trace (log_write data)) ;;
           ret (WriteMessage (written (trace w)) data)
       end.

Definition Socket_Send (data : string) : M (option error) :=
  let* w := get in
  if negb (sock_connected (socket w))
  then ret (Some (errors_New "can't send, no connection open"))
  else if (String.length data =? 0)%nat
  then ret (Some (errors_New "can't send no data"))
  else through_sendChan data.

Definition Socket_SendJSON (value : option GoValue) : M (option error) :=
  let* w := get in
  if negb (sock_connected (socket w))
  then ret (Some (errors_New "can't send, no connection open"))
  else match value with
       | None => ret (Some (errors_New "can't send nil value"))
       | Some v =>
           match json_Marshal_value v with
           | inl err => ret (Some err)
           | inr data => through_sendChan data
           end
       end.

Definition Socket_Close : M (option error) :=
  modify (with_socket (set_connected false)) ;;
  let* w := get in
  if sock_sendClosed (socket w) then throw close_of_closed_channel
  else
    modify (with_socket set_sendClosed) ;;
    match sock_conn (socket w) with
    | None => throw nil_dereference
    | Some c => ret (conn_Close c)
    end.

(** [readListener], the read pump.  [reads] are the successive answers
    [(msgType, data, err)] of [conn.ReadMessage]; when they run out the
    pump is blocked in the next read.  It goes on only after a message
    of type [CloseMessage] and returns on any other. *)
Definition CloseMessage : Z := 8.

Fixpoint Socket_readListener (reads : list (Z * string * option error)) : M unit :=
  match reads with
  | [] => fun _ => Stuck
  | (msgType, data, err) :: rest =>
      let* w := get in
      match sock_conn (socket w) with
      | None => throw nil_dereference
      | Some _ =>
          if negb (msgType =? CloseMessage)%Z then ret tt
          else
            (match err with
             | Some e => modify (with_trace (log_go (go_ErrorReceived e)))
             | None => ret tt
             end) ;;
            modify (with_trace (log_go (go_DataReceived data))) ;;
            Socket_readListener rest
      end
  end.

(** The methods of [Socket], as one type of operations ([sendListener]
    is the reader of the channel inside [Send]). *)
Inductive socket_op :=
| op_Connect (headers : Header)
| op_Send (data : string)
| op_SendJSON (value : option GoValue)
| op_Close
| op_readListener (reads : list (Z * string * option error)).

Definition run_socket_op (op : socket_op) : M (option error) :=
  match op with
  | op_Connect h => Socket_Connect h
  | op_Send d => Socket_Send d
  | op_SendJSON v => Socket_SendJSON v
  | op_Close => Socket_Close
  | op_readListener reads => Socket_readListener reads ;; ret None
  end.

(** ** payloads.go *)

(** [json_quote]: the library's quoting of a string value. *)
Variable json_quote : string -> string.

Record basePayload := mkBase { b_Op : string; b_GuildID : string }.

Record resumePayload := mkResume {
  r_Op : string; r_Key : string; r_Timeout : Z
}.

Record voiceServerPayload := mkVoiceServer {
  v_Token : string; v_Endpoint : string
}.

Record serverUpdatePayload := mkServerUpdate {
  su_Op : string; su_GuildID : string; su_SessionID : string;
  su_Event : voiceServerPayload
}.

Record playerPlayPayload := mkPlayPayload {
  pl_Op : string; pl_GuildID : string; pl_Track : string;
  pl_NoReplace : bool; pl_StartTime : Z; pl_EndTime : Z;
  pl_Volume : Z; pl_Pause : bool
}.

Record playerStopPayload := mkStopPayload { st_Op : string; st_GuildID : string }.

Record playerPausePayload := mkPausePayload {
  pa_Op : string; pa_GuildID : string; pa_Pause : bool
}.

Record playerSeekPayload := mkSeekPayload {
  sk_Op : string; sk_GuildID : string; sk_Position : Z
}.

Record playerVolumePayload := mkVolumePayload {
  vo_Op : string; vo_GuildID : string; vo_Volume : Z
}.

Record playerDestroyPayload := mkDestroyPayload {
  de_Op : string; de_GuildID : string
}.

Record recvDataEventPayload := mkRecv {
  rp_Op : string; rp_GuildID : string; rp_Type : string; rp_Track : string;
  rp_Reason : string; rp_Error : string; rp_ThresholdMs : Z; rp_Code : Z;
  rp_ByRemote : bool
}.

Definition trackStartEvent := "TrackStartEvent".
Definition trackEndEvent := "TrackEndEvent".
Definition trackExceptionEvent := "TrackExceptionEvent".
Definition trackStuckEvent := "TrackStuckEvent".
Definition webSocketClosedEvent := "WebSocketClosedEvent".

(** The member lists, tag by tag.  The tags of [Pause] in
    [playerPlayPayload] and [playerPausePayload] are those of the
    declaration that comes with [recvDataEventPayload] and the event
    constants, [json:"pause"]: the member is always written.  (An
    earlier declaration of the two structs has [json:"pause,omitempty"],
    which drops a false value; the statements below on the [pause]
    member hold for either tag.) *)
Definition json_of_resume (x : resumePayload) : json :=
  JObject (omitempty_string "op" (r_Op x) ++ omitempty_string "key" (r_Key x)
           ++ omitempty_int "timeout" (r_Timeout x))%list.

Definition json_of_voiceServer (x : voiceServerPayload) : json :=
  JObject (omitempty_string "token" (v_Token x)
           ++ omitempty_string "endpoint" (v_Endpoint x))%list.

Definition json_of_serverUpdate (x : serverUpdatePayload) : json :=
  JObject (omitempty_string "op" (su_Op x)
           ++ omitempty_string "guildId" (su_GuildID x)
           ++ omitempty_string "sessionId" (su_SessionID x)
           ++ [("event", json_of_voiceServer (su_Event x))])%list.

Definition json_of_play (x : playerPlayPayload) : json :=
  JObject (omitempty_string "op" (pl_Op x)
           ++ omitempty_string "guildId" (pl_GuildID x)
           ++ omitempty_string "track" (pl_Track x)
           ++ omitempty_bool "noReplace" (pl_NoReplace x)
           ++ omitempty_int "startTime" (pl_StartTime x)
           ++ omitempty_int "endTime" (pl_EndTime x)
           ++ omitempty_int "volume" (pl_Volume x)
           ++ [("pause", JBool (pl_Pause x))])%list.

Definition json_of_stop (x : playerStopPayload) : json :=
  JObject (omitempty_string "op" (st_Op x)
           ++ omitempty_string "guildId" (st_GuildID x))%list.

Definition json_of_pause (x : playerPausePayload) : json :=
  JObject (omitempty_string "op" (pa_Op x)
           ++ omitempty_string "guildId" (pa_GuildID x)
           ++ [("pause", JBool (pa_Pause x))])%list.

Definition json_of_seek (x : playerSeekPayload) : json :=
  JObject (omitempty_string "op" (sk_Op x)
           ++ omitempty_string "guildId" (sk_GuildID x)
           ++ omitempty_int "position" (sk_Position x))%list.

(** The tag of [Volume] in the source is [json:"position,omitempty"]. *)
Definition json_of_volume (x : playerVolumePayload) : json :=
  JObject (omitempty_string "op" (vo_Op x)
           ++ omitempty_string "guildId" (vo_GuildID x)
           ++ omitempty_int "position" (vo_Volume x))%list.

Definition json_of_destroy (x : playerDestroyPayload) : json :=
  JObject (omitempty_string "op" (de_Op x)
           ++ omitempty_string "guildId" (de_GuildID x))%list.

(** [json.Marshal] of these structs cannot fail (strings, integers and
    booleans only), so the [err != nil] branch after it is dead. *)
Definition Marshal (j : json) : string := json_encode json_quote j.

(** [json.Unmarshal] into the four inbound structs. *)
Variable Unmarshal_basePayload : string -> error + basePayload.
Variable Unmarshal_StatsReceivedEvent : string -> error + StatsReceivedEvent.
Variable Unmarshal_PlayerUpdatedEvent : string -> error + PlayerUpdatedEvent.
Variable Unmarshal_recvDataEventPayload : string -> error + recvDataEventPayload.

(** ** player.go *)

Definition set_State (st : PlayerState) (p : Player) : Player :=
  {| LastUpdate := LastUpdate p; State := st; Queue := Queue p;
     p_Track := p_Track p; GuildID := GuildID p; Volume := Volume p |}.
Definition set_Track (t : option Track) (p : Player) : Player :=
  {| LastUpdate := LastUpdate p; State := State p; Queue := Queue p;
     p_Track := t; GuildID := GuildID p; Volume := Volume p |}.
Definition set_Volume (v : Z) (p : Player) : Player :=
  {| LastUpdate := LastUpdate p; State := State p; Queue := Queue p;
     p_Track := p_Track p; GuildID := GuildID p; Volume := v |}.
Definition set_Queue (q : list queued) (p : Player) : Player :=
  {| LastUpdate := LastUpdate p; State := State p; Queue := q;
     p_Track := p_Track p; GuildID := GuildID p; Volume := Volume p |}.
Definition set_LastUpdate (t : Time) (p : Player) : Player :=
  {| LastUpdate := t; State := State p; Queue := Queue p;
     p_Track := p_Track p; GuildID := GuildID p; Volume := Volume p |}.

(** Reading through a [*Player]: an address with no object behind it
    behaves as nil. *)
Definition deref (p : ptr) : M Player :=
  fun w => match heap w !! p with
           | Some pl => Ret pl w
           | None => Panic nil_dereference
           end.

Definition update (p : ptr) (f : Player -> Player) : M unit :=
  let* pl := deref p in
  modify (with_heap (fun h => <[p := f pl]> h)).

Definition zero_Player (guildID : string) : Player :=
  {| LastUpdate := Time_zero; State := PlayerStateNone; Queue := [];
     p_Track := None; GuildID := guildID; Volume := 0 |}.

(** [&Player{...}]: a new object at an address no object has. *)
Definition NewPlayer (guildID : string) : M ptr :=
  fun w => let p := fresh (dom (heap w)) in
           Ret p (with_heap (fun h => <[p := zero_Player guildID]> h) w).

Definition is_None (st : PlayerState) : bool :=
  match st with PlayerStateNone => true | _ => false end.

Definition not_ready : error :=
  errors_New "player's current state is set to None. Please make sure Player is connected to a voice channel".

Definition Player_Stop (p : ptr) : M (option error) :=
  update p (set_State PlayerStateStopped) ;;
  let* pl := deref p in
  let data := Marshal (json_of_stop {| st_Op := "stop"; st_GuildID := GuildID pl |}) in
  Socket_Send data.

Definition Player_Close (p : ptr) : M (option error) :=
  Player_Stop p ;;
  let* pl := deref p in
  let data := Marshal (json_of_destroy
                {| de_Op := "destroy"; de_GuildID := GuildID pl |}) in
  let* err := Socket_Send data in
  update p (set_Queue []) ;;
  update p (set_Track None) ;;
  update p (set_State PlayerStateNone) ;;
  ret err.

Definition Player_Play (p : ptr) (args : PlayArgs) : M (option error) :=
  match a_Track args with
  | None => ret (Some (errors_New "can't play nil Track"))
  | Some track =>
      update p (set_State (if ShouldPause args then PlayerStatePaused
                           else PlayerStatePlaying)) ;;
      if (a_Volume args <? 0)%Z
      then ret (Some (errors_New "can't play with volume < 0"))
      else if (a_Volume args >? 1000)%Z
      then ret (Some (errors_New "can't play with volume > 1000"))
      else
        update p (set_Volume (a_Volume args)) ;;
        update p (set_Track (Some track)) ;;
        let* pl := deref p in
        let data := Marshal (json_of_play
             {| pl_Op := "play"; pl_GuildID := GuildID pl;
                pl_Track := Track_hash track; pl_NoReplace := NoReplace args;
                pl_StartTime := StartTime args; pl_EndTime := EndTime args;
                pl_Volume := a_Volume args; pl_Pause := ShouldPause args |}) in
        Socket_Send data
  end.

Definition Player_PlayTrack (p : ptr) (track : option Track) : M (option error) :=
  match track with
  | None => ret (Some (errors_New "can't play nil Track"))
  | Some t =>
      update p (set_State PlayerStatePlaying) ;;
      update p (set_Track (Some t)) ;;
      let* pl := deref p in
      let data := Marshal (json_of_play
           {| pl_Op := "play"; pl_GuildID := GuildID pl;
              pl_Track := Track_hash t; pl_NoReplace := false;
              pl_StartTime := 0; pl_EndTime := 0;
              pl_Volume := 100; pl_Pause := false |}) in
      Socket_Send data
  end.

Definition Player_Pause (p : ptr) : M (option error) :=
  let* pl := deref p in
  if is_None (State pl) then ret (Some not_ready)
  else
    update p (set_State (match p_Track pl with
                         | None => PlayerStateStopped
                         | Some _ => PlayerStatePaused
                         end)) ;;
    let data := Marshal (json_of_pause
         {| pa_Op := "pause"; pa_GuildID := GuildID pl; pa_Pause := true |}) in
    Socket_Send data.

Definition Player_Resume (p : ptr) : M (option error) :=
  let* pl := deref p in
  if is_None (State pl) then ret (Some not_ready)
  else
    update p (set_State (match p_Track pl with
                         | None => PlayerStateStopped
                         | Some _ => PlayerStatePlaying
                         end)) ;;
    let data := Marshal (json_of_pause
         {| pa_Op := "pause"; pa_GuildID := GuildID pl; pa_Pause := false |}) in
    Socket_Send data.

(** [Skip] returns [(skipped, current, err)]. *)
Definition Player_Skip (p : ptr) (delay : Z)
  : M (option Track * option Track * option error) :=
  let* pl := deref p in
  if is_None (State pl) then ret (None, None, Some not_ready)
  else
    let skipped := p_Track pl in
    match Queue pl with
    | [] =>
        let* err := Player_Stop p in
        ret (skipped, None, err)
    | currentI :: rest =>
        update p (set_Queue rest) ;;
        match currentI with
        | queued_other => throw type_assertion
        | queued_track current =>
            (if (delay =? 0)%Z then ret tt
             else modify (with_trace (log_sleep delay))) ;;
            let* err := Player_PlayTrack p current in
            ret (skipped, current, err)
        end
    end.

Definition Player_Seek (p : ptr) (position : Z) : M (option error) :=
  let* pl := deref p in
  if is_None (State pl) then ret (Some not_ready)
  else
    match p_Track pl with
    | None => throw nil_dereference
    | Some t =>
        if (position >? Length (Info t))%Z
        then ret (Some (fmt_Errorf_higher (Length (Info t))))
        else
          let data := Marshal (json_of_seek
               {| sk_Op := "seek"; sk_GuildID := GuildID pl;
                  sk_Position := position |}) in
          Socket_Send data
    end.

Definition Player_UpdateVolume (p : ptr) (volume : Z) : M (option error) :=
  update p (set_Volume volume) ;;
  let* pl := deref p in
  let data := Marshal (json_of_volume
       {| vo_Op := "volume"; vo_GuildID := GuildID pl; vo_Volume := volume |}) in
  Socket_Send data.

(** ** The node: registry and dispatcher *)

Definition set_node_connected (b : bool) (n : Node) : Node :=
  {| node_cfg := node_cfg n; node_connected := b; players := players n;
     voiceStates := voiceStates n; ConnectVoice := ConnectVoice n;
     PlayerUpdated := PlayerUpdated n; StatsReceived := StatsReceived n;
     TrackStarted := TrackStarted n; TrackEnded := TrackEnded n;
     TrackException := TrackException n; TrackStuck := TrackStuck n;
     WebSocketClosed := WebSocketClosed n |}.
Definition set_players (m : option (gmap string ptr)) (n : Node) : Node :=
  {| node_cfg := node_cfg n; node_connected := node_connected n; players := m;
     voiceStates := voiceStates n; ConnectVoice := ConnectVoice n;
     PlayerUpdated := PlayerUpdated n; StatsReceived := StatsReceived n;
     TrackStarted := TrackStarted n; TrackEnded := TrackEnded n;
     TrackException := TrackException n; TrackStuck := TrackStuck n;
     WebSocketClosed := WebSocketClosed n |}.
Definition set_voiceStates (m : option (gmap string voiceState)) (n : Node) : Node :=
  {| node_cfg := node_cfg n; node_connected := node_connected n;
     players := players n;
     voiceStates := m; ConnectVoice := ConnectVoice n;
     PlayerUpdated := PlayerUpdated n; StatsReceived := StatsReceived n;
     TrackStarted := TrackStarted n; TrackEnded := TrackEnded n;
     TrackException := TrackException n; TrackStuck := TrackStuck n;
     WebSocketClosed := WebSocketClosed n |}.

(** The state right after [NewNode(cfg)]: no callback is registered yet. *)
Definition NewNode (cfg : Config) : World :=
  {| socket := NewSocket cfg;
     node := {| node_cfg := cfg; node_connected := false;
                players := Some ∅; voiceStates := Some ∅;
                ConnectVoice := None;
                PlayerUpdated := false; StatsReceived := false;
                TrackStarted := false; TrackEnded := false;
                TrackException := false; TrackStuck := false;
                WebSocketClosed := false |};
     heap := ∅;
     trace := empty_trace |}.

Definition Node_Connect (userID shardCount : string) : M (option error) :=
  let* w := get in
  let cfg := node_cfg (node w) in
  let headers :=
    ([("User-Id", userID); ("Num-Shards", shardCount);
      ("Authorization", Authorization cfg); ("Client-Name", "Lavago")]
     ++ (if EnableResume cfg then [("Resume-Key", ResumeKey cfg)] else [])
     ++ (if String.eqb (UserAgent cfg) EmptyString then []
         else [("User-Agent", UserAgent cfg)]))%list in
  let* err := Socket_Connect headers in
  match err with
  | Some e => ret (Some e)
  | None => modify (with_node (set_node_connected true)) ;; ret None
  end.

Definition Node_Close : M (option error) :=
  let* w := get in
  if negb (node_connected (node w))
  then ret (Some (errors_New "can't close non-connected node"))
  else
    modify (with_node (set_node_connected false)) ;;
    modify (with_node (set_players None)) ;;
    modify (with_node (set_voiceStates None)) ;;
    Socket_Close.

(** [n.players.Load(guildID)]; a nil [*sync.Map] panics. *)
Definition players_Load (guildID : string) : M (option ptr) :=
  let* w := get in
  match players (node w) with
  | None => throw nil_dereference
  | Some m => ret (m !! guildID)
  end.

Definition players_Store (guildID : string) (p : ptr) : M unit :=
  let* w := get in
  match players (node w) with
  | None => throw nil_dereference
  | Some m => modify (with_node (set_players (Some (<[guildID := p]> m))))
  end.

Definition players_Delete (guildID : string) : M unit :=
  let* w := get in
  match players (node w) with
  | None => throw nil_dereference
  | Some m => modify (with_node (set_players (Some (delete guildID m))))
  end.

(** [Join] returns [(player, err)]. *)
Definition Node_Join (guildID voiceChannelID : string)
  : M (option ptr * option error) :=
  let* w := get in
  if negb (node_connected (node w))
  then ret (None, Some (errors_New "can't join on non-connected node"))
  else if String.eqb voiceChannelID EmptyString
  then ret (None, Some (errors_New "can't join (empty string) voice channel"))
  else
    let* playerI := players_Load guildID in
    match playerI with
    | Some p => ret (Some p, None)
    | None =>
        let create :=
          let* p := NewPlayer guildID in
          players_Store guildID p ;;
          ret (Some p, None) in
        match ConnectVoice (node w) with
        | None => create
        | Some connectVoice =>
            let deaf := SelfDeaf (node_cfg (node w)) in
            modify (with_trace (log_voice (guildID, voiceChannelID, deaf))) ;;
            match connectVoice guildID voiceChannelID deaf with
            | Some err => ret (None, Some err)
            | None => create
            end
        end
    end.

Definition Node_Leave (guildID : string) : M (option error) :=
  let* w := get in
  if negb (node_connected (node w))
  then ret (Some (errors_New "can't leave on non-connected node"))
  else
    let* playerI := players_Load guildID in
    match playerI with
    | None => ret None
    | Some p =>
        let* err := Player_Close p in
        players_Delete guildID ;;
        ret err
    end.

Definition Node_HasPlayer (guildID : string) : M bool :=
  let* playerI := players_Load guildID in
  ret (match playerI with Some _ => true | None => false end).

Definition Node_GetPlayer (guildID : string) : M (option ptr) :=
  players_Load guildID.

(** [int(n.cfg.ResumeTimeout.Seconds())]: whole seconds, toward zero.
    The code goes through a float64; the integer quotient agrees with it
    for every timeout that is a whole number of seconds (and for all
    timeouts below 2^24 s), which is where it is used below. *)
Definition whole_seconds (d : Z) : Z := Z.quot d 1000000000.

Definition Node_socketOnOpen : M unit :=
  modify (with_node (set_node_connected true)) ;;
  let* w := get in
  let cfg := node_cfg (node w) in
  if EnableResume cfg then
    let data := Marshal (json_of_resume
         {| r_Op := "configureResuming"; r_Key := ResumeKey cfg;
            r_Timeout := whole_seconds (ResumeTimeout cfg) |}) in
    let* err := Socket_Send data in
    match err with
    | Some _ => throw (panic_msg "Could not set resume")
    | None => ret tt
    end
  else ret tt.

(** [err.Error()] of a foreign error is its message; the two errors the
    package builds itself never reach the callers below. *)
Definition Error_text (e : error) : string :=
  match e with
  | errors_New m => m
  | fmt_Errorf_higher l => "value must not be higer than " ++ decimal l
  | foreign_error m => m
  end.

Definition Node_socketOnError (err : error) : M unit :=
  modify (with_trace (log_print ("ERR: " ++ Error_text err))).

Definition deliver (e : Event) : M unit :=
  modify (with_trace (log_event e)).

(** [time.ParseDuration(fmt.Sprintf("%vms", ms))]: the value in
    nanoseconds, an error when it does not fit 64 bits. *)
Definition ParseDuration_ms (ms : Z) : error + Z :=
  let ns := (ms * 1000000)%Z in
  if ((int64_min <=? ns) && (ns <=? int64_max))%Z then inr ns
  else inl (foreign_error "time: invalid duration").

(** [rp.Reason[0]] *)
Definition first_byte (s : string) : M ascii :=
  match s with
  | EmptyString => throw index_out_of_range
  | String c _ => ret c
  end.

Definition dispatch_event (bp : basePayload) (rp : recvDataEventPayload) : M unit :=
  let* w := get in
  let n := node w in
  if String.eqb (rp_Type rp) trackStartEvent then
    let* po := Node_GetPlayer (b_GuildID bp) in
    match po with
    | None => ret tt
    | Some p =>
        update p (set_State PlayerStatePlaying) ;;
        if negb (TrackStarted n) then ret tt
        else let* pl := deref p in
             deliver (TrackStarted_ev p (p_Track pl))
    end
  else if String.eqb (rp_Type rp) trackEndEvent then
    let* po := Node_GetPlayer (b_GuildID bp) in
    match po with
    | None => ret tt
    | Some p =>
        update p (set_State PlayerStateStopped) ;;
        if negb (TrackEnded n) then ret tt
        else let* pl := deref p in
             let* reason := first_byte (rp_Reason rp) in
             deliver (TrackEnded_ev p (p_Track pl) reason)
    end
  else if String.eqb (rp_Type rp) trackExceptionEvent then
    let* po := Node_GetPlayer (b_GuildID bp) in
    match po with
    | None => ret tt
    | Some p =>
        update p (set_State PlayerStateStopped) ;;
        if negb (TrackException n) then ret tt
        else let* pl := deref p in
             deliver (TrackException_ev p (p_Track pl) (rp_Error rp))
    end
  else if String.eqb (rp_Type rp) trackStuckEvent then
    let* po := Node_GetPlayer (b_GuildID bp) in
    match po with
    | None => ret tt
    | Some p =>
        update p (set_State PlayerStateStopped) ;;
        if negb (TrackStuck n) then ret tt
        else match ParseDuration_ms (rp_ThresholdMs rp) with
             | inl err =>
                 throw (panic_err "*Node.DataReceived: time.ParseDuration 'event' => " err)
             | inr dur =>
                 let* pl := deref p in
                 deliver (TrackStuck_ev p (p_Track pl) dur)
             end
    end
  else if String.eqb (rp_Type rp) webSocketClosedEvent then
    if negb (WebSocketClosed n) then ret tt
    else deliver (WebSocketClosed_ev (rp_GuildID rp) (rp_Code rp)
                                     (rp_Reason rp) (rp_ByRemote rp))
  else ret tt.

Definition Node_socketDataReceived (data : string) : M unit :=
  if (String.length data =? 0)%nat
  then throw (panic_msg "*Node.DataReceived: len(data) = 0")
  else
    match Unmarshal_basePayload data with
    | inl err => throw (panic_err "*Node.DataReceived: json.Unmarshal => " err)
    | inr bp =>
        let* w := get in
        let n := node w in
        if String.eqb (b_Op bp) "stats" then
          if negb (StatsReceived n) then ret tt
          else match Unmarshal_StatsReceivedEvent data with
               | inl err =>
                   throw (panic_err "*Node.DataReceived: json.Unmarshal 'stats' => " err)
               | inr sr => deliver (StatsReceived_ev sr)
               end
        else if String.eqb (b_Op bp) "playerUpdate" then
          match Unmarshal_PlayerUpdatedEvent data with
          | inl err =>
              throw (panic_err "*Node.DataReceived: json.Unmarshal 'playerUpdated' => " err)
          | inr pu =>
              let* po := Node_GetPlayer (b_GuildID bp) in
              match po with
              | None => ret tt
              | Some p =>
                  let* pl := deref p in
                  (match p_Track pl with
                   | None => ret tt
                   | Some t =>
                       update p (set_Track
                         (Some (updatePosition (pu_Position (pu_State pu)) t)))
                   end) ;;
                  update p (set_LastUpdate (Time_Unix (pu_Time (pu_State pu)))) ;;
                  if negb (PlayerUpdated n) then ret tt
                  else deliver (PlayerUpdated_ev
                         {| pu_Player := Some p; pu_Track := pu_Track pu;
                            pu_State := pu_State pu |})
              end
          end
        else if String.eqb (b_Op bp) "event" then
          match Unmarshal_recvDataEventPayload data with
          | inl err =>
              throw (panic_err "*Node.DataReceived: json.Unmarshal 'event' => " err)
          | inr rp => dispatch_event bp rp
          end
        else throw (panic_msg "*Node.DataReceived: switch.default")
    end.

Definition voiceStates_Load (guildID : string) : M (option voiceState) :=
  let* w := get in
  match voiceStates (node w) with
  | None => throw nil_dereference
  | Some m => ret (m !! guildID)
  end.

Definition Node_OnVoiceStateUpdate
    (shardUserID triggerUserID guildID sessionID : string) : M unit :=
  if negb (String.eqb shardUserID triggerUserID) then ret tt
  else
    let* w := get in
    match voiceStates (node w) with
    | None => throw nil_dereference
    | Some m =>
        modify (with_node (set_voiceStates (Some
          (<[guildID := {| vs_GuildID := guildID; vs_SessionID := sessionID |}]> m))))
    end.

Definition Node_OnVoiceServerUpdate (guildID endpoint token : string) : M unit :=
  let* vsI := voiceStates_Load guildID in
  match vsI with
  | None => ret tt
  | Some vs =>
      let data := Marshal (json_of_serverUpdate
           {| su_Op := "voiceUpdate"; su_GuildID := vs_GuildID vs;
              su_SessionID := vs_SessionID vs;
              su_Event := {| v_Endpoint := endpoint; v_Token := token |} |}) in
      let* err := Socket_Send data in
      match err with
      | Some e =>
          modify (with_trace (log_print
            ("*Node.OnVoiceServerUpdate ERR socked.Send: " ++ Error_text e)))
      | None => ret tt
      end
  end.

(** ** Specification vocabulary *)

(** One failed dial followed by a retry: the dial is counted, the counter
    and the interval grow, the interval is slept. *)
Definition retry_step (w : World) : World :=
  let w1 := with_socket bump_retry (with_trace log_dial w) in
  with_trace (log_sleep (reconnectInterval (socket w1))) w1.

Fixpoint retries (k : nat) (w : World) : World :=
  match k with
  | O => w
  | S k' => retries k' (retry_step w)
  end.

(** The waits of retries 1 .. n with delay d: d, 2d, ..., n*d, each as
    a 64-bit Duration. *)
Definition waits (n : nat) (d : Z) : list Z :=
  List.map (fun k : nat => wrap64 (Z.of_nat k * d)) (seq 1 n).

Definition strictly_increasing (l : list Z) : Prop :=
  forall (i j : nat) (x y : Z),
    l !! i = Some x -> l !! j = Some y -> (i < j)%nat -> x < y.

(** The attempt budget of a socket is used up. *)
Definition exhausted (s : Socket) : Prop :=
  ReconnectAttempts (sock_cfg s) <= connectionAttempts s.

(** Sockets obtained from [NewSocket cfg] by any sequence of method calls
    that return. *)
Inductive reachable (cfg : Config) : Socket -> Prop :=
| reachable_new : reachable cfg (NewSocket cfg)
| reachable_step (w w' : World) (op : socket_op) (r : option error) :
    reachable cfg (socket w) ->
    run_socket_op op w = Ret r w' ->
    reachable cfg (socket w').

(** A socket whose flags agree: while [connected] holds there is a
    connection and the send channel is open.  [Connect] and [Close]
    keep it so ([reachable_socket_ok]). *)
Definition socket_ok (s : Socket) : Prop :=
  (sock_connected s = true -> sock_sendClosed s = false) /\
  (sock_connected s = true \/ sock_sendClosed s = true ->
   exists c, sock_conn s = Some c).

(** What [Send] answers on such a socket, and the state it leaves. *)
Definition Send_answer (data : string) (w : World) : option error :=
  if negb (sock_connected (socket w))
  then Some (errors_New "can't send, no connection open")
  else if (String.length data =? 0)%nat
  then Some (errors_New "can't send no data")
  else WriteMessage (written (trace w)) data.

Definition Send_world (data : string) (w : World) : World :=
  if negb (sock_connected (socket w)) then w
  else if (String.length data =? 0)%nat then w
  else with_trace (log_write data) w.

Definition stop_frame (guildID : string) : string :=
  Marshal (json_of_stop {| st_Op := "stop"; st_GuildID := guildID |}).
Definition destroy_frame (guildID : string) : string :=
  Marshal (json_of_destroy {| de_Op := "destroy"; de_GuildID := guildID |}).
Definition pause_frame (guildID : string) (b : bool) : string :=
  Marshal (json_of_pause {| pa_Op := "pause"; pa_GuildID := guildID; pa_Pause := b |}).
Definition volume_frame (guildID : string) (v : Z) : string :=
  Marshal (json_of_volume {| vo_Op := "volume"; vo_GuildID := guildID; vo_Volume := v |}).

Definition put (p : ptr) (pl : Player) (w : World) : World :=
  with_heap (fun h => <[p := pl]> h) w.

(** Every registered player is an object of the heap. *)
Definition registry_ok (w : World) : Prop :=
  forall (m : gmap string ptr) (g : string) (p : ptr),
    players (node w) = Some m -> m !! g = Some p -> is_Some (heap w !! p).

(** The voice-join collaborator, if one is set, does not refuse. *)
Definition voice_accepts (n : Node) (guildID channelID : string) : Prop :=
  match ConnectVoice n with
  | None => True
  | Some connectVoice =>
      connectVoice guildID channelID (SelfDeaf (node_cfg n)) = None
  end.

(** The player [Close] leaves behind. *)
Definition closed_Player (pl : Player) : Player :=
  set_State PlayerStateNone
    (set_Track None (set_Queue [] (set_State PlayerStateStopped pl))).

Definition known_event_type (t : string) : bool :=
  String.eqb t trackStartEvent || String.eqb t trackEndEvent
  || String.eqb t trackExceptionEvent || String.eqb t trackStuckEvent
  || String.eqb t webSocketClosedEvent.

(** ** A sample environment

    Concrete answers of the outside world, for the examples: a server
    that refuses every dial, a transport that writes (or breaks), a
    quoting for strings that need no escape, and decoders that know the
    three sample frames below. *)

Definition refused : error := foreign_error "dial tcp: connection refused".
Definition dial_refused (i : nat) (h : Header) : DialResult := dial_err refused.
Definition write_ok (ws : list string) (d : string) : option error := None.
Definition broken_pipe : error := foreign_error "write: broken pipe".
Definition write_broken (ws : list string) (d : string) : option error :=
  Some broken_pipe.
Definition close_ok (c : Conn) : option error := None.
Definition plain_quote (s : string) : string := dquote ++ s ++ dquote.

Definition track_end_tree : json :=
  JObject [("op", JString "event"); ("guildId", JString "42");
           ("type", JString "TrackEndEvent"); ("reason", JString "FINISHED")].
Definition unknown_type_tree : json :=
  JObject [("op", JString "event"); ("guildId", JString "42");
           ("type", JString "TrackSkippedEvent")].
Definition unknown_kind_tree : json :=
  JObject [("op", JString "ready"); ("guildId", JString "42")].

Definition track_end_frame : string := json_encode plain_quote track_end_tree.
Definition unknown_type_frame : string := json_encode plain_quote unknown_type_tree.
Definition unknown_kind_frame : string := json_encode plain_quote unknown_kind_tree.

Definition sample_parse (data : string) : option json :=
  List.find (fun j => String.eqb (json_encode plain_quote j) data)
            [track_end_tree; unknown_type_tree; unknown_kind_tree].

Definition string_member (k : string) (ms : list (string * json)) : string :=
  match member k ms with Some (JString v) => v | _ => EmptyString end.

Definition sample_Unmarshal_basePayload (data : string) : error + basePayload :=
  match sample_parse data with
  | Some (JObject ms) =>
      inr {| b_Op := string_member "op" ms;
             b_GuildID := string_member "guildId" ms |}
  | _ => inl (foreign_error "invalid character")
  end.

Definition sample_Unmarshal_recvDataEventPayload (data : string)
  : error + recvDataEventPayload :=
  match sample_parse data with
  | Some (JObject ms) =>
      inr {| rp_Op := string_member "op" ms;
             rp_GuildID := string_member "guildId" ms;
             rp_Type := string_member "type" ms;
             rp_Track := string_member "track" ms;
             rp_Reason := string_member "reason" ms;
             rp_Error := string_member "error" ms;
             rp_ThresholdMs := 0; rp_Code := 0; rp_ByRemote := false |}
  | _ => inl (foreign_error "invalid character")
  end.

Definition sample_Unmarshal_StatsReceivedEvent (data : string)
  : error + StatsReceivedEvent := inl (foreign_error "invalid character").
Definition sample_Unmarshal_PlayerUpdatedEvent (data : string)
  : error + PlayerUpdatedEvent := inl (foreign_error "invalid character").

Definition sample_track : Track :=
  {| Track_hash := "QAAAjQIAJVJpY2sgQXN0bGV5";
     Info := {| Identifier := "dQw4w9WgXcQ"; Author := "Rick Astley";
                Title := "Never Gonna Give You Up"; CanSeek := true;
                Length := 212000; IsStream := false; Position := 0;
                URL := ""; SourceName := "youtube" |} |}.

(** A player that was stopped before any track was loaded. *)
Definition idle_player : Player :=
  set_State PlayerStateStopped (zero_Player "42").

Definition sample_node (m : gmap string ptr) : Node :=
  {| node_cfg := NewConfig; node_connected := true;
     players := Some m; voiceStates := Some ∅; ConnectVoice := None;
     PlayerUpdated := false; StatsReceived := false; TrackStarted := false;
     TrackEnded := true; TrackException := false; TrackStuck := false;
     WebSocketClosed := false |}.

(** Connected, guild 42 joined, its player at address 1. *)
Definition online_world : World :=
  {| socket := set_open 7%nat (NewSocket NewConfig);
     node := sample_node {["42" := 1%positive]};
     heap := {[1%positive := idle_player]};
     trace := empty_trace |}.

(** The same, after the connection was lost for good. *)
Definition offline_world : World :=
  {| socket := NewSocket NewConfig;
     node := sample_node {["42" := 1%positive]};
     heap := {[1%positive := idle_player]};
     trace := empty_trace |}.

(** A socket whose budget of ten attempts one failed [Connect] used up. *)
Definition spent_world : World :=
  with_trace log_dial (retries 10 (NewNode NewConfig)).

Definition loud_args : PlayArgs :=
  {| a_Track := Some sample_track; NoReplace := false; a_Volume := 1001;
     ShouldPause := false; StartTime := 0; EndTime := 0 |}.

(** Connected, nobody joined yet. *)
Definition lobby_world : World :=
  {| socket := set_open 7%nat (NewSocket NewConfig);
     node := sample_node ∅;
     heap := ∅;
     trace := empty_trace |}.

(** ** Further vocabulary and samples *)

(** The state [Connect] leaves when a dial answered with connection [c]. *)
Definition opened (c : Conn) (w : World) : World :=
  with_trace (log_go go_readListener)
    (with_trace (log_go go_sendListener)
       (with_trace (log_go go_OnOpen) (with_socket (set_open c) w))).

Definition not_connected : error :=
  errors_New "can't send, no connection open".

(** A server that refuses two dials and accepts the third. *)
Definition dial_third (i : nat) (h : Header) : DialResult :=
  if (i <? 2)%nat then dial_err refused else dial_ok 7%nat "3".

(** A server of another protocol version. *)
Definition dial_v4 (i : nat) (h : Header) : DialResult := dial_ok 7%nat "4".

(** [sends data w err w']: [Send] of a non-empty [data] in state [w]
    answers [err] and leaves [w']: on a connected socket the data is
    written and the answer is the transport's, otherwise nothing happens
    and the answer is the not-connected error. *)
Definition sends (data : string) (w : World) (err : option error) (w' : World)
  : Prop :=
  if sock_connected (socket w)
  then err = WriteMessage (written (trace w)) data /\
       w' = with_trace (log_write data) w
  else err = Some not_connected /\ w' = w.

Definition members_of (j : json) : list (string * json) :=
  match j with JObject ms => ms | _ => [] end.

Definition play_frame (guildID hash : string) (noReplace : bool)
    (startTime endTime volume : Z) (pause : bool) : string :=
  Marshal (json_of_play
    {| pl_Op := "play"; pl_GuildID := guildID; pl_Track := hash;
       pl_NoReplace := noReplace; pl_StartTime := startTime;
       pl_EndTime := endTime; pl_Volume := volume; pl_Pause := pause |}).

Definition seek_frame (guildID : string) (position : Z) : string :=
  Marshal (json_of_seek
    {| sk_Op := "seek"; sk_GuildID := guildID; sk_Position := position |}).

(** A player with a current track and two more in the queue. *)
Definition second_track : Track :=
  {| Track_hash := "QAAAdwIAHERhZnQgUHVuaw==";
     Info := {| Identifier := "gAjR4_CbPpQ"; Author := "Daft Punk";
                Title := "Harder, Better, Faster, Stronger"; CanSeek := true;
                Length := 224000; IsStream := false; Position := 0;
                URL := ""; SourceName := "youtube" |} |}.

Definition busy_player : Player :=
  {| LastUpdate := Time_zero; State := PlayerStatePlaying;
     Queue := [queued_track (Some second_track); queued_track None];
     p_Track := Some sample_track; GuildID := "42"; Volume := 80 |}.

Definition busy_world : World :=
  {| socket := set_open 7%nat (NewSocket NewConfig);
     node := sample_node {["42" := 1%positive]};
     heap := {[1%positive := busy_player]};
     trace := empty_trace |}.

(** A collaborator that refuses every voice join. *)
Definition voice_refused : error := foreign_error "voice: missing permissions".

Definition guarded_world : World :=
  {| socket := set_open 7%nat (NewSocket NewConfig);
     node := {| node_cfg := NewConfig; node_connected := true;
                players := Some ∅; voiceStates := Some ∅;
                ConnectVoice := Some (fun _ _ _ => Some voice_refused);
                PlayerUpdated := false; StatsReceived := false;
                TrackStarted := false; TrackEnded := false;
                TrackException := false; TrackStuck := false;
                WebSocketClosed := false |};
     heap := ∅;
     trace := empty_trace |}.

(** A collaborator that keeps the channel [staff] closed and accepts
    every other channel. *)
Definition voice_picky (guildID channelID : string) (deaf : bool)
  : option error :=
  if String.eqb channelID "staff" then Some voice_refused else None.

(** Connected, nobody joined yet, voice joins going through
    [voice_picky]. *)
Definition hosted_world : World :=
  {| socket := set_open 7%nat (NewSocket NewConfig);
     node := {| node_cfg := NewConfig; node_connected := true;
                players := Some ∅; voiceStates := Some ∅;
                ConnectVoice := Some voice_picky;
                PlayerUpdated := false; StatsReceived := false;
                TrackStarted := false; TrackEnded := false;
                TrackException := false; TrackStuck := false;
                WebSocketClosed := false |};
     heap := ∅;
     trace := empty_trace |}.

(** The default configuration with another retry limit and delay. *)
Definition set_backoff (attempts delay : Z) (cfg : Config) : Config :=
  {| Authorization := Authorization cfg; BufferSize := BufferSize cfg;
     EnableResume := EnableResume cfg; Hostname := Hostname cfg;
     LogSeverity := LogSeverity cfg; Port := Port cfg; SSL := SSL cfg;
     UserAgent := UserAgent cfg;
     ReconnectAttempts := attempts; ReconnectDelay := delay;
     ResumeKey := ResumeKey cfg; ResumeTimeout := ResumeTimeout cfg;
     SelfDeaf := SelfDeaf cfg |}.

(** Three retries with no delay, and three retries with a delay of -5ns. *)
Definition eager_config : Config := set_backoff 3 0 NewConfig.
Definition backward_config : Config := set_backoff 3 (-5) NewConfig.

(** A server that accepts the first dial. *)
Definition dial_accepted (i : nat) (h : Header) : DialResult :=
  dial_ok 7%nat "3".

Definition resume_frame (cfg : Config) : string :=
  Marshal (json_of_resume
    {| r_Op := "configureResuming"; r_Key := ResumeKey cfg;
       r_Timeout := whole_seconds (ResumeTimeout cfg) |}).

Definition voice_frame (guildID sessionID endpoint token : string) : string :=
  Marshal (json_of_serverUpdate
    {| su_Op := "voiceUpdate"; su_GuildID := guildID;
       su_SessionID := sessionID;
       su_Event := {| v_Endpoint := endpoint; v_Token := token |} |}).

(** The state after a callback was invoked, if one is registered. *)
Definition delivered_if (registered : bool) (e : Event) (w : World) : World :=
  if registered then with_trace (log_event e) w else w.

(** Decoders that answer with a given payload, or fail. *)
Definition always {A : Type} (x : A) (data : string) : error + A := inr x.
Definition never {A : Type} (data : string) : error + A :=
  inl (foreign_error "unexpected end of JSON input").

(** Guild 42 right after [Join]: its player is still in state None. *)
Definition joined_world : World :=
  {| socket := set_open 7%nat (NewSocket NewConfig);
     node := sample_node {["42" := 1%positive]};
     heap := {[1%positive := zero_Player "42"]};
     trace := empty_trace |}.

Definition nil_head_world : World :=
  put 1%positive (set_Queue [queued_track None; queued_other] busy_player)
      busy_world.

Definition other_head_world : World :=
  put 1%positive (set_Queue [queued_other] busy_player) busy_world.

Definition quiet_args : PlayArgs :=
  {| a_Track := Some sample_track; NoReplace := false; a_Volume := 0;
     ShouldPause := false; StartTime := 0; EndTime := 0 |}.

(** A node with every subscriber registered, guild 42 playing. *)
Definition live_world : World :=
  {| socket := set_open 7%nat (NewSocket NewConfig);
     node := {| node_cfg := NewConfig; node_connected := true;
                players := Some {["42" := 1%positive]};
                voiceStates := Some ∅; ConnectVoice := None;
                PlayerUpdated := true; StatsReceived := true;
                TrackStarted := true; TrackEnded := true;
                TrackException := true; TrackStuck := true;
                WebSocketClosed := true |};
     heap := {[1%positive := busy_player]};
     trace := empty_trace |}.

Definition tick : PlayerUpdatedEvent :=
  {| pu_Player := None; pu_Track := None;
     pu_State := {| pu_Position := 15000; pu_Time := 1700000000;
                    pu_Connected := true |} |}.

Definition sample_stats : StatsReceivedEvent :=
  {| CPU := ""; Frames := ""; Memory := ""; Players := 3;
     PlayingPlayers := 1; Uptime := Time_zero |}.

Definition event_of (guild type reason message : string) (ms : Z)
  : recvDataEventPayload :=
  {| rp_Op := "event"; rp_GuildID := guild; rp_Type := type; rp_Track := "";
     rp_Reason := reason; rp_Error := message; rp_ThresholdMs := ms;
     rp_Code := 4006; rp_ByRemote := true |}.

Definition sample_reads : list (Z * string * option error) :=
  [(CloseMessage, "bye", None); (1, "hello", None); (CloseMessage, "late", None)].

(** * Proofs *)

Ltac monad := unfold bind, get, modify, ret, throw in *; simpl in *.

(** ** Connect *)

Lemma wrap64_id (z : Z) : in_int64 z -> wrap64 z = z.
Proof.
  unfold in_int64, int64_min, int64_max, wrap64. intros H.
  rewrite Z.mod_small; lia.
Qed.

Lemma retries_fields (k : nat) : forall w,
  sock_cfg (socket (retries k w)) = sock_cfg (socket w) /\
  sock_conn (socket (retries k w)) = sock_conn (socket w) /\
  sock_connected (socket (retries k w)) = sock_connected (socket w) /\
  sock_sendClosed (socket (retries k w)) = sock_sendClosed (socket w) /\
  connectionAttempts (socket (retries k w))
    = connectionAttempts (socket w) + Z.of_nat k /\
  dialled (trace (retries k w)) = (dialled (trace w) + k)%nat /\
  node (retries k w) = node w /\ heap (retries k w) = heap w /\
  written (trace (retries k w)) = written (trace w) /\
  spawned (trace (retries k w)) = spawned (trace w) /\
  voiceCalls (trace (retries k w)) = voiceCalls (trace w) /\
  delivered (trace (retries k w)) = delivered (trace w) /\
  printed (trace (retries k w)) = printed (trace w).
Proof.
  induction k as [|k IH]; intros w; simpl.
  - repeat split; lia.
  - destruct (IH (retry_step w)) as (-> & -> & -> & -> & -> & -> & -> & -> & -> & -> & -> & -> & ->).
    simpl. repeat split; lia.
Qed.

(** Without overflow the interval after [k] more retries is the counter
    times the delay, and the waits are the successive multiples. *)
Lemma retries_backoff (d : Z) (k : nat) : forall w,
  ReconnectDelay (sock_cfg (socket w)) = d ->
  0 <= d ->
  0 <= connectionAttempts (socket w) ->
  reconnectInterval (socket w) = connectionAttempts (socket w) * d ->
  (connectionAttempts (socket w) + Z.of_nat k) * d <= int64_max ->
  reconnectInterval (socket (retries k w))
    = (connectionAttempts (socket w) + Z.of_nat k) * d /\
  slept (trace (retries k w))
    = (slept (trace w)
       ++ List.map (fun j : nat => (connectionAttempts (socket w) + Z.of_nat j) * d)
                   (seq 1 k))%list.
Proof.
  induction k as [|k IH]; intros w Hd Hd0 Ha Hi Hmax; simpl.
  - split; [rewrite Z.add_0_r; exact Hi | now rewrite app_nil_r].
  - assert (Hstep : reconnectInterval (socket (retry_step w))
                    = (connectionAttempts (socket w) + 1) * d).
    { simpl. rewrite Hd, Hi. rewrite wrap64_id; [lia|].
      unfold in_int64, int64_min. nia. }
    pose proof (IH (retry_step w)) as IH'. simpl in IH', Hstep.
    destruct IH' as [Hint Hsl];
      [exact Hd | exact Hd0 | lia | exact Hstep | nia |].
    split.
    + rewrite Hint. lia.
    + rewrite Hsl, Hstep, <- app_assoc. simpl. f_equal. f_equal.
      rewrite <- (seq_shift k 1), List.map_map. apply List.map_ext.
      intros j. lia.
Qed.

(** The loop: with every dial failing, [Connect] retries as long as the
    counter is below the limit and then returns the error of its last
    dial.  [k] is the number of attempts still allowed. *)
Lemma Connect_rec_all_fail (headers : Header) (E : nat -> error) :
  (forall i, Dial i headers = dial_err (E i)) ->
  forall (k fuel : nat) (w : World),
    sock_conn (socket w) = None ->
    Z.to_nat (ReconnectAttempts (sock_cfg (socket w))
              - connectionAttempts (socket w)) = k ->
    (k < fuel)%nat ->
    Connect_rec fuel headers w
    = Ret (Some (E (dialled (trace w) + k)%nat))
          (with_trace log_dial (retries k w)).
Proof.
  intros HE. induction k as [|k IH]; intros fuel w Hc Hk Hf.
  - destruct fuel as [|fuel]; [lia|].
    simpl. monad. rewrite Hc, HE.
    replace (Z.ltb _ _) with false by (symmetry; apply Z.ltb_ge; lia).
    now rewrite Nat.add_0_r.
  - destruct fuel as [|fuel]; [lia|].
    simpl. monad. rewrite Hc, HE.
    replace (Z.ltb _ _) with true by (symmetry; apply Z.ltb_lt; lia).
    specialize (IH fuel (retry_step w)).
    unfold retry_step in IH |- *. simpl in IH |- *.
    rewrite IH; [now rewrite Nat.add_succ_r | exact Hc | lia | lia].
Qed.

(** [Connect] always has fuel to spare: it never gets [Stuck]. *)
Lemma Connect_rec_returns (headers : Header) :
  forall (fuel : nat) (w : World),
    (Z.to_nat (ReconnectAttempts (sock_cfg (socket w))
               - connectionAttempts (socket w)) < fuel)%nat ->
    Connect_rec fuel headers w <> Stuck.
Proof.
  induction fuel as [|fuel IH]; intros w Hf; [lia|].
  simpl. monad.
  destruct (sock_conn (socket w)); [discriminate|].
  destruct (Dial _ _) as [c v|e].
  - destruct (strconv_Atoi v); [discriminate|].
    destruct (Z.eqb _ 3); discriminate.
  - destruct (Z.ltb _ _) eqn:Hlt; [|discriminate].
    apply Z.ltb_lt in Hlt. apply IH. simpl. lia.
Qed.

Lemma Socket_Connect_returns (headers : Header) (w : World) :
  Socket_Connect headers w <> Stuck.
Proof. apply Connect_rec_returns. unfold Connect_fuel. lia. Qed.

Lemma wrap64_add_l (a b : Z) : wrap64 (wrap64 a + b) = wrap64 (a + b).
Proof.
  unfold wrap64. f_equal.
  replace ((a + 2 ^ 63) mod 2 ^ 64 - 2 ^ 63 + b + 2 ^ 63)
    with ((a + 2 ^ 63) mod 2 ^ 64 + b) by ring.
  rewrite Zplus_mod_idemp_l. f_equal. ring.
Qed.

(** With wrap-around, the waits of [k] retries from a zero interval. *)
Lemma retries_waits (d : Z) (k : nat) : forall (w : World) (i0 : Z),
  ReconnectDelay (sock_cfg (socket w)) = d ->
  reconnectInterval (socket w) = wrap64 i0 ->
  slept (trace (retries k w))
  = (slept (trace w)
     ++ List.map (fun j : nat => wrap64 (i0 + Z.of_nat j * d)) (seq 1 k))%list.
Proof.
  induction k as [|k IH]; intros w i0 Hd Hi; simpl.
  - now rewrite app_nil_r.
  - rewrite (IH (retry_step w) (i0 + d)); simpl.
    + rewrite Hd, Hi, wrap64_add_l, <- app_assoc. simpl. f_equal. f_equal.
      * f_equal. ring.
      * rewrite <- (seq_shift k 1), List.map_map. apply List.map_ext.
        intros j. f_equal. lia.
    + exact Hd.
    + now rewrite Hd, Hi, wrap64_add_l.
Qed.

Lemma waits_lookup (n : nat) (d : Z) (k : nat) :
  (1 <= k <= n)%nat -> waits n d !! (k - 1)%nat = Some (wrap64 (Z.of_nat k * d)).
Proof.
  intros Hk. unfold waits. rewrite list_lookup_fmap.
  rewrite (proj2 (lookup_seq 1 n (k - 1) k)); [reflexivity|lia].
Qed.

Lemma waits_exact (n : nat) (d : Z) :
  0 < d -> Z.of_nat n * d <= int64_max ->
  waits n d = List.map (fun k : nat => Z.of_nat k * d) (seq 1 n).
Proof.
  intros Hd Hmax. unfold waits. apply map_ext_in. intros k Hk.
  apply in_seq in Hk. apply wrap64_id. unfold in_int64, int64_min. nia.
Qed.

Lemma waits_increasing (n : nat) (d : Z) :
  0 < d -> Z.of_nat n * d <= int64_max -> strictly_increasing (waits n d).
Proof.
  intros Hd Hmax i j x y Hi Hj Hij. rewrite (waits_exact n d Hd Hmax) in Hi, Hj.
  rewrite list_lookup_fmap in Hi, Hj.
  destruct (seq 1 n !! i) as [a|] eqn:Ea; [|discriminate].
  destruct (seq 1 n !! j) as [b|] eqn:Eb; [|discriminate].
  apply lookup_seq in Ea as [-> _]. apply lookup_seq in Eb as [-> _].
  simpl in Hi, Hj. injection Hi as <-. injection Hj as <-. nia.
Qed.

(** C1 (amended). On a freshly constructed socket with
    [ReconnectAttempts = N] and [ReconnectDelay = d], when every dial
    fails, [Connect] dials once, retries exactly [N] more times, sleeps
    the 64-bit Duration [k*d] (wrapped on overflow) before the [k]-th
    retry, and returns the error of the last dial.  For a positive delay
    whose multiples up to [N*d] fit a Duration the waits are exactly
    [d, 2d, ..., N*d], a strictly increasing sequence; the code does not
    check the delay, and without these two conditions the waits need
    not increase. *)
Theorem C1_connect_retries_then_last_error
    (cfg : Config) (headers : Header) (E : nat -> error) (w : World) :
  socket w = NewSocket cfg ->
  (forall i, Dial i headers = dial_err (E i)) ->
  let N := Z.to_nat (ReconnectAttempts cfg) in
  let d := ReconnectDelay cfg in
  exists w',
    Socket_Connect headers w = Ret (Some (E (dialled (trace w) + N)%nat)) w' /\
    dialled (trace w') = (dialled (trace w) + 1 + N)%nat /\
    slept (trace w') = (slept (trace w) ++ waits N d)%list /\
    length (waits N d) = N /\
    (forall k : nat, (1 <= k <= N)%nat ->
       waits N d !! (k - 1)%nat = Some (wrap64 (Z.of_nat k * d))) /\
    (0 < d -> Z.of_nat N * d <= int64_max ->
       (forall k : nat, (1 <= k <= N)%nat ->
          waits N d !! (k - 1)%nat = Some (Z.of_nat k * d)) /\
       strictly_increasing (waits N d)) /\
    connectionAttempts (socket w') = Z.of_nat N /\
    sock_conn (socket w') = None.
Proof.
  intros Hs HE N d.
  exists (with_trace log_dial (retries N w)).
  assert (Hk : Z.to_nat (ReconnectAttempts (sock_cfg (socket w))
                         - connectionAttempts (socket w)) = N).
  { rewrite Hs. simpl. subst N. f_equal. lia. }
  destruct (retries_fields N w) as (Hcfg & Hconn & _ & _ & Hatt & Hdial & _).
  pose proof (retries_waits d N w 0) as Hsl.
  rewrite Hs in Hsl. simpl in Hsl. specialize (Hsl eq_refl eq_refl).
  repeat apply conj.
  - unfold Socket_Connect, Connect_fuel.
    apply Connect_rec_all_fail; [exact HE | now rewrite Hs | exact Hk | lia].
  - simpl. rewrite Hdial. lia.
  - simpl. rewrite Hsl. reflexivity.
  - unfold waits. now rewrite length_map, length_seq.
  - apply waits_lookup.
  - intros Hd Hmax. split; [|now apply waits_increasing].
    intros k Hk1. rewrite (waits_exact N d Hd Hmax), list_lookup_fmap.
    rewrite (proj2 (lookup_seq 1 N (k - 1) k)); [reflexivity|lia].
  - simpl. rewrite Hatt, Hs. simpl. lia.
  - simpl. rewrite Hconn, Hs. reflexivity.
Qed.

(** ** The attempt budget over the life of a socket *)

(** Whatever the dials answer, a [Connect] that returns has performed some
    number [k] of retries, each under the guard of the limit. *)
Lemma Connect_rec_counters (headers : Header) :
  forall (fuel : nat) (w w' : World) (r : option error),
    Connect_rec fuel headers w = Ret r w' ->
    exists k : nat,
      sock_cfg (socket w') = sock_cfg (socket w) /\
      connectionAttempts (socket w') = connectionAttempts (socket (retries k w)) /\
      reconnectInterval (socket w') = reconnectInterval (socket (retries k w)) /\
      (k = 0%nat \/
       connectionAttempts (socket w) + Z.of_nat k
         <= ReconnectAttempts (sock_cfg (socket w))).
Proof.
  induction fuel as [|fuel IH]; intros w w' r H; [discriminate|].
  simpl in H. monad.
  destruct (sock_conn (socket w)).
  { injection H as <- <-. exists 0%nat. simpl. auto. }
  destruct (Dial _ _) as [c v|e].
  - exists 0%nat. simpl.
    destruct (strconv_Atoi v); [injection H as <- <-; simpl; auto|].
    destruct (Z.eqb _ 3); injection H as <- <-; simpl; auto.
  - destruct (Z.ltb _ _) eqn:Hlt.
    + apply Z.ltb_lt in Hlt.
      apply IH in H as (k & Hc & Ha & Hi & Hk). simpl in Hc, Hk.
      exists (S k). simpl. unfold retry_step. simpl.
      repeat split; try assumption.
      right. destruct Hk as [->|Hk]; lia.
    + injection H as <- <-. exists 0%nat. simpl. auto.
Qed.

(** The other methods leave the configuration and both counters alone. *)
Lemma through_sendChan_counters (data : string) (w w' : World) (r : option error) :
  through_sendChan data w = Ret r w' -> socket w' = socket w.
Proof.
  unfold through_sendChan. monad.
  destruct (sock_sendClosed (socket w)); [discriminate|].
  destruct (sock_conn (socket w)); [|discriminate].
  now injection 1 as <- <-.
Qed.

Lemma Socket_Send_counters (data : string) (w w' : World) (r : option error) :
  Socket_Send data w = Ret r w' -> socket w' = socket w.
Proof.
  unfold Socket_Send. monad.
  destruct (negb _); [now injection 1 as <- <-|].
  destruct (Nat.eqb _ _); [now injection 1 as <- <-|].
  apply through_sendChan_counters.
Qed.

Lemma Socket_SendJSON_counters value (w w' : World) (r : option error) :
  Socket_SendJSON value w = Ret r w' -> socket w' = socket w.
Proof.
  unfold Socket_SendJSON. monad.
  destruct (negb _); [now injection 1 as <- <-|].
  destruct value as [v|]; [|now injection 1 as <- <-].
  destruct (json_Marshal_value v); [now injection 1 as <- <-|].
  apply through_sendChan_counters.
Qed.

Lemma Socket_Close_counters (w w' : World) (r : option error) :
  Socket_Close w = Ret r w' ->
  sock_cfg (socket w') = sock_cfg (socket w) /\
  connectionAttempts (socket w') = connectionAttempts (socket w) /\
  reconnectInterval (socket w') = reconnectInterval (socket w).
Proof.
  unfold Socket_Close. monad.
  destruct (sock_sendClosed (socket w)); [discriminate|].
  destruct (sock_conn (socket w)); [|discriminate].
  injection 1 as <- <-. simpl. auto.
Qed.

Lemma Socket_readListener_counters reads : forall (w w' : World) (r : unit),
  Socket_readListener reads w = Ret r w' -> socket w' = socket w.
Proof.
  induction reads as [|[[msgType data] err] rest IH]; intros w w' r;
    [discriminate|].
  simpl. monad. destruct (sock_conn (socket w)); [|discriminate].
  destruct (negb _); [now injection 1 as <- <-|].
  destruct err as [e|]; intros H; apply IH in H; exact H.
Qed.

(** What one returning method call does to the counters. *)
Lemma socket_op_counters (op : socket_op) (w w' : World) (r : option error) :
  run_socket_op op w = Ret r w' ->
  exists k : nat,
    sock_cfg (socket w') = sock_cfg (socket w) /\
    connectionAttempts (socket w') = connectionAttempts (socket w) + Z.of_nat k /\
    reconnectInterval (socket w') = reconnectInterval (socket (retries k w)) /\
    (k = 0%nat \/
     connectionAttempts (socket w) + Z.of_nat k
       <= ReconnectAttempts (sock_cfg (socket w))).
Proof.
  destruct op as [h|d|v| |reads]; simpl; intros H.
  - apply Connect_rec_counters in H as (k & Hc & Ha & Hi & Hk).
    exists k. destruct (retries_fields k w) as (_ & _ & _ & _ & Hatt & _).
    rewrite Ha, Hatt. auto.
  - apply Socket_Send_counters in H as ->. exists 0%nat. simpl.
    repeat split; auto; lia.
  - apply Socket_SendJSON_counters in H as ->. exists 0%nat. simpl.
    repeat split; auto; lia.
  - apply Socket_Close_counters in H as (-> & -> & ->). exists 0%nat. simpl.
    repeat split; auto; lia.
  - unfold bind in H.
    destruct (Socket_readListener reads w) as [[] w1| |] eqn:Hrl;
      try discriminate.
    injection H as _ <-.
    apply Socket_readListener_counters in Hrl as ->. exists 0%nat. simpl.
    repeat split; auto; lia.
Qed.

(** On every socket built by [NewSocket cfg], the interval is the counter
    times the delay, and the counter stays within the limit. *)
Lemma reachable_backoff (cfg : Config) (s : Socket) :
  0 <= ReconnectDelay cfg ->
  ReconnectAttempts cfg * ReconnectDelay cfg <= int64_max ->
  reachable cfg s ->
  sock_cfg s = cfg /\
  0 <= connectionAttempts s <= Z.max 0 (ReconnectAttempts cfg) /\
  reconnectInterval s = connectionAttempts s * ReconnectDelay cfg.
Proof.
  intros Hd Hmax Hr. induction Hr as [|w w' op r _ IH Hop].
  - simpl. repeat split; lia.
  - destruct IH as (Hcfg & Ha & Hi).
    apply socket_op_counters in Hop as (k & Hc & Hatt & Hint & Hk).
    rewrite Hcfg in Hc, Hk.
    destruct (retries_backoff (ReconnectDelay cfg) k w) as [Hb _];
      [now rewrite Hcfg | exact Hd | lia | exact Hi | | ].
    + destruct Hk as [->|Hk]; [|nia].
      rewrite Z.add_0_r.
      assert (0 <= int64_max) by (unfold int64_max; lia).
      destruct (Z.le_gt_cases (ReconnectAttempts cfg) 0); nia.
    + rewrite Hc, Hint, Hb, Hatt. repeat split; try lia.
Qed.

(** C9 (amended). No method of a socket decreases or resets its attempt
    counter; its cumulative interval is not decreased either as long as
    the delay is non-negative and its multiples fit a Duration (a retry
    adds the signed delay unchecked, so a negative delay does decrease
    it).  The budget is spent once per socket, not once per [Connect].
    An exhausted budget stays exhausted, and on a disconnected socket
    with an exhausted budget a failing dial makes [Connect] return that
    first error at once, with no retry and no sleep. *)
Theorem C9_attempt_budget_is_per_socket (w : World) :
  (forall (op : socket_op) (r : option error) (w' : World),
      run_socket_op op w = Ret r w' ->
      sock_cfg (socket w') = sock_cfg (socket w) /\
      connectionAttempts (socket w) <= connectionAttempts (socket w') /\
      (exhausted (socket w) -> exhausted (socket w'))) /\
  (forall (cfg : Config) (op : socket_op) (r : option error) (w' : World),
      0 <= ReconnectDelay cfg ->
      ReconnectAttempts cfg * ReconnectDelay cfg <= int64_max ->
      reachable cfg (socket w) ->
      run_socket_op op w = Ret r w' ->
      reconnectInterval (socket w) <= reconnectInterval (socket w')) /\
  (forall (headers : Header) (e : error),
      exhausted (socket w) ->
      sock_conn (socket w) = None ->
      Dial (dialled (trace w)) headers = dial_err e ->
      Socket_Connect headers w = Ret (Some e) (with_trace log_dial w)).
Proof.
  repeat apply conj.
  - intros op r w' Hop.
    apply socket_op_counters in Hop as (k & Hc & Hatt & _).
    unfold exhausted. rewrite Hc, Hatt. repeat split; lia.
  - intros cfg op r w' Hd Hmax Hr Hop.
    assert (Hr' : reachable cfg (socket w')) by (eapply reachable_step; eauto).
    destruct (reachable_backoff cfg _ Hd Hmax Hr) as (Hc & Ha & Hi).
    destruct (reachable_backoff cfg _ Hd Hmax Hr') as (Hc' & Ha' & Hi').
    apply socket_op_counters in Hop as (k & _ & Hatt & _).
    rewrite Hi, Hi'. nia.
  - intros headers e Hex Hconn HD.
    unfold exhausted in Hex. unfold Socket_Connect, Connect_fuel.
    simpl. monad. rewrite Hconn, HD.
    replace (Z.ltb _ _) with false by (symmetry; apply Z.ltb_ge; lia).
    reflexivity.
Qed.

(** ** Send *)

Lemma Socket_Send_ok (data : string) (w : World) :
  socket_ok (socket w) ->
  Socket_Send data w = Ret (Send_answer data w) (Send_world data w).
Proof.
  intros Hok. unfold Socket_Send, Send_answer, Send_world, through_sendChan.
  monad. destruct (sock_connected (socket w)) eqn:Hc; simpl; [|reflexivity].
  destruct (Nat.eqb _ _); [reflexivity|]. simpl.
  destruct Hok as [Hcl Hconn]. rewrite (Hcl Hc).
  destruct Hconn as [c ->]; [now left | reflexivity].
Qed.

Lemma Send_world_socket (data : string) (w : World) :
  socket (Send_world data w) = socket w /\ heap (Send_world data w) = heap w
  /\ node (Send_world data w) = node w.
Proof.
  unfold Send_world. destruct (negb _); [auto|]. destruct (Nat.eqb _ _); auto.
Qed.

Lemma reachable_socket_ok (cfg : Config) (s : Socket) :
  reachable cfg s -> socket_ok s.
Proof.
  induction 1 as [|w w' op r _ IH Hop].
  { split; [discriminate | intros [?|?]; discriminate]. }
  destruct op as [h|d|v| |reads]; simpl in Hop.
  - unfold Socket_Connect in Hop.
    revert Hop IH. generalize (Connect_fuel (socket w)). intros fuel.
    revert w. induction fuel as [|fuel IHf]; intros w Hop IH; [discriminate|].
    simpl in Hop. monad.
    destruct (sock_conn (socket w)) eqn:Hconn; [now injection Hop as <- <-|].
    destruct (Dial _ _) as [c v|e].
    + destruct (strconv_Atoi v); [now injection Hop as <- <-|].
      destruct (Z.eqb _ 3); injection Hop as <- <-; [|exact IH].
      destruct IH as [_ IH]. split; simpl; [intros _|intros _; eexists; reflexivity].
      destruct (sock_sendClosed (socket w)); [|reflexivity].
      destruct IH as [c' Hc']; [now right | congruence].
    + destruct (Z.ltb _ _); [|now injection Hop as <- <-].
      apply IHf in Hop; [exact Hop|]. simpl. exact IH.
  - apply Socket_Send_counters in Hop as ->. exact IH.
  - apply Socket_SendJSON_counters in Hop as ->. exact IH.
  - unfold Socket_Close in Hop. monad.
    destruct (sock_sendClosed (socket w)); [discriminate|].
    destruct (sock_conn (socket w)) eqn:Hconn; [|discriminate].
    injection Hop as <- <-. split; simpl; [discriminate|].
    intros _. rewrite Hconn. eexists. reflexivity.
  - unfold bind in Hop.
    destruct (Socket_readListener reads w) as [[] w1| |] eqn:Hrl;
      try discriminate.
    injection Hop as _ <-.
    apply Socket_readListener_counters in Hrl as ->. exact IH.
Qed.

(** ** Players *)

Lemma deref_Some (p : ptr) (pl : Player) (w : World) :
  heap w !! p = Some pl -> deref p w = Ret pl w.
Proof. unfold deref. now intros ->. Qed.

Lemma update_Some (p : ptr) (pl : Player) (f : Player -> Player) (w : World) :
  heap w !! p = Some pl -> update p f w = Ret tt (put p (f pl) w).
Proof. unfold update, bind. intros H. now rewrite (deref_Some p pl w H). Qed.

Lemma heap_put (p : ptr) (pl : Player) (w : World) :
  heap (put p pl w) !! p = Some pl.
Proof. simpl. apply lookup_insert_eq. Qed.

Lemma put_put (p : ptr) (a b : Player) (w : World) :
  put p b (put p a w) = put p b w.
Proof. unfold put, with_heap. simpl. f_equal. apply insert_insert_eq. Qed.

(** An encoded object is never the empty byte string. *)
Lemma Marshal_object_nonempty (ms : list (string * json)) :
  (String.length (Marshal (JObject ms)) =? 0)%nat = false.
Proof. reflexivity. Qed.

Lemma Player_Stop_ok (p : ptr) (pl : Player) (w : World) :
  heap w !! p = Some pl ->
  socket_ok (socket w) ->
  let w1 := put p (set_State PlayerStateStopped pl) w in
  Player_Stop p w = Socket_Send (stop_frame (GuildID pl)) w1.
Proof.
  intros Hp Hok w1. unfold Player_Stop, bind at 1.
  rewrite (update_Some p pl _ w Hp). unfold bind.
  now rewrite (deref_Some p _ _ (heap_put p _ w)).
Qed.

(** C4. What [Play] does with a track and a volume outside [0, 1000]:
    it returns a range error, sends nothing, and leaves the track and
    the volume as they were, but the state has already been set to
    Paused or Playing.  With volume 0 or 1000 the range check passes:
    track and volume are stored and the play frame goes to [Send]. *)
Theorem C4_play_out_of_range_sets_state_first
    (w : World) (p : ptr) (pl : Player) (args : PlayArgs) (track : Track) :
  heap w !! p = Some pl ->
  a_Track args = Some track ->
  let st := if ShouldPause args then PlayerStatePaused else PlayerStatePlaying in
  (a_Volume args < 0 \/ 1000 < a_Volume args ->
   exists (msg : string) (w' : World),
     Player_Play p args w = Ret (Some (errors_New msg)) w' /\
     trace w' = trace w /\ socket w' = socket w /\
     heap w' !! p = Some (set_State st pl) /\
     p_Track (set_State st pl) = p_Track pl /\
     Volume (set_State st pl) = Volume pl /\
     State (set_State st pl) = st) /\
  (a_Volume args = 0 \/ a_Volume args = 1000 ->
   let pl1 := set_Track (Some track)
                (set_Volume (a_Volume args) (set_State st pl)) in
   let data := Marshal (json_of_play
        {| pl_Op := "play"; pl_GuildID := GuildID pl;
           pl_Track := Track_hash track; pl_NoReplace := NoReplace args;
           pl_StartTime := StartTime args; pl_EndTime := EndTime args;
           pl_Volume := a_Volume args; pl_Pause := ShouldPause args |}) in
   Player_Play p args w = Socket_Send data (put p pl1 w)).
Proof.
  intros Hp Ht st. split.
  - intros Hv. unfold Player_Play. rewrite Ht. unfold bind at 1.
    rewrite (update_Some p pl _ w Hp). fold st.
    destruct (Z.ltb_spec (a_Volume args) 0) as [Hlt|Hge].
    + eexists _, _. split; [reflexivity|]. simpl.
      rewrite lookup_insert_eq. repeat split.
    + destruct (Z.gtb_spec (a_Volume args) 1000) as [Hgt|Hle]; [|lia].
      eexists _, _. split; [reflexivity|]. simpl.
      rewrite lookup_insert_eq. repeat split.
  - intros Hv. unfold Player_Play. rewrite Ht. unfold bind at 1.
    rewrite (update_Some p pl _ w Hp). fold st.
    destruct (Z.ltb_spec (a_Volume args) 0) as [Hlt|Hge]; [lia|].
    destruct (Z.gtb_spec (a_Volume args) 1000) as [Hgt|Hle]; [lia|].
    unfold bind at 1.
    rewrite (update_Some p _ _ _ (heap_put p _ w)), put_put. unfold bind at 1.
    rewrite (update_Some p _ _ _ (heap_put p _ w)), put_put. unfold bind at 1.
    rewrite (deref_Some p _ _ (heap_put p _ w)).
    reflexivity.
Qed.

(** C5. [UpdateVolume v] stores [v] in the player whatever its value, and
    the frame it hands to a connected socket is an object of kind
    [volume] that carries [v] under the member name [position]; it has
    no member named [volume]. *)
Theorem C5_volume_frame_members
    (w : World) (p : ptr) (pl : Player) (v : Z) :
  heap w !! p = Some pl ->
  socket_ok (socket w) ->
  let members := (omitempty_string "op" "volume"
                  ++ omitempty_string "guildId" (GuildID pl)
                  ++ omitempty_int "position" v)%list in
  let frame := json_encode json_quote (JObject members) in
  exists (err : option error) (w' : World),
    Player_UpdateVolume p v w = Ret err w' /\
    heap w' !! p = Some (set_Volume v pl) /\
    Volume (set_Volume v pl) = v /\
    (sock_connected (socket w) = true ->
     err = WriteMessage (written (trace w)) frame /\
     written (trace w') = (written (trace w) ++ [frame])%list) /\
    member "op" members = Some (JString "volume") /\
    member "volume" members = None /\
    (v <> 0 -> member "position" members = Some (JNumber v)).
Proof.
  intros Hp Hok members frame.
  set (w1 := put p (set_Volume v pl) w).
  exists (Send_answer frame w1), (Send_world frame w1).
  repeat apply conj.
  - unfold Player_UpdateVolume, bind at 1.
    rewrite (update_Some p pl _ w Hp). unfold bind.
    rewrite (deref_Some p _ _ (heap_put p _ w)).
    apply Socket_Send_ok. exact Hok.
  - destruct (Send_world_socket frame w1) as (_ & -> & _). apply heap_put.
  - reflexivity.
  - intros Hc. unfold Send_answer, Send_world. simpl. rewrite Hc. simpl.
    split; reflexivity.
  - reflexivity.
  - subst members. unfold omitempty_string, omitempty_int. simpl.
    destruct (String.eqb (GuildID pl) ""), (Z.eqb v 0); reflexivity.
  - intros Hv. subst members. unfold omitempty_string, omitempty_int. simpl.
    destruct (Z.eqb_spec v 0) as [->|_]; [lia|].
    destruct (String.eqb (GuildID pl) ""); reflexivity.
Qed.

(** C7 (amended). On a player whose state is not None and whose queue is
    empty, [Skip] sets the state to Stopped, sleeps nothing, and returns
    the current track as skipped, a nil next track, and the result of
    sending the stop frame: no error when that send succeeds, the
    send's error otherwise. *)
Theorem C7_skip_empty_queue_stops
    (w : World) (p : ptr) (pl : Player) (delay : Z) :
  heap w !! p = Some pl ->
  State pl <> PlayerStateNone ->
  Queue pl = [] ->
  socket_ok (socket w) ->
  let w1 := put p (set_State PlayerStateStopped pl) w in
  let frame := stop_frame (GuildID pl) in
  exists (err : option error) (w' : World),
    Player_Skip p delay w = Ret (p_Track pl, None, err) w' /\
    Socket_Send frame w1 = Ret err w' /\
    heap w' !! p = Some (set_State PlayerStateStopped pl) /\
    slept (trace w') = slept (trace w) /\
    (sock_connected (socket w) = true ->
     WriteMessage (written (trace w)) frame = None -> err = None) /\
    (sock_connected (socket w) = false ->
     err = Some (errors_New "can't send, no connection open")).
Proof.
  intros Hp Hst Hq Hok w1 frame.
  exists (Send_answer frame w1), (Send_world frame w1).
  assert (Hsend : Socket_Send frame w1
                  = Ret (Send_answer frame w1) (Send_world frame w1))
    by (apply Socket_Send_ok; exact Hok).
  split; [|split; [exact Hsend|]].
  - unfold Player_Skip, bind at 1. rewrite (deref_Some p pl w Hp).
    destruct (State pl); [congruence| | |]; simpl; rewrite Hq;
      unfold bind; rewrite (Player_Stop_ok p pl w Hp Hok);
      fold w1; fold frame; rewrite Hsend; reflexivity.
  - destruct (Send_world_socket frame w1) as (_ & -> & _).
    split; [apply heap_put|].
    unfold Send_answer, Send_world. simpl.
    destruct (sock_connected (socket w)); simpl.
    + repeat split; [intros _ H; exact H | discriminate].
    + repeat split; discriminate.
Qed.

(** C10. [Seek] on a player whose state is not None and whose track is nil
    reads the length through the nil track: it panics with a nil
    dereference, for every position, instead of returning an error.
    [Pause] on such a player returns and leaves it in that
    configuration, with state Stopped. *)
Theorem C10_seek_without_track_panics
    (w : World) (p : ptr) (pl : Player) (position : Z) :
  heap w !! p = Some pl ->
  State pl <> PlayerStateNone ->
  p_Track pl = None ->
  socket_ok (socket w) ->
  Player_Seek p position w = Panic nil_dereference /\
  exists (err : option error) (w' : World),
    Player_Pause p w = Ret err w' /\
    heap w' !! p = Some (set_State PlayerStateStopped pl) /\
    Player_Seek p position w' = Panic nil_dereference.
Proof.
  intros Hp Hst Ht Hok.
  assert (Hseek : forall w0 pl0, heap w0 !! p = Some pl0 ->
            State pl0 <> PlayerStateNone -> p_Track pl0 = None ->
            Player_Seek p position w0 = Panic nil_dereference).
  { intros w0 pl0 H0 Hs0 Ht0. unfold Player_Seek, bind.
    rewrite (deref_Some p pl0 w0 H0), Ht0.
    destruct (State pl0); [congruence| | |]; reflexivity. }
  split; [now apply (Hseek w pl)|].
  set (w1 := put p (set_State PlayerStateStopped pl) w).
  set (frame := pause_frame (GuildID pl) true).
  exists (Send_answer frame w1), (Send_world frame w1).
  assert (Hh : heap (Send_world frame w1) !! p
               = Some (set_State PlayerStateStopped pl)).
  { destruct (Send_world_socket frame w1) as (_ & -> & _). apply heap_put. }
  split; [|split; [exact Hh|]].
  - unfold Player_Pause, bind at 1. rewrite (deref_Some p pl w Hp).
    destruct (State pl); [congruence| | |]; simpl; unfold bind at 1;
      rewrite (update_Some p pl _ w Hp), Ht; fold w1; fold frame;
      apply Socket_Send_ok; exact Hok.
  - apply (Hseek _ _ Hh); [discriminate | exact Ht].
Qed.

(** ** The dispatcher *)

Lemma players_Load_Some (g : string) (m : gmap string ptr) (w : World) :
  players (node w) = Some m -> players_Load g w = Ret (m !! g) w.
Proof. unfold players_Load. monad. now intros ->. Qed.

Lemma length_nonempty (data : string) :
  data <> EmptyString -> (String.length data =? 0)%nat = false.
Proof. destruct data; [congruence | reflexivity]. Qed.

(** C2. What the frame handler does with unrecognised discriminators.
    An unrecognised top-level kind is fatal: the handler panics.  An
    [event] frame whose inner type is unrecognised is not: the handler
    returns and nothing has changed. *)
Theorem C2_unknown_kind_panics_unknown_type_ignored
    (w : World) (data : string) (bp : basePayload) :
  data <> EmptyString ->
  Unmarshal_basePayload data = inr bp ->
  (b_Op bp <> "stats" -> b_Op bp <> "playerUpdate" -> b_Op bp <> "event" ->
   Node_socketDataReceived data w
   = Panic (panic_msg "*Node.DataReceived: switch.default")) /\
  (forall rp : recvDataEventPayload,
     b_Op bp = "event" ->
     Unmarshal_recvDataEventPayload data = inr rp ->
     known_event_type (rp_Type rp) = false ->
     Node_socketDataReceived data w = Ret tt w).
Proof.
  intros Hd Hbp. unfold Node_socketDataReceived.
  rewrite (length_nonempty data Hd), Hbp. split.
  - intros H1 H2 H3. monad.
    apply String.eqb_neq in H1, H2, H3. now rewrite H1, H2, H3.
  - intros rp Hop Hrp Hty. monad. rewrite Hop. simpl. rewrite Hrp.
    unfold known_event_type in Hty.
    repeat (apply orb_false_elim in Hty as [Hty ?]).
    unfold dispatch_event. monad.
    repeat match goal with H : String.eqb _ _ = false |- _ => rewrite H; clear H end.
    reflexivity.
Qed.

(** C3. An [event] frame of type TrackEndEvent whose reason begins with
    the byte F, for a guild with a registered player: the player's state
    becomes Stopped, and a registered TrackEnded subscriber receives
    exactly one event, with reason Finished; nothing else is delivered. *)
Theorem C3_track_end_finished
    (w : World) (data rest : string) (bp : basePayload)
    (rp : recvDataEventPayload) (m : gmap string ptr) (p : ptr) (pl : Player) :
  data <> EmptyString ->
  Unmarshal_basePayload data = inr bp ->
  b_Op bp = "event" ->
  Unmarshal_recvDataEventPayload data = inr rp ->
  rp_Type rp = trackEndEvent ->
  rp_Reason rp = String "F"%char rest ->
  players (node w) = Some m ->
  m !! b_GuildID bp = Some p ->
  heap w !! p = Some pl ->
  exists w' : World,
    Node_socketDataReceived data w = Ret tt w' /\
    heap w' = <[p := set_State PlayerStateStopped pl]> (heap w) /\
    State (set_State PlayerStateStopped pl) = PlayerStateStopped /\
    delivered (trace w')
    = (delivered (trace w)
       ++ (if TrackEnded (node w)
           then [TrackEnded_ev p (p_Track pl) FinishedReason]
           else []))%list /\
    node w' = node w /\ socket w' = socket w.
Proof.
  intros Hd Hbp Hop Hrp Hty Hre Hm Hg Hp.
  unfold Node_socketDataReceived.
  rewrite (length_nonempty data Hd), Hbp. unfold bind at 1, get at 1.
  rewrite Hop. simpl. rewrite Hrp.
  unfold dispatch_event, bind at 1, get at 1. rewrite Hty. simpl.
  unfold Node_GetPlayer, bind at 1.
  rewrite (players_Load_Some _ m w Hm), Hg.
  unfold bind at 1. rewrite (update_Some p pl _ w Hp).
  destruct (TrackEnded (node w)) eqn:Hsub; simpl.
  - unfold bind at 1. rewrite (deref_Some p _ _ (heap_put p _ w)).
    rewrite Hre. monad. eexists. split; [reflexivity|]. simpl.
    repeat split.
  - eexists. split; [reflexivity|]. simpl. rewrite app_nil_r. repeat split.
Qed.

(** ** The registry *)

Lemma Node_Join_existing (w : World) (g c : string) (m : gmap string ptr) (p : ptr) :
  node_connected (node w) = true ->
  c <> EmptyString ->
  players (node w) = Some m ->
  m !! g = Some p ->
  Node_Join g c w = Ret (Some p, None) w.
Proof.
  intros Hc Hne Hm Hg. unfold Node_Join, bind at 1, get at 1.
  rewrite Hc. simpl. apply String.eqb_neq in Hne. rewrite Hne.
  unfold bind. now rewrite (players_Load_Some _ m w Hm), Hg.
Qed.

Lemma Node_Join_new (w : World) (g c : string) (m : gmap string ptr) :
  node_connected (node w) = true ->
  c <> EmptyString ->
  players (node w) = Some m ->
  m !! g = None ->
  voice_accepts (node w) g c ->
  let p := fresh (dom (heap w)) in
  exists w' : World,
    Node_Join g c w = Ret (Some p, None) w' /\
    heap w' = <[p := zero_Player g]> (heap w) /\
    players (node w') = Some (<[g := p]> m) /\
    node_connected (node w') = true /\
    ConnectVoice (node w') = ConnectVoice (node w) /\
    node_cfg (node w') = node_cfg (node w) /\
    socket w' = socket w.
Proof.
  intros Hc Hne Hm Hg Hv p. unfold Node_Join, bind at 1, get at 1.
  rewrite Hc. simpl. apply String.eqb_neq in Hne. rewrite Hne.
  unfold bind at 1. rewrite (players_Load_Some _ m w Hm), Hg.
  unfold voice_accepts in Hv.
  destruct (ConnectVoice (node w)) as [cv|] eqn:Hcv.
  - monad. rewrite Hv. unfold NewPlayer, players_Store. monad. rewrite Hm.
    eexists. split; [reflexivity|]. simpl. rewrite Hc, Hcv. repeat split.
  - unfold NewPlayer, players_Store. monad. rewrite Hm.
    eexists. split; [reflexivity|]. simpl. rewrite Hc, Hcv. repeat split.
Qed.


(** A refused [Join]: the collaborator was called, nothing else happened. *)
Lemma Node_Join_refused (w : World) (g c : string) (m : gmap string ptr)
    (connectVoice : string -> string -> bool -> option error) (e : error) :
  node_connected (node w) = true ->
  c <> EmptyString ->
  players (node w) = Some m ->
  m !! g = None ->
  ConnectVoice (node w) = Some connectVoice ->
  connectVoice g c (SelfDeaf (node_cfg (node w))) = Some e ->
  Node_Join g c w
  = Ret (None, Some e)
        (with_trace (log_voice (g, c, SelfDeaf (node_cfg (node w)))) w).
Proof.
  intros Hc Hne Hm Hg Hcv He.
  unfold Node_Join, bind at 1, get at 1. rewrite Hc. simpl.
  apply String.eqb_neq in Hne. rewrite Hne.
  unfold bind at 1. rewrite (players_Load_Some _ m w Hm), Hg, Hcv.
  monad. now rewrite He.
Qed.

(** Whatever it answers, a [Join] for a guild without a player on a node
    with a collaborator calls the collaborator exactly once. *)
Lemma Node_Join_calls (w : World) (g c : string) (m : gmap string ptr)
    (connectVoice : string -> string -> bool -> option error) :
  node_connected (node w) = true ->
  c <> EmptyString ->
  players (node w) = Some m ->
  m !! g = None ->
  ConnectVoice (node w) = Some connectVoice ->
  exists (r : option ptr * option error) (w' : World),
    Node_Join g c w = Ret r w' /\
    voiceCalls (trace w')
    = (voiceCalls (trace w) ++ [(g, c, SelfDeaf (node_cfg (node w)))])%list.
Proof.
  intros Hc Hne Hm Hg Hcv.
  destruct (connectVoice g c (SelfDeaf (node_cfg (node w)))) as [e|] eqn:He.
  - eexists _, _. split.
    + apply (Node_Join_refused w g c m connectVoice e); assumption.
    + reflexivity.
  - unfold Node_Join, bind at 1, get at 1. rewrite Hc. simpl.
    apply String.eqb_neq in Hne. rewrite Hne.
    unfold bind at 1. rewrite (players_Load_Some _ m w Hm), Hg, Hcv.
    monad. rewrite He. unfold NewPlayer, players_Store. monad. rewrite Hm.
    eexists _, _. split; reflexivity.
Qed.

(** C6 (amended). On a connected node, with non-empty channel ids: when
    the guild already has a player, or the voice-join collaborator (if
    one is registered) accepts the first [Join], the first [Join]
    returns a player and the second [Join] for that guild returns the
    same player and leaves the whole state as it is, so the registry is
    unchanged and the collaborator is not called again.  When the
    collaborator refuses the first [Join], that call returns the
    collaborator's error and registers nothing, and the second [Join]
    calls the collaborator again. *)
Theorem C6_join_twice_same_player
    (w : World) (g c1 c2 : string) (m : gmap string ptr) :
  node_connected (node w) = true ->
  players (node w) = Some m ->
  registry_ok w ->
  c1 <> EmptyString ->
  c2 <> EmptyString ->
  (is_Some (m !! g) \/ voice_accepts (node w) g c1 ->
   exists (p : ptr) (w1 : World),
     Node_Join g c1 w = Ret (Some p, None) w1 /\
     Node_Join g c2 w1 = Ret (Some p, None) w1 /\
     is_Some (heap w1 !! p)) /\
  (forall (connectVoice : string -> string -> bool -> option error) (e : error),
     m !! g = None ->
     ConnectVoice (node w) = Some connectVoice ->
     connectVoice g c1 (SelfDeaf (node_cfg (node w))) = Some e ->
     let deaf := SelfDeaf (node_cfg (node w)) in
     let w1 := with_trace (log_voice (g, c1, deaf)) w in
     Node_Join g c1 w = Ret (None, Some e) w1 /\
     players (node w1) = Some m /\
     heap w1 = heap w /\
     exists (r : option ptr * option error) (w2 : World),
       Node_Join g c2 w1 = Ret r w2 /\
       voiceCalls (trace w2)
       = (voiceCalls (trace w) ++ [(g, c1, deaf); (g, c2, deaf)])%list).
Proof.
  intros Hc Hm Hreg H1 H2. split.
  - intros Hv. destruct (m !! g) as [p|] eqn:Hg.
    + exists p, w. split; [|split].
      * now apply (Node_Join_existing w g c1 m p).
      * now apply (Node_Join_existing w g c2 m p).
      * now apply (Hreg m g p).
    + destruct Hv as [[q Hq]|Hv]; [discriminate|].
      destruct (Node_Join_new w g c1 m Hc H1 Hm Hg Hv)
        as (w1 & HJ & Hh & Hp & Hc1 & _).
      exists (fresh (dom (heap w))), w1. split; [exact HJ|split].
      * apply (Node_Join_existing w1 g c2 _ _ Hc1 H2 Hp). apply lookup_insert_eq.
      * rewrite Hh, lookup_insert_eq. eauto.
  - intros cv e Hg Hcv He deaf w1. split; [|split; [|split]].
    + now apply (Node_Join_refused w g c1 m cv e).
    + exact Hm.
    + reflexivity.
    + destruct (Node_Join_calls w1 g c2 m cv Hc H2 Hm Hg Hcv)
        as (r & w2 & HJ & Hcalls).
      exists r, w2. split; [exact HJ|].
      rewrite Hcalls. simpl. now rewrite <- app_assoc.
Qed.

Lemma Player_Close_ok (p : ptr) (pl : Player) (w : World) :
  heap w !! p = Some pl ->
  socket_ok (socket w) ->
  exists (err : option error) (w' : World),
    Player_Close p w = Ret err w' /\
    heap w' = <[p := closed_Player pl]> (heap w) /\
    node w' = node w /\ socket w' = socket w.
Proof.
  intros Hp Hok.
  set (w1 := put p (set_State PlayerStateStopped pl) w).
  set (w2 := Send_world (stop_frame (GuildID pl)) w1).
  set (w3 := Send_world (destroy_frame (GuildID pl)) w2).
  destruct (Send_world_socket (stop_frame (GuildID pl)) w1) as (Hs2 & Hh2 & Hn2).
  destruct (Send_world_socket (destroy_frame (GuildID pl)) w2) as (Hs3 & Hh3 & Hn3).
  fold w2 in Hs2, Hh2, Hn2, Hs3, Hh3, Hn3. fold w3 in Hs3, Hh3, Hn3.
  assert (Hp2 : heap w2 !! p = Some (set_State PlayerStateStopped pl))
    by (rewrite Hh2; apply heap_put).
  assert (Hp3 : heap w3 !! p = Some (set_State PlayerStateStopped pl))
    by (rewrite Hh3; exact Hp2).
  exists (Send_answer (destroy_frame (GuildID pl)) w2),
         (put p (closed_Player pl) w3).
  split; [|repeat split].
  - unfold Player_Close, bind at 1.
    rewrite (Player_Stop_ok p pl w Hp Hok). fold w1.
    rewrite Socket_Send_ok by exact Hok. fold w2.
    unfold bind at 1. rewrite (deref_Some p _ _ Hp2). simpl GuildID.
    unfold bind at 1. fold (destroy_frame (GuildID pl)).
    rewrite Socket_Send_ok by (rewrite Hs2; exact Hok). fold w3.
    unfold bind at 1. rewrite (update_Some p _ _ _ Hp3).
    unfold bind at 1. rewrite (update_Some p _ _ _ (heap_put p _ w3)), put_put.
    unfold bind at 1. rewrite (update_Some p _ _ _ (heap_put p _ w3)), put_put.
    reflexivity.
  - simpl. rewrite Hh3, Hh2. simpl. apply insert_insert_eq.
  - simpl. now rewrite Hn3, Hn2.
  - simpl. now rewrite Hs3, Hs2.
Qed.


(** * Further properties of the code *)

(** ** The socket *)

Lemma Send_connected (data : string) (w : World) :
  socket_ok (socket w) ->
  sock_connected (socket w) = true ->
  data <> EmptyString ->
  Socket_Send data w
  = Ret (WriteMessage (written (trace w)) data) (with_trace (log_write data) w).
Proof.
  intros Hok Hc Hd. rewrite Socket_Send_ok by exact Hok.
  unfold Send_answer, Send_world. now rewrite Hc, (length_nonempty data Hd).
Qed.

Lemma Send_disconnected (data : string) (w : World) :
  sock_connected (socket w) = false ->
  Socket_Send data w = Ret (Some not_connected) w.
Proof. intros Hc. unfold Socket_Send. monad. now rewrite Hc. Qed.

Lemma Marshal_object_text (ms : list (string * json)) :
  Marshal (JObject ms) <> EmptyString.
Proof. discriminate. Qed.

(** The loop of [Connect] when [k] dials fail and the next one is
    answered by a server of version 3. *)
Lemma Connect_rec_fail_then_open (headers : Header) (c : Conn) (ver : string) :
  strconv_Atoi ver = inr 3 ->
  forall (k fuel : nat) (w : World),
    sock_conn (socket w) = None ->
    (forall i : nat, (i < k)%nat ->
       exists e, Dial (dialled (trace w) + i)%nat headers = dial_err e) ->
    Dial (dialled (trace w) + k)%nat headers = dial_ok c ver ->
    ((0 < k)%nat ->
     connectionAttempts (socket w) + Z.of_nat k
       <= ReconnectAttempts (sock_cfg (socket w))) ->
    (k < fuel)%nat ->
    Connect_rec fuel headers w
    = Ret None (opened c (with_trace log_dial (retries k w))).
Proof.
  intros Hver. induction k as [|k IH]; intros fuel w Hc Hfail Hok Hbud Hf;
    (destruct fuel as [|fuel]; [lia|]).
  - simpl. monad. rewrite Hc. rewrite Nat.add_0_r in Hok. rewrite Hok, Hver.
    reflexivity.
  - simpl. monad. rewrite Hc.
    destruct (Hfail 0%nat) as [e He]; [lia|]. rewrite Nat.add_0_r in He.
    rewrite He.
    replace (Z.ltb _ _) with true by (symmetry; apply Z.ltb_lt; lia).
    specialize (IH fuel (retry_step w)).
    unfold retry_step in IH |- *. simpl in IH |- *.
    rewrite IH; [reflexivity | exact Hc | | | lia | lia].
    + intros i Hi. destruct (Hfail (S i)) as [e' He']; [lia|].
      exists e'. now rewrite Nat.add_succ_r in He'.
    + now rewrite Nat.add_succ_r in Hok.
Qed.

(** X1. On a fresh socket, when the first [k] dials fail (with [k] within
    the attempt limit) and the next dial reaches a server of version 3,
    [Connect] returns nil: the connection is stored, the socket is
    connected, [k] attempts are counted, the waits were those of [k]
    retries, and the three goroutines are started, in the order OnOpen,
    sendListener, readListener. *)
Theorem X1_connect_opens_after_failures
    (cfg : Config) (headers : Header) (c : Conn) (ver : string) (k : nat)
    (w : World) :
  socket w = NewSocket cfg ->
  Z.of_nat k <= ReconnectAttempts cfg ->
  (forall i : nat, (i < k)%nat ->
     exists e, Dial (dialled (trace w) + i)%nat headers = dial_err e) ->
  Dial (dialled (trace w) + k)%nat headers = dial_ok c ver ->
  strconv_Atoi ver = inr 3 ->
  exists w' : World,
    Socket_Connect headers w = Ret None w' /\
    sock_conn (socket w') = Some c /\
    sock_connected (socket w') = true /\
    connectionAttempts (socket w') = Z.of_nat k /\
    dialled (trace w') = (dialled (trace w) + k + 1)%nat /\
    slept (trace w') = (slept (trace w) ++ waits k (ReconnectDelay cfg))%list /\
    spawned (trace w')
    = (spawned (trace w) ++ [go_OnOpen; go_sendListener; go_readListener])%list /\
    written (trace w') = written (trace w) /\
    socket_ok (socket w').
Proof.
  intros Hs Hk Hfail Hok Hver.
  exists (opened c (with_trace log_dial (retries k w))).
  destruct (retries_fields k w)
    as (Hcfg & Hconn & _ & Hcl & Hatt & Hdial & _ & _ & Hwr & Hsp & _).
  pose proof (retries_waits (ReconnectDelay cfg) k w 0) as Hsl.
  rewrite Hs in Hsl. simpl in Hsl. specialize (Hsl eq_refl eq_refl).
  repeat apply conj; simpl.
  - unfold Socket_Connect, Connect_fuel.
    apply (Connect_rec_fail_then_open headers c ver Hver);
      try assumption; rewrite Hs; simpl; try reflexivity; lia.
  - reflexivity.
  - reflexivity.
  - rewrite Hatt, Hs. simpl. lia.
  - rewrite Hdial. lia.
  - exact Hsl.
  - rewrite Hsp, <- !app_assoc. reflexivity.
  - exact Hwr.
  - intros _. rewrite Hcl, Hs. reflexivity.
  - intros _. eexists. reflexivity.
Qed.

(** X2. When the dial succeeds but the server's version header is not
    the number 3, [Connect] returns an error (the version error, or the
    error of parsing the header) and stores nothing: the socket is as
    before, still without a connection, and no goroutine is started. *)
Theorem X2_connect_rejects_other_versions
    (headers : Header) (c : Conn) (ver : string) (w : World) :
  sock_conn (socket w) = None ->
  Dial (dialled (trace w)) headers = dial_ok c ver ->
  strconv_Atoi ver <> inr 3 ->
  exists e : error,
    Socket_Connect headers w = Ret (Some e) (with_trace log_dial w) /\
    match strconv_Atoi ver with
    | inl err => e = err
    | inr _ =>
        e = errors_New "this version of lavago only supports Lavalink v3.x"
    end.
Proof.
  intros Hc Hd Hv. unfold Socket_Connect, Connect_fuel. simpl. monad.
  rewrite Hc, Hd.
  destruct (strconv_Atoi ver) as [err|v]; [eauto|].
  destruct (Z.eqb_spec v 3) as [->|_]; [congruence|eauto].
Qed.

(** X3. On every socket obtained from [NewSocket] by method calls, [Send]
    returns: it hands the data to the connection exactly once when the
    socket is connected and the data is not empty, and writes nothing
    otherwise; it changes nothing else. *)
Theorem X3_send_returns_on_reachable_sockets
    (cfg : Config) (data : string) (w : World) :
  reachable cfg (socket w) ->
  exists (err : option error) (w' : World),
    Socket_Send data w = Ret err w' /\
    socket w' = socket w /\ node w' = node w /\ heap w' = heap w /\
    written (trace w')
    = (written (trace w)
       ++ (if sock_connected (socket w) && negb (String.eqb data EmptyString)
           then [data] else []))%list /\
    (sock_connected (socket w) = false -> err = Some not_connected) /\
    (sock_connected (socket w) = true -> data = EmptyString ->
     err = Some (errors_New "can't send no data")) /\
    (sock_connected (socket w) = true -> data <> EmptyString ->
     err = WriteMessage (written (trace w)) data).
Proof.
  intros Hr. apply reachable_socket_ok in Hr.
  exists (Send_answer data w), (Send_world data w).
  destruct (Send_world_socket data w) as (Hs & Hh & Hn).
  split; [now apply Socket_Send_ok|]. repeat apply conj; try assumption.
  - unfold Send_world. destruct (sock_connected (socket w)); simpl;
      [|now rewrite app_nil_r].
    destruct data; simpl; [now rewrite app_nil_r | reflexivity].
  - unfold Send_answer. now intros ->.
  - unfold Send_answer. now intros -> ->.
  - unfold Send_answer. intros -> Hd. simpl.
    now rewrite (length_nonempty data Hd).
Qed.

(** X4. [Close] is final.  On a connected socket it returns the result of
    closing the connection; afterwards [Send] answers that there is no
    connection and writes nothing, [Connect] answers that the socket is
    already open without dialling (the connection field is never
    cleared), and a second [Close] panics on the closed channel.  On a
    socket that never had a connection [Close] panics. *)
Theorem X4_close_is_final (w : World) :
  (socket_ok (socket w) ->
   sock_connected (socket w) = true ->
   exists (c : Conn) (w1 : World),
     sock_conn (socket w) = Some c /\
     Socket_Close w = Ret (conn_Close c) w1 /\
     trace w1 = trace w /\
     (forall data, Socket_Send data w1 = Ret (Some not_connected) w1) /\
     (forall headers,
        Socket_Connect headers w1
        = Ret (Some (errors_New "websocket is already in open state")) w1) /\
     Socket_Close w1 = Panic close_of_closed_channel) /\
  (sock_conn (socket w) = None ->
   sock_sendClosed (socket w) = false ->
   Socket_Close w = Panic nil_dereference).
Proof.
  split.
  - intros [Hcl Hconn] Hc. destruct Hconn as [c Hcn]; [now left|].
    specialize (Hcl Hc).
    exists c, (with_socket set_sendClosed (with_socket (set_connected false) w)).
    repeat apply conj.
    + exact Hcn.
    + unfold Socket_Close. monad. now rewrite Hcl, Hcn.
    + reflexivity.
    + intros data. now apply Send_disconnected.
    + intros headers. unfold Socket_Connect, Connect_fuel. simpl. monad.
      now rewrite Hcn.
    + reflexivity.
  - intros Hcn Hcl. unfold Socket_Close. monad. now rewrite Hcl, Hcn.
Qed.

(** X5. The read pump hands to [DataReceived] only what it read as a
    message of type [CloseMessage].  On a socket with a connection it
    returns at the first message of any other type (a text frame, for
    one) and changes nothing; and whenever it returns, every delivery it
    started is that of a message read with type [CloseMessage]. *)
Theorem X5_read_pump_delivers_close_messages_only
    (reads : list (Z * string * option error)) :
  (forall (w : World) (c : Conn) (msgType : Z) (data : string)
          (err : option error) (rest : list (Z * string * option error)),
     reads = (msgType, data, err) :: rest ->
     sock_conn (socket w) = Some c ->
     msgType <> CloseMessage ->
     Socket_readListener reads w = Ret tt w) /\
  (forall w w' : World,
     Socket_readListener reads w = Ret tt w' ->
     exists gs : list goroutine,
       spawned (trace w') = (spawned (trace w) ++ gs)%list /\
       forall data : string, In (go_DataReceived data) gs ->
         exists err, In (CloseMessage, data, err) reads).
Proof.
  split.
  - intros w c msgType data err rest -> Hc Hne. simpl. monad. rewrite Hc.
    destruct (Z.eqb_spec msgType CloseMessage) as [Heq|_]; [contradiction|].
    reflexivity.
  - induction reads as [|[[msgType data] err] rest IH]; intros w w' H;
      [discriminate|].
    simpl in H. monad.
    destruct (sock_conn (socket w)); [|discriminate].
    destruct (Z.eqb_spec msgType CloseMessage) as [->|Hne]; simpl in H.
    + destruct err as [e|]; apply IH in H as (gs & Hsp & Hin); simpl in Hsp.
      * exists (go_ErrorReceived e :: go_DataReceived data :: gs). split.
        -- rewrite Hsp, <- !app_assoc. reflexivity.
        -- intros d [Hd|[Hd|Hd]]; [discriminate | | ].
           ++ injection Hd as <-. eexists. left. reflexivity.
           ++ destruct (Hin d Hd) as [e' He']. exists e'. now right.
      * exists (go_DataReceived data :: gs). split.
        -- rewrite Hsp, <- !app_assoc. reflexivity.
        -- intros d [Hd|Hd].
           ++ injection Hd as <-. eexists. left. reflexivity.
           ++ destruct (Hin d Hd) as [e' He']. exists e'. now right.
    + injection H as <-. exists []. split.
      * now rewrite app_nil_r.
      * intros d [].
Qed.

(** ** The player *)

Lemma Send_sends (data : string) (w : World) :
  socket_ok (socket w) ->
  data <> EmptyString ->
  exists (err : option error) (w' : World),
    Socket_Send data w = Ret err w' /\ sends data w err w'.
Proof.
  intros Hok Hd. unfold sends.
  destruct (sock_connected (socket w)) eqn:Hc.
  - eexists _, _. split; [now apply Send_connected|]. split; reflexivity.
  - eexists _, _. split; [now apply Send_disconnected|]. split; reflexivity.
Qed.

Lemma sends_frame (data : string) (w w' : World) (err : option error) :
  sends data w err w' ->
  socket w' = socket w /\ node w' = node w /\ heap w' = heap w /\
  slept (trace w') = slept (trace w) /\
  delivered (trace w') = delivered (trace w) /\
  written (trace w')
  = (written (trace w) ++ (if sock_connected (socket w) then [data] else []))%list.
Proof.
  unfold sends. destruct (sock_connected (socket w)); intros [_ ->]; simpl;
    repeat split; now rewrite ?app_nil_r.
Qed.

(** X6. A player whose state is None refuses [Pause], [Resume], [Seek] and
    [Skip] with the not-ready error; the state is left as it is and
    nothing is sent.  [Skip] then reports no skipped track, even when
    the player holds one. *)
Theorem X6_state_none_refuses_commands
    (w : World) (p : ptr) (pl : Player) (position delay : Z) :
  heap w !! p = Some pl ->
  State pl = PlayerStateNone ->
  Player_Pause p w = Ret (Some not_ready) w /\
  Player_Resume p w = Ret (Some not_ready) w /\
  Player_Seek p position w = Ret (Some not_ready) w /\
  Player_Skip p delay w = Ret (None, None, Some not_ready) w.
Proof.
  intros Hp Hst.
  unfold Player_Pause, Player_Resume, Player_Seek, Player_Skip, bind.
  rewrite (deref_Some p pl w Hp), Hst. repeat split.
Qed.

(** X7. [Stop] sets the state to Stopped before it sends, so the state is
    Stopped whether or not the stop frame could be sent; track, queue
    and volume are kept, and the answer is that of the send. *)
Theorem X7_stop_sets_state_then_sends
    (w : World) (p : ptr) (pl : Player) :
  heap w !! p = Some pl ->
  socket_ok (socket w) ->
  exists (err : option error) (w' : World),
    Player_Stop p w = Ret err w' /\
    sends (stop_frame (GuildID pl))
          (put p (set_State PlayerStateStopped pl) w) err w' /\
    heap w' !! p = Some (set_State PlayerStateStopped pl) /\
    (sock_connected (socket w) = false -> err = Some not_connected).
Proof.
  intros Hp Hok. rewrite (Player_Stop_ok p pl w Hp Hok).
  destruct (Send_sends (stop_frame (GuildID pl))
              (put p (set_State PlayerStateStopped pl) w) Hok)
    as (err & w' & Hs & Hsd); [apply Marshal_object_text|].
  exists err, w'. split; [exact Hs|]. split; [exact Hsd|].
  destruct (sends_frame _ _ _ _ Hsd) as (_ & _ & Hh & _).
  split; [rewrite Hh; apply heap_put|].
  intros Hc. unfold sends in Hsd. simpl in Hsd. rewrite Hc in Hsd.
  now destruct Hsd as [-> _].
Qed.

(** X8. [PlayTrack] with a nil track fails and changes nothing.  With a
    track it sets the state to Playing and stores the track, and the
    frame it sends asks for volume 100 while the player's own volume
    field keeps its old value. *)
Theorem X8_play_track_volume_100
    (w : World) (p : ptr) (pl : Player) (track : Track) :
  heap w !! p = Some pl ->
  socket_ok (socket w) ->
  Player_PlayTrack p None w = Ret (Some (errors_New "can't play nil Track")) w /\
  let pl1 := set_Track (Some track) (set_State PlayerStatePlaying pl) in
  let frame := play_frame (GuildID pl) (Track_hash track) false 0 0 100 false in
  exists (err : option error) (w' : World),
    Player_PlayTrack p (Some track) w = Ret err w' /\
    sends frame (put p pl1 w) err w' /\
    heap w' !! p = Some pl1 /\
    Volume pl1 = Volume pl /\
    member "volume" (members_of (json_of_play
      {| pl_Op := "play"; pl_GuildID := GuildID pl;
         pl_Track := Track_hash track; pl_NoReplace := false;
         pl_StartTime := 0; pl_EndTime := 0; pl_Volume := 100;
         pl_Pause := false |})) = Some (JNumber 100).
Proof.
  intros Hp Hok. split; [reflexivity|]. intros pl1 frame.
  destruct (Send_sends frame (put p pl1 w) Hok)
    as (err & w' & Hs & Hsd); [apply Marshal_object_text|].
  exists err, w'. repeat apply conj.
  - unfold Player_PlayTrack, bind at 1.
    rewrite (update_Some p pl _ w Hp). unfold bind at 1.
    rewrite (update_Some p _ _ _ (heap_put p _ w)), put_put. unfold bind at 1.
    rewrite (deref_Some p _ _ (heap_put p _ w)). exact Hs.
  - exact Hsd.
  - destruct (sends_frame _ _ _ _ Hsd) as (_ & _ & -> & _). apply heap_put.
  - reflexivity.
  - simpl. unfold omitempty_string. simpl.
    destruct (String.eqb (GuildID pl) ""), (String.eqb (Track_hash track) "");
      reflexivity.
Qed.

(** X9. [Pause] and [Resume] on a player whose state is not None: the
    state becomes Paused (Playing for [Resume]) when a track is loaded
    and Stopped when none is, and a pause frame is sent.  The frame of
    [Pause] carries [pause: true]; the frame of [Resume] never does. *)
Theorem X9_pause_and_resume_frames
    (w : World) (p : ptr) (pl : Player) :
  heap w !! p = Some pl ->
  State pl <> PlayerStateNone ->
  socket_ok (socket w) ->
  let paused := set_State (match p_Track pl with
                           | None => PlayerStateStopped
                           | Some _ => PlayerStatePaused end) pl in
  let resumed := set_State (match p_Track pl with
                            | None => PlayerStateStopped
                            | Some _ => PlayerStatePlaying end) pl in
  (exists (err : option error) (w' : World),
     Player_Pause p w = Ret err w' /\
     sends (pause_frame (GuildID pl) true) (put p paused w) err w') /\
  (exists (err : option error) (w' : World),
     Player_Resume p w = Ret err w' /\
     sends (pause_frame (GuildID pl) false) (put p resumed w) err w') /\
  member "pause" (members_of (json_of_pause
    {| pa_Op := "pause"; pa_GuildID := GuildID pl; pa_Pause := true |}))
  = Some (JBool true) /\
  member "pause" (members_of (json_of_pause
    {| pa_Op := "pause"; pa_GuildID := GuildID pl; pa_Pause := false |}))
  <> Some (JBool true).
Proof.
  intros Hp Hst Hok paused resumed. repeat apply conj.
  - destruct (Send_sends (pause_frame (GuildID pl) true) (put p paused w) Hok)
      as (err & w' & Hs & Hsd); [apply Marshal_object_text|].
    exists err, w'. split; [|exact Hsd].
    unfold Player_Pause, bind at 1. rewrite (deref_Some p pl w Hp).
    destruct (State pl); [congruence| | |]; simpl; unfold bind at 1;
      rewrite (update_Some p pl _ w Hp); exact Hs.
  - destruct (Send_sends (pause_frame (GuildID pl) false) (put p resumed w) Hok)
      as (err & w' & Hs & Hsd); [apply Marshal_object_text|].
    exists err, w'. split; [|exact Hsd].
    unfold Player_Resume, bind at 1. rewrite (deref_Some p pl w Hp).
    destruct (State pl); [congruence| | |]; simpl; unfold bind at 1;
      rewrite (update_Some p pl _ w Hp); exact Hs.
  - simpl. unfold omitempty_string. simpl.
    destruct (String.eqb (GuildID pl) ""); reflexivity.
  - simpl. unfold omitempty_string. simpl.
    destruct (String.eqb (GuildID pl) ""); discriminate.
Qed.

Lemma is_None_false (st : PlayerState) :
  st <> PlayerStateNone -> is_None st = false.
Proof. destruct st; [congruence | | |]; reflexivity. Qed.

Lemma PlayTrack_Some (p : ptr) (pl : Player) (track : Track) (w : World) :
  heap w !! p = Some pl ->
  Player_PlayTrack p (Some track) w
  = Socket_Send (play_frame (GuildID pl) (Track_hash track) false 0 0 100 false)
      (put p (set_Track (Some track) (set_State PlayerStatePlaying pl)) w).
Proof.
  intros Hp. unfold Player_PlayTrack, bind at 1.
  rewrite (update_Some p pl _ w Hp). unfold bind at 1.
  rewrite (update_Some p _ _ _ (heap_put p _ w)), put_put. unfold bind at 1.
  rewrite (deref_Some p _ _ (heap_put p _ w)). reflexivity.
Qed.

Lemma put_with_trace (p : ptr) (a b : Player) (f : Trace -> Trace) (w : World) :
  put p a (with_trace f (put p b w)) = with_trace f (put p a w).
Proof.
  unfold put, with_heap, with_trace. simpl. f_equal. apply insert_insert_eq.
Qed.

(** X10. [Skip] on a player whose queue starts with a track takes exactly
    that element off the queue (the rest keeps its order), sleeps the
    delay when it is not zero, makes the track the current one in state
    Playing and sends its play frame; it returns the track that was
    current, the new one, and the answer of the send. *)
Theorem X10_skip_plays_queue_head
    (w : World) (p : ptr) (pl : Player) (delay : Z)
    (track : Track) (rest : list queued) :
  heap w !! p = Some pl ->
  State pl <> PlayerStateNone ->
  Queue pl = queued_track (Some track) :: rest ->
  socket_ok (socket w) ->
  let pl1 := set_Track (Some track)
               (set_State PlayerStatePlaying (set_Queue rest pl)) in
  let w1 := if (delay =? 0)%Z then put p pl1 w
            else with_trace (log_sleep delay) (put p pl1 w) in
  let frame := play_frame (GuildID pl) (Track_hash track) false 0 0 100 false in
  exists (err : option error) (w' : World),
    Player_Skip p delay w = Ret (p_Track pl, Some track, err) w' /\
    sends frame w1 err w' /\
    heap w' !! p = Some pl1 /\
    Queue pl1 = rest /\
    slept (trace w')
    = (slept (trace w) ++ (if (delay =? 0)%Z then [] else [delay]))%list.
Proof.
  intros Hp Hst Hq Hok pl1 w1 frame.
  assert (Hok1 : socket_ok (socket w1))
    by (unfold w1; destruct (Z.eqb delay 0); exact Hok).
  destruct (Send_sends frame w1 Hok1) as (err & w' & Hs & Hsd);
    [apply Marshal_object_text|].
  destruct (sends_frame _ _ _ _ Hsd) as (_ & _ & Hh & Hsl & _).
  exists err, w'. repeat apply conj.
  - unfold Player_Skip, bind at 1.
    rewrite (deref_Some p pl w Hp), (is_None_false _ Hst), Hq.
    unfold bind at 1. rewrite (update_Some p pl _ w Hp).
    unfold w1 in Hs. destruct (Z.eqb delay 0).
    + unfold bind at 1, ret at 1. unfold bind at 1.
      rewrite (PlayTrack_Some p _ track _ (heap_put p _ w)), put_put.
      fold pl1. simpl GuildID. fold frame. now rewrite Hs.
    + unfold bind at 1, modify at 1. unfold bind at 1.
      rewrite (PlayTrack_Some p (set_Queue rest pl) track).
      * rewrite put_with_trace. fold pl1. simpl GuildID. fold frame.
        now rewrite Hs.
      * apply heap_put.
  - exact Hsd.
  - rewrite Hh. unfold w1. destruct (Z.eqb delay 0); apply heap_put.
  - reflexivity.
  - rewrite Hsl. unfold w1. destruct (Z.eqb delay 0); simpl;
      [now rewrite app_nil_r | reflexivity].
Qed.

(** X11. [Skip] removes the head of the queue before it looks at it.
    When the head is a nil track the call sleeps the delay and then
    fails with the nil-track error: the element is gone from the queue
    while state and current track are as before.  When the head is not a
    track at all the call panics on the type assertion. *)
Theorem X11_skip_drops_a_bad_head
    (w : World) (p : ptr) (pl : Player) (delay : Z) (rest : list queued) :
  heap w !! p = Some pl ->
  State pl <> PlayerStateNone ->
  (Queue pl = queued_track None :: rest ->
   let w1 := put p (set_Queue rest pl) w in
   Player_Skip p delay w
   = Ret (p_Track pl, None, Some (errors_New "can't play nil Track"))
         (if (delay =? 0)%Z then w1 else with_trace (log_sleep delay) w1)) /\
  (Queue pl = queued_other :: rest ->
   Player_Skip p delay w = Panic type_assertion).
Proof.
  intros Hp Hst. split; intros Hq.
  - unfold Player_Skip, bind at 1.
    rewrite (deref_Some p pl w Hp), (is_None_false _ Hst), Hq.
    unfold bind at 1. rewrite (update_Some p pl _ w Hp).
    destruct (Z.eqb delay 0); reflexivity.
  - unfold Player_Skip, bind at 1.
    rewrite (deref_Some p pl w Hp), (is_None_false _ Hst), Hq.
    unfold bind at 1. rewrite (update_Some p pl _ w Hp). reflexivity.
Qed.

(** X12. [Seek] on a player with a track: a position greater than the
    track's length is refused with the length in the error and nothing
    is sent; every other position, negative ones included, is sent in a
    seek frame, and the player itself is not changed. *)
Theorem X12_seek_checks_the_upper_bound_only
    (w : World) (p : ptr) (pl : Player) (track : Track) (position : Z) :
  heap w !! p = Some pl ->
  State pl <> PlayerStateNone ->
  p_Track pl = Some track ->
  socket_ok (socket w) ->
  (Length (Info track) < position ->
   Player_Seek p position w
   = Ret (Some (fmt_Errorf_higher (Length (Info track)))) w) /\
  (position <= Length (Info track) ->
   exists (err : option error) (w' : World),
     Player_Seek p position w = Ret err w' /\
     sends (seek_frame (GuildID pl) position) w err w' /\
     heap w' = heap w).
Proof.
  intros Hp Hst Ht Hok. split; intros Hpos.
  - unfold Player_Seek, bind.
    rewrite (deref_Some p pl w Hp), (is_None_false _ Hst), Ht.
    destruct (Z.gtb_spec position (Length (Info track))); [reflexivity|lia].
  - destruct (Send_sends (seek_frame (GuildID pl) position) w Hok)
      as (err & w' & Hs & Hsd); [apply Marshal_object_text|].
    exists err, w'. split; [|split; [exact Hsd|]].
    + unfold Player_Seek, bind.
      rewrite (deref_Some p pl w Hp), (is_None_false _ Hst), Ht.
      destruct (Z.gtb_spec position (Length (Info track))); [lia|exact Hs].
    + now destruct (sends_frame _ _ _ _ Hsd) as (_ & _ & -> & _).
Qed.

(** X13. [Close] of a player always ends with state None, an empty queue
    and no track, whatever the sends answer.  On a connected socket it
    writes the stop frame and then the destroy frame; the answer of the
    stop frame is dropped and the call returns the answer of the
    destroy frame alone. *)
Theorem X13_player_close_resets_and_keeps_last_error
    (w : World) (p : ptr) (pl : Player) :
  heap w !! p = Some pl ->
  socket_ok (socket w) ->
  let stop := stop_frame (GuildID pl) in
  let destroy := destroy_frame (GuildID pl) in
  exists (err : option error) (w' : World),
    Player_Close p w = Ret err w' /\
    heap w' = <[p := closed_Player pl]> (heap w) /\
    State (closed_Player pl) = PlayerStateNone /\
    Queue (closed_Player pl) = [] /\
    p_Track (closed_Player pl) = None /\
    (sock_connected (socket w) = true ->
     written (trace w') = (written (trace w) ++ [stop; destroy])%list /\
     err = WriteMessage (written (trace w) ++ [stop])%list destroy) /\
    (sock_connected (socket w) = false ->
     written (trace w') = written (trace w) /\ err = Some not_connected).
Proof.
  intros Hp Hok stop destroy.
  set (w1 := put p (set_State PlayerStateStopped pl) w).
  destruct (Send_sends stop w1 Hok) as (e1 & w2 & Hs1 & Hsd1);
    [apply Marshal_object_text|].
  destruct (sends_frame _ _ _ _ Hsd1) as (Hso2 & Hn2 & Hh2 & _ & _ & Hwr2).
  assert (Hok2 : socket_ok (socket w2)) by (rewrite Hso2; exact Hok).
  destruct (Send_sends destroy w2 Hok2) as (e2 & w3 & Hs2 & Hsd2);
    [apply Marshal_object_text|].
  destruct (sends_frame _ _ _ _ Hsd2) as (Hso3 & Hn3 & Hh3 & _ & _ & Hwr3).
  assert (Hp2 : heap w2 !! p = Some (set_State PlayerStateStopped pl))
    by (rewrite Hh2; apply heap_put).
  assert (Hp3 : heap w3 !! p = Some (set_State PlayerStateStopped pl))
    by (rewrite Hh3; exact Hp2).
  exists e2, (put p (closed_Player pl) w3). repeat apply conj.
  - unfold Player_Close, bind at 1.
    rewrite (Player_Stop_ok p pl w Hp Hok). fold w1. fold stop. rewrite Hs1.
    unfold bind at 1. rewrite (deref_Some p _ _ Hp2). simpl GuildID.
    unfold bind at 1. fold (destroy_frame (GuildID pl)). fold destroy.
    rewrite Hs2.
    unfold bind at 1. rewrite (update_Some p _ _ _ Hp3).
    unfold bind at 1. rewrite (update_Some p _ _ _ (heap_put p _ w3)), put_put.
    unfold bind at 1. rewrite (update_Some p _ _ _ (heap_put p _ w3)), put_put.
    reflexivity.
  - simpl. rewrite Hh3, Hh2. simpl. apply insert_insert_eq.
  - reflexivity.
  - reflexivity.
  - reflexivity.
  - intros Hc. simpl. rewrite Hwr3, Hso2, Hwr2. simpl. rewrite Hc.
    split; [now rewrite <- app_assoc|].
    unfold sends in Hsd1, Hsd2. rewrite Hso2 in Hsd2. simpl in Hsd1, Hsd2.
    rewrite Hc in Hsd1, Hsd2. destruct Hsd1 as [_ ->].
    destruct Hsd2 as [-> _]. reflexivity.
  - intros Hc. simpl. rewrite Hwr3, Hso2, Hwr2. simpl. rewrite Hc.
    split; [now rewrite !app_nil_r|].
    unfold sends in Hsd2. rewrite Hso2 in Hsd2. simpl in Hsd2.
    rewrite Hc in Hsd2. now destruct Hsd2 as [-> _].
Qed.

(** X14. [Play] with a track and a volume within [0, 1000] sets the state
    by the pause flag, stores volume and track, and sends the play
    frame.  The frame carries the volume except when it is 0: then it
    has no volume member.  It carries [pause: true] exactly when the
    pause flag is set. *)
Theorem X14_play_stores_and_sends
    (w : World) (p : ptr) (pl : Player) (args : PlayArgs) (track : Track) :
  heap w !! p = Some pl ->
  a_Track args = Some track ->
  0 <= a_Volume args <= 1000 ->
  socket_ok (socket w) ->
  let st := if ShouldPause args then PlayerStatePaused else PlayerStatePlaying in
  let pl1 := set_Track (Some track)
               (set_Volume (a_Volume args) (set_State st pl)) in
  let payload :=
    {| pl_Op := "play"; pl_GuildID := GuildID pl;
       pl_Track := Track_hash track; pl_NoReplace := NoReplace args;
       pl_StartTime := StartTime args; pl_EndTime := EndTime args;
       pl_Volume := a_Volume args; pl_Pause := ShouldPause args |} in
  exists (err : option error) (w' : World),
    Player_Play p args w = Ret err w' /\
    sends (Marshal (json_of_play payload)) (put p pl1 w) err w' /\
    heap w' !! p = Some pl1 /\
    member "volume" (members_of (json_of_play payload))
    = (if (a_Volume args =? 0)%Z then None else Some (JNumber (a_Volume args))) /\
    (member "pause" (members_of (json_of_play payload)) = Some (JBool true)
     <-> ShouldPause args = true).
Proof.
  intros Hp Ht Hv Hok st pl1 payload.
  destruct (Send_sends (Marshal (json_of_play payload)) (put p pl1 w) Hok)
    as (err & w' & Hs & Hsd); [apply Marshal_object_text|].
  exists err, w'. repeat apply conj.
  - unfold Player_Play. rewrite Ht. unfold bind at 1.
    rewrite (update_Some p pl _ w Hp). fold st.
    destruct (Z.ltb_spec (a_Volume args) 0) as [Hlt|_]; [lia|].
    destruct (Z.gtb_spec (a_Volume args) 1000) as [Hgt|_]; [lia|].
    unfold bind at 1.
    rewrite (update_Some p _ _ _ (heap_put p _ w)), put_put. unfold bind at 1.
    rewrite (update_Some p _ _ _ (heap_put p _ w)), put_put. unfold bind at 1.
    rewrite (deref_Some p _ _ (heap_put p _ w)). exact Hs.
  - exact Hsd.
  - destruct (sends_frame _ _ _ _ Hsd) as (_ & _ & -> & _). apply heap_put.
  - simpl. unfold omitempty_string, omitempty_bool, omitempty_int. simpl.
    destruct (String.eqb (GuildID pl) ""), (String.eqb (Track_hash track) ""),
      (NoReplace args), (Z.eqb (StartTime args) 0), (Z.eqb (EndTime args) 0),
      (Z.eqb (a_Volume args) 0), (ShouldPause args); reflexivity.
  - simpl. unfold omitempty_string, omitempty_bool, omitempty_int. simpl.
    destruct (String.eqb (GuildID pl) ""), (String.eqb (Track_hash track) ""),
      (NoReplace args), (Z.eqb (StartTime args) 0), (Z.eqb (EndTime args) 0),
      (Z.eqb (a_Volume args) 0), (ShouldPause args); simpl;
      intros; congruence.
  - simpl. unfold omitempty_string, omitempty_bool, omitempty_int. simpl.
    destruct (String.eqb (GuildID pl) ""), (String.eqb (Track_hash track) ""),
      (NoReplace args), (Z.eqb (StartTime args) 0), (Z.eqb (EndTime args) 0),
      (Z.eqb (a_Volume args) 0), (ShouldPause args); simpl;
      intros; congruence.
Qed.

(** ** The registry *)

(** X15. How [Join] fails.  On a node that is not connected it returns
    the not-connected error, before it looks at the channel; with an
    empty channel id it returns the channel error; in both cases nothing
    changes.  When the voice collaborator refuses, [Join] returns the
    collaborator's error: the call is on record but no player is
    created or registered. *)
Theorem X15_join_failures
    (w : World) (g c : string) :
  (node_connected (node w) = false ->
   Node_Join g c w
   = Ret (None, Some (errors_New "can't join on non-connected node")) w) /\
  (node_connected (node w) = true ->
   Node_Join g EmptyString w
   = Ret (None, Some (errors_New "can't join (empty string) voice channel")) w) /\
  (forall (m : gmap string ptr)
          (connectVoice : string -> string -> bool -> option error) (e : error),
     node_connected (node w) = true ->
     c <> EmptyString ->
     players (node w) = Some m ->
     m !! g = None ->
     ConnectVoice (node w) = Some connectVoice ->
     connectVoice g c (SelfDeaf (node_cfg (node w))) = Some e ->
     Node_Join g c w
     = Ret (None, Some e)
           (with_trace (log_voice (g, c, SelfDeaf (node_cfg (node w)))) w)).
Proof.
  repeat apply conj.
  - intros Hc. unfold Node_Join. monad. now rewrite Hc.
  - intros Hc. unfold Node_Join. monad. now rewrite Hc.
  - intros m cv e Hc Hne Hm Hg Hcv He.
    unfold Node_Join, bind at 1, get at 1. rewrite Hc. simpl.
    apply String.eqb_neq in Hne. rewrite Hne.
    unfold bind at 1. rewrite (players_Load_Some _ m w Hm), Hg, Hcv.
    monad. now rewrite He.
Qed.

(** X16. A [Join] that creates a player registers it under its guild
    only: afterwards [HasPlayer] and [GetPlayer] find it, the entries of
    all other guilds are as before, and so is every other player
    object; the new object lives at an address that held none. *)
Theorem X16_join_registers_one_player
    (w : World) (g c : string) (m : gmap string ptr) :
  node_connected (node w) = true ->
  c <> EmptyString ->
  players (node w) = Some m ->
  m !! g = None ->
  voice_accepts (node w) g c ->
  exists (p : ptr) (w' : World),
    Node_Join g c w = Ret (Some p, None) w' /\
    heap w !! p = None /\
    Node_HasPlayer g w' = Ret true w' /\
    Node_GetPlayer g w' = Ret (Some p) w' /\
    (forall g' : string, g' <> g -> Node_GetPlayer g' w' = Ret (m !! g') w') /\
    (forall q : ptr, q <> p -> heap w' !! q = heap w !! q) /\
    written (trace w') = written (trace w).
Proof.
  intros Hc Hne Hm Hg Hv.
  destruct (Node_Join_new w g c m Hc Hne Hm Hg Hv)
    as (w' & HJ & Hh & Hp & _).
  exists (fresh (dom (heap w))), w'.
  assert (Hfresh : heap w !! fresh (dom (heap w)) = None)
    by (apply not_elem_of_dom, is_fresh).
  repeat apply conj.
  - exact HJ.
  - exact Hfresh.
  - unfold Node_HasPlayer, bind.
    now rewrite (players_Load_Some _ _ w' Hp), lookup_insert_eq.
  - unfold Node_GetPlayer.
    now rewrite (players_Load_Some _ _ w' Hp), lookup_insert_eq.
  - intros g' Hg'. unfold Node_GetPlayer.
    rewrite (players_Load_Some _ _ w' Hp). now rewrite lookup_insert_ne.
  - intros q Hq. rewrite Hh. now apply lookup_insert_ne.
  - revert HJ. unfold Node_Join, bind at 1, get at 1. rewrite Hc. simpl.
    apply String.eqb_neq in Hne. rewrite Hne.
    unfold bind at 1. rewrite (players_Load_Some _ m w Hm), Hg.
    unfold voice_accepts in Hv.
    destruct (ConnectVoice (node w)) as [cv|].
    + monad. rewrite Hv. unfold NewPlayer, players_Store. monad. rewrite Hm.
      now injection 1 as <-.
    + unfold NewPlayer, players_Store. monad. rewrite Hm.
      now injection 1 as <-.
Qed.

(** X17. [Leave] for a registered guild returns even when the frames
    cannot be sent; it removes that guild's entry and no other, resets
    that player object and no other, and leaves the node connected. *)
Theorem X17_leave_touches_one_guild
    (w : World) (g : string) (m : gmap string ptr) (p : ptr) (pl : Player) :
  node_connected (node w) = true ->
  players (node w) = Some m ->
  m !! g = Some p ->
  heap w !! p = Some pl ->
  socket_ok (socket w) ->
  exists (err : option error) (w' : World),
    Node_Leave g w = Ret err w' /\
    players (node w') = Some (delete g m) /\
    Node_HasPlayer g w' = Ret false w' /\
    (forall g' : string, g' <> g -> Node_GetPlayer g' w' = Ret (m !! g') w') /\
    heap w' !! p = Some (closed_Player pl) /\
    (forall q : ptr, q <> p -> heap w' !! q = heap w !! q) /\
    node_connected (node w') = true /\
    socket w' = socket w.
Proof.
  intros Hc Hm Hg Hp Hok.
  destruct (Player_Close_ok p pl w Hp Hok) as (err & wc & HC & Hhc & Hnc & Hsc).
  set (w' := with_node (set_players (Some (delete g m))) wc).
  assert (Hm' : players (node w') = Some (delete g m)) by reflexivity.
  exists err, w'. repeat apply conj.
  - unfold Node_Leave, bind at 1, get at 1. rewrite Hc. simpl.
    unfold bind at 1. rewrite (players_Load_Some _ m w Hm), Hg.
    unfold bind at 1. rewrite HC.
    unfold players_Delete. monad. rewrite Hnc, Hm. reflexivity.
  - exact Hm'.
  - unfold Node_HasPlayer, bind.
    now rewrite (players_Load_Some _ _ w' Hm'), lookup_delete_eq.
  - intros g' Hg'. unfold Node_GetPlayer.
    rewrite (players_Load_Some _ _ w' Hm'). now rewrite lookup_delete_ne.
  - simpl. rewrite Hhc. apply lookup_insert_eq.
  - intros q Hq. simpl. rewrite Hhc. now apply lookup_insert_ne.
  - simpl. now rewrite Hnc.
  - exact Hsc.
Qed.

(** X18. Every registered player is an object of the heap: this holds
    after [NewNode] and is kept by [Join] and by [Leave], whatever they
    return. *)
Theorem X18_registry_points_into_the_heap (cfg : Config) (w : World) :
  registry_ok (NewNode cfg) /\
  (registry_ok w ->
   forall (g c : string) (r : option ptr * option error) (w' : World),
     Node_Join g c w = Ret r w' -> registry_ok w') /\
  (registry_ok w ->
   socket_ok (socket w) ->
   forall (g : string) (r : option error) (w' : World),
     Node_Leave g w = Ret r w' -> registry_ok w').
Proof.
  repeat apply conj.
  - intros m g p Hm Hg. injection Hm as <-.
    rewrite lookup_empty in Hg. discriminate Hg.
  - intros Hreg g c r w'. unfold Node_Join, bind at 1, get at 1.
    destruct (node_connected (node w)); simpl; [|now injection 1 as _ <-].
    destruct (String.eqb c ""); [now injection 1 as _ <-|].
    unfold bind at 1, players_Load, bind at 1, get at 1.
    destruct (players (node w)) as [m|] eqn:Hm; [|discriminate]. simpl.
    destruct (m !! g) as [q|] eqn:Hg; [now injection 1 as _ <-|].
    assert (Hcreate : forall w0 : World,
      players (node w0) = Some m -> heap w0 = heap w ->
      (let* p0 := NewPlayer g in players_Store g p0;; ret (Some p0, @None error)) w0
      = Ret r w' -> registry_ok w').
    { intros w0 Hm0 Hh0. unfold NewPlayer, players_Store. monad. rewrite Hm0.
      injection 1 as _ <-. intros m' g' p' Hm' Hg'. simpl in Hm', Hg' |- *.
      injection Hm' as <-. rewrite Hh0 in Hg' |- *.
      destruct (decide (g = g')) as [<-|Hne].
      - rewrite lookup_insert_eq in Hg'. injection Hg' as <-.
        rewrite lookup_insert_eq. eauto.
      - rewrite lookup_insert_ne in Hg' by exact Hne.
        destruct (Hreg m g' p' Hm Hg') as [x Hx].
        destruct (decide (fresh (dom (heap w)) = p')) as [<-|Hp'].
        + rewrite lookup_insert_eq. eauto.
        + rewrite lookup_insert_ne by exact Hp'. eauto. }
    destruct (ConnectVoice (node w)) as [cv|].
    + unfold bind at 1, modify at 1.
      destruct (cv g c _); [now injection 1 as _ <-|].
      apply Hcreate; [exact Hm | reflexivity].
    + apply Hcreate; [exact Hm | reflexivity].
  - intros Hreg Hok g r w'. unfold Node_Leave, bind at 1, get at 1.
    destruct (node_connected (node w)); simpl; [|now injection 1 as _ <-].
    unfold bind at 1, players_Load, bind at 1, get at 1.
    destruct (players (node w)) as [m|] eqn:Hm; [|discriminate]. simpl.
    destruct (m !! g) as [p|] eqn:Hg; [|now injection 1 as _ <-].
    destruct (Hreg m g p Hm Hg) as [pl Hp].
    destruct (Player_Close_ok p pl w Hp Hok) as (err & wc & HC & Hhc & Hnc & _).
    unfold bind at 1. rewrite HC. unfold players_Delete. monad.
    rewrite Hnc, Hm. injection 1 as _ <-.
    intros m' g' p' Hm' Hg'. simpl in Hm', Hg' |- *. injection Hm' as <-.
    rewrite Hhc.
    destruct (decide (g = g')) as [<-|Hne];
      [rewrite lookup_delete_eq in Hg'; discriminate Hg'|].
    rewrite lookup_delete_ne in Hg' by exact Hne.
    destruct (Hreg m g' p' Hm Hg') as [x Hx].
    destruct (decide (p = p')) as [<-|Hp'].
    + rewrite lookup_insert_eq. eauto.
    + rewrite lookup_insert_ne by exact Hp'. eauto.
Qed.

(** ** The node's life cycle *)

(** X19. [Close] of a node that is not connected is refused and changes
    nothing.  On a connected node it closes the socket and drops both
    maps: afterwards [Join] and [Leave] answer that the node is not
    connected, while [HasPlayer], [GetPlayer] and the handling of a
    [playerUpdate] frame panic on the nil player map. *)
Theorem X19_node_close_drops_the_registry (w : World) :
  (node_connected (node w) = false ->
   Node_Close w = Ret (Some (errors_New "can't close non-connected node")) w) /\
  (node_connected (node w) = true ->
   socket_ok (socket w) ->
   sock_connected (socket w) = true ->
   exists (c : Conn) (w1 : World),
     sock_conn (socket w) = Some c /\
     Node_Close w = Ret (conn_Close c) w1 /\
     node_connected (node w1) = false /\
     players (node w1) = None /\
     voiceStates (node w1) = None /\
     sock_connected (socket w1) = false /\
     heap w1 = heap w /\
     (forall g ch, Node_Join g ch w1
        = Ret (None, Some (errors_New "can't join on non-connected node")) w1) /\
     (forall g, Node_Leave g w1
        = Ret (Some (errors_New "can't leave on non-connected node")) w1) /\
     (forall g, Node_HasPlayer g w1 = Panic nil_dereference) /\
     (forall g, Node_GetPlayer g w1 = Panic nil_dereference) /\
     (forall data bp pu,
        data <> EmptyString ->
        Unmarshal_basePayload data = inr bp ->
        b_Op bp = "playerUpdate" ->
        Unmarshal_PlayerUpdatedEvent data = inr pu ->
        Node_socketDataReceived data w1 = Panic nil_dereference)).
Proof.
  split.
  - intros Hc. unfold Node_Close. monad. now rewrite Hc.
  - intros Hc [Hcl Hconn] Hsc. destruct Hconn as [c Hcn]; [now left|].
    specialize (Hcl Hsc).
    eexists c, _. split; [exact Hcn|]. split.
    { unfold Node_Close, bind at 1, get at 1. rewrite Hc. simpl.
      unfold Socket_Close. monad. rewrite Hcl, Hcn. reflexivity. }
    simpl. repeat apply conj; try reflexivity.
    + intros data bp pu Hd Hbp Hop Hpu. unfold Node_socketDataReceived.
      rewrite (length_nonempty data Hd), Hbp. monad. rewrite Hop. simpl.
      now rewrite Hpu.
Qed.

(** X20. From [NewNode] to a player.  When the first dial reaches a
    server of version 3, [Connect] of the node returns nil without any
    wait and the node is connected, so that [Join] with a non-empty
    channel creates a player in state None.  When every dial fails,
    [Connect] returns the last error, the node stays unconnected and
    [Join] is refused. *)
Theorem X20_node_connect_then_join
    (cfg : Config) (userID shardCount g ch : string) :
  ch <> EmptyString ->
  (forall (c : Conn) (ver : string),
     (forall h, Dial 0%nat h = dial_ok c ver) ->
     strconv_Atoi ver = inr 3 ->
     exists (w1 w2 : World) (p : ptr),
       Node_Connect userID shardCount (NewNode cfg) = Ret None w1 /\
       node_connected (node w1) = true /\
       sock_connected (socket w1) = true /\
       slept (trace w1) = [] /\
       Node_Join g ch w1 = Ret (Some p, None) w2 /\
       heap w2 !! p = Some (zero_Player g)) /\
  (forall E : nat -> error,
     (forall i h, Dial i h = dial_err (E i)) ->
     exists w1 : World,
       Node_Connect userID shardCount (NewNode cfg)
       = Ret (Some (E (Z.to_nat (ReconnectAttempts cfg)))) w1 /\
       node_connected (node w1) = false /\
       Node_Join g ch w1
       = Ret (None, Some (errors_New "can't join on non-connected node")) w1).
Proof.
  intros Hch. set (w0 := NewNode cfg). split.
  - intros c ver HD Hver.
    assert (HC : forall h, Socket_Connect h w0
                 = Ret None (opened c (with_trace log_dial w0))).
    { intros h. unfold Socket_Connect, Connect_fuel.
      apply (Connect_rec_fail_then_open h c ver Hver 0%nat);
        [reflexivity | intros i Hi; lia | apply HD | lia | lia]. }
    set (w1 := with_node (set_node_connected true)
                 (opened c (with_trace log_dial w0))).
    destruct (Node_Join_new w1 g ch ∅) as (w2 & HJ & Hh & _);
      [reflexivity | exact Hch | reflexivity | apply lookup_empty | exact I |].
    exists w1, w2, (fresh (dom (heap w1))). repeat apply conj; try reflexivity.
    + unfold Node_Connect, bind at 1, get at 1. unfold bind at 1.
      rewrite HC. reflexivity.
    + exact HJ.
    + rewrite Hh. apply lookup_insert_eq.
  - intros E HE.
    set (N := Z.to_nat (ReconnectAttempts cfg)).
    assert (HC : forall h, Socket_Connect h w0
                 = Ret (Some (E N)) (with_trace log_dial (retries N w0))).
    { intros h. unfold Socket_Connect, Connect_fuel.
      rewrite (Connect_rec_all_fail h E (fun i => HE i h) N);
        [reflexivity | reflexivity
        | simpl; unfold N; f_equal; lia
        | simpl; rewrite Z.sub_0_r; fold N; lia]. }
    destruct (retries_fields N w0) as (_ & _ & _ & _ & _ & _ & Hn & _).
    exists (with_trace log_dial (retries N w0)). repeat apply conj.
    + unfold Node_Connect, bind at 1, get at 1. unfold bind at 1.
      rewrite HC. reflexivity.
    + simpl. rewrite Hn. reflexivity.
    + unfold Node_Join, bind at 1, get at 1. simpl. rewrite Hn. reflexivity.
Qed.

(** X21. The on-open callback marks the node connected and, when resuming
    is enabled, sends the configureResuming frame; for a timeout of a
    whole number of seconds the frame carries that number.  If the frame
    cannot be sent (the socket is not connected, or the write fails) the
    callback panics; with resuming disabled it sends nothing. *)
Theorem X21_on_open_configures_resuming (w : World) :
  let cfg := node_cfg (node w) in
  let w1 := with_node (set_node_connected true) w in
  (EnableResume cfg = false -> Node_socketOnOpen w = Ret tt w1) /\
  (EnableResume cfg = true ->
   sock_connected (socket w) = false ->
   Node_socketOnOpen w = Panic (panic_msg "Could not set resume")) /\
  (forall seconds : Z,
     EnableResume cfg = true ->
     ResumeTimeout cfg = seconds * 1000000000 ->
     socket_ok (socket w) ->
     sock_connected (socket w) = true ->
     let frame := Marshal (json_of_resume
           {| r_Op := "configureResuming"; r_Key := ResumeKey cfg;
              r_Timeout := seconds |}) in
     Node_socketOnOpen w
     = match WriteMessage (written (trace w)) frame with
       | None => Ret tt (with_trace (log_write frame) w1)
       | Some _ => Panic (panic_msg "Could not set resume")
       end).
Proof.
  intros cfg w1. unfold cfg, w1. repeat apply conj.
  - intros He. unfold Node_socketOnOpen, bind at 1, modify at 1.
    unfold bind, get. simpl. now rewrite He.
  - intros He Hc. unfold Node_socketOnOpen, bind at 1, modify at 1.
    unfold bind at 1, get at 1.
    cbn [node_cfg node with_node set_node_connected]. rewrite He.
    unfold bind. rewrite Send_disconnected by exact Hc. reflexivity.
  - intros seconds He Ht Hok Hc.
    unfold Node_socketOnOpen, bind at 1, modify at 1.
    unfold bind at 1, get at 1.
    cbn [node_cfg node with_node set_node_connected]. rewrite He.
    assert (Hsec : whole_seconds (ResumeTimeout (node_cfg (node w))) = seconds).
    { unfold whole_seconds. rewrite Ht. apply Z.quot_mul. lia. }
    rewrite Hsec. unfold bind.
    rewrite Send_connected;
      [|exact Hok | exact Hc | apply Marshal_object_text].
    simpl. destruct (WriteMessage _ _); reflexivity.
Qed.

(** X22. The voice handshake.  A voice-state update of another user is
    ignored; one of the shard's own user stores the session for the
    guild, replacing what was stored.  A voice-server update for a guild
    with no stored session sends nothing; after the state update it
    sends one voiceUpdate frame pairing the stored session with the
    endpoint and token, and it returns normally even when the send
    fails: the failure is only printed. *)
Theorem X22_voice_state_then_server_update
    (w : World) (vm : gmap string voiceState)
    (user other g sid endpoint token : string) :
  voiceStates (node w) = Some vm ->
  socket_ok (socket w) ->
  (user <> other ->
   Node_OnVoiceStateUpdate user other g sid w = Ret tt w) /\
  (vm !! g = None ->
   Node_OnVoiceServerUpdate g endpoint token w = Ret tt w) /\
  let frame := voice_frame g sid endpoint token in
  exists w1 w2 : World,
    Node_OnVoiceStateUpdate user user g sid w = Ret tt w1 /\
    voiceStates (node w1)
    = Some (<[g := {| vs_GuildID := g; vs_SessionID := sid |}]> vm) /\
    Node_OnVoiceServerUpdate g endpoint token w1 = Ret tt w2 /\
    written (trace w2)
    = (written (trace w)
       ++ (if sock_connected (socket w) then [frame] else []))%list /\
    (sock_connected (socket w) = true ->
     WriteMessage (written (trace w)) frame = None ->
     printed (trace w2) = printed (trace w)) /\
    (sock_connected (socket w) = false ->
     length (printed (trace w2)) = S (length (printed (trace w)))).
Proof.
  intros Hvm Hok. repeat apply conj.
  - intros Hne. unfold Node_OnVoiceStateUpdate.
    apply String.eqb_neq in Hne. now rewrite Hne.
  - intros Hg. unfold Node_OnVoiceServerUpdate, bind, voiceStates_Load.
    monad. now rewrite Hvm, Hg.
  - intros frame.
    set (w1 := with_node (set_voiceStates (Some
           (<[g := {| vs_GuildID := g; vs_SessionID := sid |}]> vm))) w).
    destruct (Send_sends frame w1 Hok) as (err & ws & Hs & Hsd);
      [apply Marshal_object_text|].
    destruct (sends_frame _ _ _ _ Hsd) as (_ & _ & _ & _ & _ & Hwr).
    set (w2 := match err with
               | Some e => with_trace (log_print
                   ("*Node.OnVoiceServerUpdate ERR socked.Send: "
                    ++ Error_text e)) ws
               | None => ws
               end).
    exists w1, w2. repeat apply conj.
    + unfold Node_OnVoiceStateUpdate. rewrite String.eqb_refl. simpl.
      monad. now rewrite Hvm.
    + reflexivity.
    + unfold Node_OnVoiceServerUpdate, bind at 1, voiceStates_Load.
      monad. rewrite lookup_insert_eq. simpl.
      fold (voice_frame g sid endpoint token). fold frame.
      unfold bind. rewrite Hs. unfold w2. destruct err; reflexivity.
    + unfold w2. destruct err; simpl; exact Hwr.
    + intros Hc Hw. unfold sends in Hsd. simpl in Hsd. rewrite Hc in Hsd.
      destruct Hsd as [-> ->]. unfold w2. simpl. rewrite Hw. reflexivity.
    + intros Hc. unfold sends in Hsd. simpl in Hsd. rewrite Hc in Hsd.
      destruct Hsd as [-> ->]. unfold w2. simpl.
      rewrite length_app. simpl. lia.
Qed.

(** ** More of the dispatcher *)

Lemma received_event (data : string) (bp : basePayload)
    (rp : recvDataEventPayload) (w : World) :
  data <> EmptyString ->
  Unmarshal_basePayload data = inr bp ->
  b_Op bp = "event" ->
  Unmarshal_recvDataEventPayload data = inr rp ->
  Node_socketDataReceived data w = dispatch_event bp rp w.
Proof.
  intros Hd Hbp Hop Hrp. unfold Node_socketDataReceived.
  rewrite (length_nonempty data Hd), Hbp. unfold bind at 1, get at 1.
  rewrite Hop. simpl. now rewrite Hrp.
Qed.

Lemma GetPlayer_Some (g : string) (m : gmap string ptr) (w : World) :
  players (node w) = Some m -> Node_GetPlayer g w = Ret (m !! g) w.
Proof. apply players_Load_Some. Qed.

(** X23. A [playerUpdate] frame for a guild with a player returns
    normally: in the player it sets the time of the last update and, when
    the player has a track, the position of that track (hash and length
    as before), keeps state, guild and volume, and hands one
    PlayerUpdated event, with the player filled in, to a registered
    subscriber; nothing is written to the socket and the registry is as
    before.  For a guild without a player the frame is dropped and
    nothing changes. *)
Theorem X23_player_update_frame
    (w : World) (data : string) (bp : basePayload) (pu : PlayerUpdatedEvent)
    (m : gmap string ptr) :
  data <> EmptyString ->
  Unmarshal_basePayload data = inr bp ->
  b_Op bp = "playerUpdate" ->
  Unmarshal_PlayerUpdatedEvent data = inr pu ->
  players (node w) = Some m ->
  (m !! b_GuildID bp = None -> Node_socketDataReceived data w = Ret tt w) /\
  (forall (p : ptr) (pl : Player),
     m !! b_GuildID bp = Some p ->
     heap w !! p = Some pl ->
     exists (w' : World) (pl1 : Player),
       Node_socketDataReceived data w = Ret tt w' /\
       heap w' !! p = Some pl1 /\
       LastUpdate pl1 = Time_Unix (pu_Time (pu_State pu)) /\
       State pl1 = State pl /\
       GuildID pl1 = GuildID pl /\
       Volume pl1 = Volume pl /\
       (p_Track pl = None -> p_Track pl1 = None) /\
       (forall t, p_Track pl = Some t ->
          exists t1, p_Track pl1 = Some t1 /\
            Position (Info t1) = pu_Position (pu_State pu) /\
            Track_hash t1 = Track_hash t /\
            Length (Info t1) = Length (Info t)) /\
       delivered (trace w')
       = (delivered (trace w)
          ++ (if PlayerUpdated (node w)
              then [PlayerUpdated_ev {| pu_Player := Some p;
                                        pu_Track := pu_Track pu;
                                        pu_State := pu_State pu |}]
              else []))%list /\
       written (trace w') = written (trace w) /\
       node w' = node w /\
       socket w' = socket w).
Proof.
  intros Hd Hbp Hop Hpu Hm.
  assert (Hrecv : Node_socketDataReceived data w
    = (let* po := Node_GetPlayer (b_GuildID bp) in
       match po with
       | None => ret tt
       | Some p =>
           let* pl := deref p in
           (match p_Track pl with
            | None => ret tt
            | Some t => update p (set_Track
                (Some (updatePosition (pu_Position (pu_State pu)) t)))
            end) ;;
           update p (set_LastUpdate (Time_Unix (pu_Time (pu_State pu)))) ;;
           if negb (PlayerUpdated (node w)) then ret tt
           else deliver (PlayerUpdated_ev
                  {| pu_Player := Some p; pu_Track := pu_Track pu;
                     pu_State := pu_State pu |})
       end) w).
  { unfold Node_socketDataReceived.
    rewrite (length_nonempty data Hd), Hbp. unfold bind at 1, get at 1.
    rewrite Hop. simpl. now rewrite Hpu. }
  split.
  - intros Hg. rewrite Hrecv. unfold bind at 1.
    now rewrite (GetPlayer_Some _ m w Hm), Hg.
  - intros p pl Hg Hp.
    set (pl1 := set_LastUpdate (Time_Unix (pu_Time (pu_State pu)))
                  (match p_Track pl with
                   | Some t => set_Track
                       (Some (updatePosition (pu_Position (pu_State pu)) t)) pl
                   | None => pl
                   end)).
    set (ev := PlayerUpdated_ev {| pu_Player := Some p;
                                   pu_Track := pu_Track pu;
                                   pu_State := pu_State pu |}).
    exists (delivered_if (PlayerUpdated (node w)) ev (put p pl1 w)), pl1.
    split; [|repeat apply conj].
    + rewrite Hrecv. unfold bind at 1.
      rewrite (GetPlayer_Some _ m w Hm), Hg.
      unfold bind at 1. rewrite (deref_Some p pl w Hp). subst pl1 ev.
      destruct (p_Track pl) as [t|].
      * unfold bind at 1. rewrite (update_Some p pl _ w Hp).
        unfold bind at 1.
        rewrite (update_Some p _ _ _ (heap_put p _ w)), put_put.
        unfold delivered_if, deliver. destruct (PlayerUpdated (node w));
          reflexivity.
      * unfold bind at 1, ret at 1. unfold bind at 1.
        rewrite (update_Some p pl _ w Hp).
        unfold delivered_if, deliver. destruct (PlayerUpdated (node w));
          reflexivity.
    + unfold delivered_if. destruct (PlayerUpdated (node w)); apply heap_put.
    + subst pl1. destruct (p_Track pl); reflexivity.
    + subst pl1. destruct (p_Track pl); reflexivity.
    + subst pl1. destruct (p_Track pl); reflexivity.
    + subst pl1. destruct (p_Track pl); reflexivity.
    + intros Ht. subst pl1. now rewrite Ht.
    + intros t Ht. subst pl1. rewrite Ht. eexists. split; [reflexivity|].
      repeat split.
    + unfold delivered_if. destruct (PlayerUpdated (node w)); simpl;
        [reflexivity | now rewrite app_nil_r].
    + unfold delivered_if. destruct (PlayerUpdated (node w)); reflexivity.
    + unfold delivered_if. destruct (PlayerUpdated (node w)); reflexivity.
    + unfold delivered_if. destruct (PlayerUpdated (node w)); reflexivity.
Qed.

(** X24. A [stats] frame is decoded only when a StatsReceived subscriber
    is registered: without one the frame is dropped whatever it holds;
    with one, a payload that decodes is delivered once and one that
    does not makes the handler panic. *)
Theorem X24_stats_frame
    (w : World) (data : string) (bp : basePayload) :
  data <> EmptyString ->
  Unmarshal_basePayload data = inr bp ->
  b_Op bp = "stats" ->
  (StatsReceived (node w) = false -> Node_socketDataReceived data w = Ret tt w) /\
  (StatsReceived (node w) = true ->
   Node_socketDataReceived data w
   = match Unmarshal_StatsReceivedEvent data with
     | inr sr => Ret tt (with_trace (log_event (StatsReceived_ev sr)) w)
     | inl err =>
         Panic (panic_err "*Node.DataReceived: json.Unmarshal 'stats' => " err)
     end).
Proof.
  intros Hd Hbp Hop.
  split; intros Hsub; unfold Node_socketDataReceived;
    rewrite (length_nonempty data Hd), Hbp; unfold bind at 1, get at 1;
    rewrite Hop; simpl; rewrite Hsub; simpl; [reflexivity|].
  destruct (Unmarshal_StatsReceivedEvent data); reflexivity.
Qed.


(** X26. The other events of a guild with a player.  TrackStartEvent sets
    the state to Playing, TrackExceptionEvent and TrackStuckEvent set it
    to Stopped; each hands its event to a registered subscriber, with
    the player's current track, the error message, or the threshold in
    nanoseconds.  Track, queue and volume are not touched. *)
Theorem X26_track_events_set_the_state
    (w : World) (data : string) (bp : basePayload)
    (rp : recvDataEventPayload) (m : gmap string ptr) (p : ptr) (pl : Player) :
  data <> EmptyString ->
  Unmarshal_basePayload data = inr bp ->
  b_Op bp = "event" ->
  Unmarshal_recvDataEventPayload data = inr rp ->
  players (node w) = Some m ->
  m !! b_GuildID bp = Some p ->
  heap w !! p = Some pl ->
  (rp_Type rp = trackStartEvent ->
   Node_socketDataReceived data w
   = Ret tt (delivered_if (TrackStarted (node w))
               (TrackStarted_ev p (p_Track pl))
               (put p (set_State PlayerStatePlaying pl) w))) /\
  (rp_Type rp = trackExceptionEvent ->
   Node_socketDataReceived data w
   = Ret tt (delivered_if (TrackException (node w))
               (TrackException_ev p (p_Track pl) (rp_Error rp))
               (put p (set_State PlayerStateStopped pl) w))) /\
  (rp_Type rp = trackStuckEvent ->
   int64_min <= rp_ThresholdMs rp * 1000000 <= int64_max ->
   Node_socketDataReceived data w
   = Ret tt (delivered_if (TrackStuck (node w))
               (TrackStuck_ev p (p_Track pl) (rp_ThresholdMs rp * 1000000))
               (put p (set_State PlayerStateStopped pl) w))).
Proof.
  intros Hd Hbp Hop Hrp Hm Hg Hp.
  rewrite (received_event data bp rp w Hd Hbp Hop Hrp).
  repeat apply conj; intros Hty; unfold dispatch_event, bind at 1, get at 1;
    rewrite Hty; simpl; unfold bind at 1;
    rewrite (GetPlayer_Some _ m w Hm), Hg; unfold bind at 1;
    rewrite (update_Some p pl _ w Hp); unfold delivered_if.
  - destruct (TrackStarted (node w)); simpl; [|reflexivity].
    unfold bind at 1. rewrite (deref_Some p _ _ (heap_put p _ w)). reflexivity.
  - destruct (TrackException (node w)); simpl; [|reflexivity].
    unfold bind at 1. rewrite (deref_Some p _ _ (heap_put p _ w)). reflexivity.
  - intros Hrange. destruct (TrackStuck (node w)); simpl; [|reflexivity].
    unfold ParseDuration_ms.
    replace ((int64_min <=? _) && (_ <=? int64_max))%Z with true
      by (symmetry; apply andb_true_intro; split; apply Z.leb_le; lia).
    unfold bind at 1. rewrite (deref_Some p _ _ (heap_put p _ w)). reflexivity.
Qed.

(** X27. Events that need no player.  A track event (start, end,
    exception, stuck) for a guild that has no player is dropped and
    nothing changes.  A WebSocketClosedEvent never looks for a player:
    it changes no player and hands code, reason and remote flag to a
    registered subscriber. *)
Theorem X27_events_without_a_player
    (w : World) (data : string) (bp : basePayload)
    (rp : recvDataEventPayload) (m : gmap string ptr) :
  data <> EmptyString ->
  Unmarshal_basePayload data = inr bp ->
  b_Op bp = "event" ->
  Unmarshal_recvDataEventPayload data = inr rp ->
  (players (node w) = Some m ->
   m !! b_GuildID bp = None ->
   rp_Type rp = trackStartEvent \/ rp_Type rp = trackEndEvent \/
   rp_Type rp = trackExceptionEvent \/ rp_Type rp = trackStuckEvent ->
   Node_socketDataReceived data w = Ret tt w) /\
  (rp_Type rp = webSocketClosedEvent ->
   Node_socketDataReceived data w
   = Ret tt (delivered_if (WebSocketClosed (node w))
               (WebSocketClosed_ev (rp_GuildID rp) (rp_Code rp)
                                   (rp_Reason rp) (rp_ByRemote rp)) w)).
Proof.
  intros Hd Hbp Hop Hrp.
  rewrite (received_event data bp rp w Hd Hbp Hop Hrp). split.
  - intros Hm Hg Hty. unfold dispatch_event, bind at 1, get at 1.
    destruct Hty as [Hty|[Hty|[Hty|Hty]]]; rewrite Hty; simpl;
      unfold bind; now rewrite (GetPlayer_Some _ m w Hm), Hg.
  - intros Hty. unfold dispatch_event, bind at 1, get at 1.
    rewrite Hty. simpl. unfold delivered_if.
    destruct (WebSocketClosed (node w)); reflexivity.
Qed.

(** X28. Frames that cannot be handled make the handler panic: an empty
    frame, a frame whose envelope does not decode, and an [event] or
    [playerUpdate] frame whose payload does not decode.  The payload of
    a [playerUpdate] is decoded before the player is looked up, so this
    holds for a guild without a player as well. *)
Theorem X28_malformed_frames_panic (w : World) (data : string) :
  Node_socketDataReceived EmptyString w
  = Panic (panic_msg "*Node.DataReceived: len(data) = 0") /\
  (data <> EmptyString ->
   (forall err, Unmarshal_basePayload data = inl err ->
      Node_socketDataReceived data w
      = Panic (panic_err "*Node.DataReceived: json.Unmarshal => " err)) /\
   (forall bp err,
      Unmarshal_basePayload data = inr bp -> b_Op bp = "event" ->
      Unmarshal_recvDataEventPayload data = inl err ->
      Node_socketDataReceived data w
      = Panic (panic_err "*Node.DataReceived: json.Unmarshal 'event' => " err)) /\
   (forall bp err,
      Unmarshal_basePayload data = inr bp -> b_Op bp = "playerUpdate" ->
      Unmarshal_PlayerUpdatedEvent data = inl err ->
      Node_socketDataReceived data w
      = Panic (panic_err
                 "*Node.DataReceived: json.Unmarshal 'playerUpdated' => " err))).
Proof.
  split; [reflexivity|]. intros Hd. unfold Node_socketDataReceived.
  rewrite (length_nonempty data Hd). repeat apply conj.
  - now intros err ->.
  - intros bp err -> Hop Hrp. monad. rewrite Hop. simpl. now rewrite Hrp.
  - intros bp err -> Hop Hpu. monad. rewrite Hop. simpl. now rewrite Hpu.
Qed.

End Lavago.

(** * The theorems at the sample environment *)

Lemma C1_witness :
  exists w' : World,
    Socket_Connect dial_refused [] (NewNode NewConfig) = Ret (Some refused) w' /\
    dialled (trace w') = 11%nat /\
    slept (trace w')
    = List.map (fun k : nat => Z.of_nat k * 10000000000) (seq 1 10) /\
    strictly_increasing (slept (trace w')).
Proof.
  destruct (C1_connect_retries_then_last_error dial_refused NewConfig []
              (fun _ => refused) (NewNode NewConfig))
    as (w' & Hret & Hdial & Hsl & _ & _ & Hinc & _);
    [reflexivity | intros i; reflexivity |].
  exists w'. split; [exact Hret|]. split; [exact Hdial|].
  destruct Hinc as [_ Hinc]; [reflexivity | vm_compute; discriminate |].
  rewrite Hsl. split; [reflexivity | exact Hinc].
Defined.

(** C1, as stated, fails: with a delay of zero the three retries all wait
    the same interval, so the waits are not strictly increasing. *)
Lemma C1_counterexample :
  socket (NewNode eager_config) = NewSocket eager_config /\
  ReconnectAttempts eager_config = 3 /\
  ReconnectDelay eager_config = 0 /\
  exists w' : World,
    Socket_Connect dial_refused [] (NewNode eager_config)
    = Ret (Some refused) w' /\
    slept (trace w') = [0; 0; 0] /\
    ~ strictly_increasing (slept (trace w')).
Proof.
  split; [reflexivity|]. split; [reflexivity|]. split; [reflexivity|].
  eexists. split; [vm_compute; reflexivity|].
  split; [vm_compute; reflexivity|].
  intros Hinc. specialize (Hinc 0%nat 1%nat 0 0 eq_refl eq_refl).
  lia.
Qed.

Lemma C9_witness :
  Socket_Connect dial_refused [] (NewNode NewConfig)
  = Ret (Some refused) spent_world /\
  exhausted (socket spent_world) /\
  Socket_Connect dial_refused [] spent_world
  = Ret (Some refused) (with_trace log_dial spent_world) /\
  slept (trace (with_trace log_dial spent_world)) = slept (trace spent_world) /\
  reconnectInterval (socket (NewNode NewConfig))
  <= reconnectInterval (socket spent_world).
Proof.
  assert (H1 : Socket_Connect dial_refused [] (NewNode NewConfig)
               = Ret (Some refused) spent_world) by (vm_compute; reflexivity).
  assert (Hex : exhausted (socket spent_world)) by (vm_compute; discriminate).
  split; [exact H1|]. split; [exact Hex|].
  destruct (C9_attempt_budget_is_per_socket dial_refused write_ok close_ok
              unit (fun _ => inr "null") spent_world) as (_ & _ & Hnow).
  destruct (C9_attempt_budget_is_per_socket dial_refused write_ok close_ok
              unit (fun _ => inr "null") (NewNode NewConfig)) as (_ & Hmono & _).
  split; [apply Hnow; [exact Hex | vm_compute; reflexivity | reflexivity]|].
  split; [vm_compute; reflexivity|].
  apply (Hmono NewConfig (op_Connect unit []) (Some refused) spent_world);
    [vm_compute; discriminate | vm_compute; discriminate
    | apply reachable_new | exact H1].
Defined.

(** C9, as stated, fails: with a delay of -5ns one failing [Connect] on a
    fresh socket takes the cumulative interval from 0 down to -15ns. *)
Lemma C9_counterexample :
  reconnectInterval (socket (NewNode backward_config)) = 0 /\
  exists w' : World,
    Socket_Connect dial_refused [] (NewNode backward_config)
    = Ret (Some refused) w' /\
    slept (trace w') = [-5; -10; -15] /\
    reconnectInterval (socket w') = -15 /\
    reconnectInterval (socket w')
    < reconnectInterval (socket (NewNode backward_config)).
Proof.
  split; [reflexivity|].
  eexists. split; [vm_compute; reflexivity|].
  split; [vm_compute; reflexivity|].
  split; [vm_compute; reflexivity|].
  vm_compute. reflexivity.
Qed.

Lemma C4_witness :
  State idle_player = PlayerStateStopped /\
  exists w' : World,
    Player_Play write_ok plain_quote 1%positive loud_args online_world
    = Ret (Some (errors_New "can't play with volume > 1000")) w' /\
    written (trace w') = [] /\
    heap w' !! 1%positive = Some (set_State PlayerStatePlaying idle_player).
Proof.
  split; [reflexivity|].
  destruct (C4_play_out_of_range_sets_state_first write_ok plain_quote
              online_world 1%positive idle_player loud_args sample_track)
    as [Hout _]; [reflexivity | reflexivity |].
  destruct Hout as (msg & w' & Hret & Htr & _ & Hheap & _);
    [right; reflexivity|].
  exists w'. split; [|split].
  - rewrite Hret. vm_compute in Hret. injection Hret as <- _. reflexivity.
  - rewrite Htr. reflexivity.
  - exact Hheap.
Defined.

Lemma online_socket_ok : socket_ok (socket online_world).
Proof. split; intros _; [reflexivity | eexists; reflexivity]. Defined.

Lemma C5_witness :
  exists w' : World,
    Player_UpdateVolume write_ok plain_quote 1%positive 50 online_world
    = Ret None w' /\
    written (trace w')
    = [json_encode plain_quote
         (JObject [("op", JString "volume"); ("guildId", JString "42");
                   ("position", JNumber 50)])] /\
    heap w' !! 1%positive = Some (set_Volume 50 idle_player).
Proof.
  destruct (C5_volume_frame_members write_ok plain_quote online_world
              1%positive idle_player 50)
    as (err & w' & Hret & Hheap & _ & Hsent & _);
    [reflexivity | exact online_socket_ok |].
  destruct (Hsent eq_refl) as [-> Hwr].
  exists w'. split; [exact Hret|]. split; [exact Hwr | exact Hheap].
Defined.

Lemma C7_witness :
  exists w' : World,
    Player_Skip write_ok plain_quote 1%positive 0 online_world
    = Ret (None, None, None) w' /\
    heap w' !! 1%positive = Some (set_State PlayerStateStopped idle_player).
Proof.
  destruct (C7_skip_empty_queue_stops write_ok plain_quote online_world
              1%positive idle_player 0)
    as (err & w' & Hret & _ & Hheap & _ & Herr & _);
    [reflexivity | discriminate | reflexivity | exact online_socket_ok |].
  exists w'. rewrite (Herr eq_refl eq_refl) in Hret. split; assumption.
Defined.

(** C7, as stated, fails: with an empty queue and the transport broken,
    [Skip] returns the error of the stop frame's write. *)
Lemma C7_counterexample :
  heap online_world !! 1%positive = Some idle_player /\
  State idle_player <> PlayerStateNone /\
  Queue idle_player = [] /\
  exists w' : World,
    Player_Skip write_broken plain_quote 1%positive 0 online_world
    = Ret (None, None, Some broken_pipe) w'.
Proof.
  split; [reflexivity|]. split; [discriminate|]. split; [reflexivity|].
  eexists. vm_compute. reflexivity.
Qed.

(** From a new player: [Join], then [Stop], then [Seek]. *)
Lemma C10_witness :
  exists (p : ptr) (w1 w2 : World),
    Node_Join "42" "general" lobby_world = Ret (Some p, None) w1 /\
    Player_Stop write_ok plain_quote p w1 = Ret None w2 /\
    heap w2 !! p = Some idle_player /\
    Player_Seek write_ok plain_quote p 15000 w2 = Panic nil_dereference.
Proof.
  eexists _, _, _.
  split; [vm_compute; reflexivity|].
  split; [vm_compute; reflexivity|].
  split; [vm_compute; reflexivity|].
  apply (C10_seek_without_track_panics write_ok plain_quote _ _
           idle_player 15000);
    [vm_compute; reflexivity | discriminate | reflexivity|].
  split; intros _; [reflexivity | eexists; reflexivity].
Defined.

Lemma C2_witness :
  Node_socketDataReceived sample_Unmarshal_basePayload
    sample_Unmarshal_StatsReceivedEvent sample_Unmarshal_PlayerUpdatedEvent
    sample_Unmarshal_recvDataEventPayload unknown_kind_frame online_world
  = Panic (panic_msg "*Node.DataReceived: switch.default") /\
  Node_socketDataReceived sample_Unmarshal_basePayload
    sample_Unmarshal_StatsReceivedEvent sample_Unmarshal_PlayerUpdatedEvent
    sample_Unmarshal_recvDataEventPayload unknown_type_frame online_world
  = Ret tt online_world.
Proof.
  split.
  - apply (C2_unknown_kind_panics_unknown_type_ignored
             sample_Unmarshal_basePayload sample_Unmarshal_StatsReceivedEvent
             sample_Unmarshal_PlayerUpdatedEvent
             sample_Unmarshal_recvDataEventPayload
             online_world unknown_kind_frame
             {| b_Op := "ready"; b_GuildID := "42" |});
      [vm_compute; discriminate | vm_compute; reflexivity
      | discriminate | discriminate | discriminate].
  - apply (C2_unknown_kind_panics_unknown_type_ignored
             sample_Unmarshal_basePayload sample_Unmarshal_StatsReceivedEvent
             sample_Unmarshal_PlayerUpdatedEvent
             sample_Unmarshal_recvDataEventPayload
             online_world unknown_type_frame
             {| b_Op := "event"; b_GuildID := "42" |})
      with (rp := {| rp_Op := "event"; rp_GuildID := "42";
                     rp_Type := "TrackSkippedEvent"; rp_Track := "";
                     rp_Reason := ""; rp_Error := ""; rp_ThresholdMs := 0;
                     rp_Code := 0; rp_ByRemote := false |});
      [vm_compute; discriminate | vm_compute; reflexivity
      | reflexivity | vm_compute; reflexivity | reflexivity].
Defined.

Lemma C3_witness :
  exists w' : World,
    Node_socketDataReceived sample_Unmarshal_basePayload
      sample_Unmarshal_StatsReceivedEvent sample_Unmarshal_PlayerUpdatedEvent
      sample_Unmarshal_recvDataEventPayload track_end_frame online_world
    = Ret tt w' /\
    heap w' !! 1%positive = Some (set_State PlayerStateStopped idle_player) /\
    delivered (trace w') = [TrackEnded_ev 1%positive None FinishedReason].
Proof.
  destruct (C3_track_end_finished
              sample_Unmarshal_basePayload sample_Unmarshal_StatsReceivedEvent
              sample_Unmarshal_PlayerUpdatedEvent
              sample_Unmarshal_recvDataEventPayload
              online_world track_end_frame "INISHED"
              {| b_Op := "event"; b_GuildID := "42" |}
              {| rp_Op := "event"; rp_GuildID := "42";
                 rp_Type := "TrackEndEvent"; rp_Track := "";
                 rp_Reason := "FINISHED"; rp_Error := ""; rp_ThresholdMs := 0;
                 rp_Code := 0; rp_ByRemote := false |}
              {["42" := 1%positive]} 1%positive idle_player)
    as (w' & Hret & Hheap & _ & Hdel & _);
    [vm_compute; discriminate | vm_compute; reflexivity | reflexivity
    | vm_compute; reflexivity | reflexivity | reflexivity | reflexivity
    | vm_compute; reflexivity | reflexivity |].
  exists w'. split; [exact Hret|]. split; [|exact Hdel].
  rewrite Hheap. apply lookup_insert_eq.
Defined.

Lemma lobby_registry_ok : registry_ok lobby_world.
Proof.
  intros m g p Hm Hg. injection Hm as <-.
  rewrite lookup_empty in Hg. discriminate Hg.
Defined.


Lemma hosted_registry_ok : registry_ok hosted_world.
Proof.
  intros m g p Hm Hg. injection Hm as <-.
  rewrite lookup_empty in Hg. discriminate Hg.
Defined.

Lemma C6_witness :
  exists (p : ptr) (w1 : World),
    Node_Join "42" "general" hosted_world = Ret (Some p, None) w1 /\
    Node_Join "42" "music" w1 = Ret (Some p, None) w1.
Proof.
  destruct (C6_join_twice_same_player hosted_world "42" "general" "music" ∅)
    as [Haccepted _];
    [reflexivity | reflexivity | exact hosted_registry_ok
    | discriminate | discriminate |].
  destruct Haccepted as (p & w1 & H1 & H2 & _); [right; reflexivity|].
  exists p, w1. split; assumption.
Defined.

(** C6, as stated, fails: the collaborator refuses the channel of the
    first [Join], which returns no player and registers nothing; the
    second [Join] for the guild then calls the collaborator again,
    returns a player and changes the registry. *)
Lemma C6_counterexample :
  node_connected (node hosted_world) = true /\
  exists (p : ptr) (w1 w2 : World),
    Node_Join "42" "staff" hosted_world = Ret (None, Some voice_refused) w1 /\
    Node_Join "42" "general" w1 = Ret (Some p, None) w2 /\
    voiceCalls (trace w1) = [("42", "staff", true)] /\
    voiceCalls (trace w2) = [("42", "staff", true); ("42", "general", true)] /\
    players (node w1) = Some ∅ /\
    players (node w2) = Some {["42" := p]}.
Proof.
  split; [reflexivity|].
  eexists _, _, _. split; [vm_compute; reflexivity|].
  split; [vm_compute; reflexivity|].
  repeat split; vm_compute; reflexivity.
Qed.


(** * The further properties at the sample environment *)

Lemma busy_lookup : heap busy_world !! 1%positive = Some busy_player.
Proof. reflexivity. Defined.

Lemma X1_witness :
  exists w' : World,
    Socket_Connect dial_third [] (NewNode NewConfig) = Ret None w' /\
    sock_connected (socket w') = true /\
    slept (trace w') = [10000000000; 20000000000].
Proof.
  destruct (X1_connect_opens_after_failures dial_third NewConfig [] 7%nat "3"
              2%nat (NewNode NewConfig))
    as (w' & H1 & _ & Hc & _ & _ & Hsl & _);
    [reflexivity | vm_compute; discriminate
    | intros i Hi; exists refused;
      destruct i as [|[|i]]; [reflexivity | reflexivity | lia]
    | reflexivity | reflexivity |].
  exists w'. split; [exact H1|]. split; [exact Hc|].
  rewrite Hsl. reflexivity.
Defined.

Lemma X2_witness :
  Socket_Connect dial_v4 [] (NewNode NewConfig)
  = Ret (Some (errors_New "this version of lavago only supports Lavalink v3.x"))
        (with_trace log_dial (NewNode NewConfig)).
Proof.
  destruct (X2_connect_rejects_other_versions dial_v4 [] 7%nat "4"
              (NewNode NewConfig)) as (e & H & He);
    [reflexivity | reflexivity | vm_compute; discriminate |].
  vm_compute in He. rewrite He in H. exact H.
Defined.

Lemma X3_witness :
  exists w' : World,
    Socket_Send write_ok "ping" (NewNode NewConfig)
    = Ret (Some not_connected) w' /\
    written (trace w') = [].
Proof.
  destruct (X3_send_returns_on_reachable_sockets dial_refused write_ok close_ok
              unit (fun _ => inr "null") NewConfig "ping" (NewNode NewConfig))
    as (err & w' & Hs & _ & _ & _ & Hwr & Herr & _);
    [apply reachable_new|].
  exists w'. rewrite (Herr eq_refl) in Hs. split; [exact Hs | exact Hwr].
Defined.

Lemma X4_witness :
  exists w1 : World,
    Socket_Close close_ok online_world = Ret None w1 /\
    Socket_Send write_ok "ping" w1 = Ret (Some not_connected) w1 /\
    Socket_Close close_ok w1 = Panic close_of_closed_channel.
Proof.
  destruct (X4_close_is_final dial_refused write_ok close_ok online_world)
    as [Hfinal _].
  destruct (Hfinal online_socket_ok eq_refl)
    as (c & w1 & _ & Hcl & _ & Hsend & _ & Hagain).
  exists w1. split; [exact Hcl|]. split; [apply Hsend | exact Hagain].
Defined.

Lemma X5_witness :
  Socket_readListener [(1, "hello", @None error)] online_world
  = Ret tt online_world /\
  exists w' : World,
    Socket_readListener sample_reads online_world = Ret tt w' /\
    forall data : string,
      In (go_DataReceived data) (spawned (trace w')) -> data <> "hello".
Proof.
  split.
  - destruct (X5_read_pump_delivers_close_messages_only
                [(1, "hello", @None error)]) as [Hfirst _].
    apply (Hfirst online_world 7%nat 1 "hello" None []);
      [reflexivity | vm_compute; reflexivity | discriminate].
  - set (w' := with_trace (log_go (go_DataReceived "bye")) online_world).
    assert (H : Socket_readListener sample_reads online_world = Ret tt w')
      by (vm_compute; reflexivity).
    exists w'. split; [exact H|].
    destruct (X5_read_pump_delivers_close_messages_only sample_reads)
      as [_ Hall].
    destruct (Hall online_world w' H) as (gs & Hsp & Hin).
    simpl in Hsp. subst gs. intros data Hd.
    destruct (Hin data Hd) as [err [He|[He|[He|[]]]]];
      injection He; intros; subst; discriminate.
Defined.

Lemma X6_witness :
  Player_Pause write_ok plain_quote 1%positive joined_world
  = Ret (Some not_ready) joined_world /\
  Player_Skip write_ok plain_quote 1%positive 0 joined_world
  = Ret (None, None, Some not_ready) joined_world.
Proof.
  destruct (X6_state_none_refuses_commands write_ok plain_quote joined_world
              1%positive (zero_Player "42") 0 0)
    as (Hp & _ & _ & Hs); [reflexivity | reflexivity |].
  split; assumption.
Defined.

Lemma X7_witness :
  exists w' : World,
    Player_Stop write_broken plain_quote 1%positive busy_world
    = Ret (Some broken_pipe) w' /\
    heap w' !! 1%positive = Some (set_State PlayerStateStopped busy_player).
Proof.
  destruct (X7_stop_sets_state_then_sends write_broken plain_quote busy_world
              1%positive busy_player)
    as (err & w' & Hs & Hsd & Hh & _);
    [exact busy_lookup | exact online_socket_ok |].
  exists w'. split; [|exact Hh].
  destruct Hsd as [-> _]. exact Hs.
Defined.

Lemma X8_witness :
  exists w' : World,
    Player_PlayTrack write_ok plain_quote 1%positive (Some second_track)
      busy_world = Ret None w' /\
    (exists pl1, heap w' !! 1%positive = Some pl1 /\
                 p_Track pl1 = Some second_track /\ Volume pl1 = 80).
Proof.
  destruct (X8_play_track_volume_100 write_ok plain_quote busy_world
              1%positive busy_player second_track)
    as (_ & err & w' & Hs & Hsd & Hh & _);
    [exact busy_lookup | exact online_socket_ok |].
  exists w'. split.
  - destruct Hsd as [-> _]. exact Hs.
  - eexists. split; [exact Hh|]. split; reflexivity.
Defined.

Lemma X9_witness :
  (exists w' : World,
     Player_Pause write_ok plain_quote 1%positive busy_world = Ret None w') /\
  (exists w' : World,
     Player_Resume write_ok plain_quote 1%positive online_world = Ret None w').
Proof.
  split.
  - destruct (X9_pause_and_resume_frames write_ok plain_quote busy_world
                1%positive busy_player)
      as ((err & w' & Hs & Hsd) & _);
      [exact busy_lookup | discriminate | exact online_socket_ok |].
    exists w'. destruct Hsd as [-> _]. exact Hs.
  - destruct (X9_pause_and_resume_frames write_ok plain_quote online_world
                1%positive idle_player)
      as (_ & (err & w' & Hs & Hsd) & _);
      [reflexivity | discriminate | exact online_socket_ok |].
    exists w'. destruct Hsd as [-> _]. exact Hs.
Defined.

Lemma X10_witness :
  exists w' : World,
    Player_Skip write_ok plain_quote 1%positive 0 busy_world
    = Ret (Some sample_track, Some second_track, None) w' /\
    (exists pl1, heap w' !! 1%positive = Some pl1 /\
                 Queue pl1 = [queued_track None]).
Proof.
  destruct (X10_skip_plays_queue_head write_ok plain_quote busy_world
              1%positive busy_player 0 second_track [queued_track None])
    as (err & w' & Hs & Hsd & Hh & Hq & _);
    [exact busy_lookup | discriminate | reflexivity | exact online_socket_ok |].
  exists w'. split.
  - destruct Hsd as [-> _]. exact Hs.
  - eexists. split; [exact Hh | exact Hq].
Defined.

Lemma X11_witness :
  Player_Skip write_ok plain_quote 1%positive 0 nil_head_world
  = Ret (Some sample_track, None, Some (errors_New "can't play nil Track"))
        other_head_world /\
  Player_Skip write_ok plain_quote 1%positive 0 other_head_world
  = Panic type_assertion.
Proof.
  split.
  - destruct (X11_skip_drops_a_bad_head write_ok plain_quote nil_head_world
                1%positive
                (set_Queue [queued_track None; queued_other] busy_player)
                0 [queued_other]) as [Hnil _];
      [reflexivity | discriminate |].
    rewrite (Hnil eq_refl). vm_compute. reflexivity.
  - destruct (X11_skip_drops_a_bad_head write_ok plain_quote other_head_world
                1%positive (set_Queue [queued_other] busy_player) 0 [])
      as [_ Hother]; [reflexivity | discriminate |].
    exact (Hother eq_refl).
Defined.

Lemma X12_witness :
  Player_Seek write_ok plain_quote 1%positive 300000 busy_world
  = Ret (Some (fmt_Errorf_higher 212000)) busy_world /\
  exists w' : World,
    Player_Seek write_ok plain_quote 1%positive (-5) busy_world = Ret None w' /\
    written (trace w') = [seek_frame plain_quote "42" (-5)].
Proof.
  destruct (X12_seek_checks_the_upper_bound_only write_ok plain_quote
              busy_world 1%positive busy_player sample_track 300000)
    as [Hhigh _];
    [exact busy_lookup | discriminate | reflexivity | exact online_socket_ok |].
  destruct (X12_seek_checks_the_upper_bound_only write_ok plain_quote
              busy_world 1%positive busy_player sample_track (-5))
    as [_ Hlow];
    [exact busy_lookup | discriminate | reflexivity | exact online_socket_ok |].
  split; [apply Hhigh; reflexivity|].
  destruct Hlow as (err & w' & Hs & Hsd & _); [vm_compute; discriminate|].
  exists w'. destruct Hsd as [-> ->]. split; [exact Hs | reflexivity].
Defined.

Lemma X13_witness :
  exists w' : World,
    Player_Close write_broken plain_quote 1%positive busy_world
    = Ret (Some broken_pipe) w' /\
    heap w' !! 1%positive = Some (closed_Player busy_player) /\
    written (trace w')
    = [stop_frame plain_quote "42"; destroy_frame plain_quote "42"].
Proof.
  destruct (X13_player_close_resets_and_keeps_last_error write_broken
              plain_quote busy_world 1%positive busy_player)
    as (err & w' & Hs & Hh & _ & _ & _ & Hon & _);
    [exact busy_lookup | exact online_socket_ok |].
  destruct (Hon eq_refl) as [Hwr ->].
  exists w'. split; [exact Hs|]. split; [|exact Hwr].
  rewrite Hh. apply lookup_insert_eq.
Defined.

Lemma X14_witness :
  exists w' : World,
    Player_Play write_ok plain_quote 1%positive quiet_args online_world
    = Ret None w' /\
    written (trace w')
    = [play_frame plain_quote "42" "QAAAjQIAJVJpY2sgQXN0bGV5" false 0 0 0 false].
Proof.
  destruct (X14_play_stores_and_sends write_ok plain_quote online_world
              1%positive idle_player quiet_args sample_track)
    as (err & w' & Hs & Hsd & _);
    [reflexivity | reflexivity | vm_compute; split; discriminate
    | exact online_socket_ok |].
  exists w'. destruct Hsd as [-> ->]. split; [exact Hs | reflexivity].
Defined.

Lemma X15_witness :
  Node_Join "42" "general" (NewNode NewConfig)
  = Ret (None, Some (errors_New "can't join on non-connected node"))
        (NewNode NewConfig) /\
  exists w' : World,
    Node_Join "42" "general" guarded_world = Ret (None, Some voice_refused) w' /\
    players (node w') = Some ∅ /\ heap w' = ∅ /\
    voiceCalls (trace w') = [("42", "general", true)].
Proof.
  destruct (X15_join_failures (NewNode NewConfig) "42" "general")
    as (Hoff & _ & _).
  destruct (X15_join_failures guarded_world "42" "general")
    as (_ & _ & Hrefused).
  split; [apply Hoff; reflexivity|].
  eexists. split.
  - apply (Hrefused ∅ (fun _ _ _ => Some voice_refused) voice_refused);
      [reflexivity | discriminate | reflexivity | reflexivity
      | reflexivity | reflexivity].
  - repeat split.
Defined.

Lemma X16_witness :
  exists (p : ptr) (w' : World),
    Node_Join "42" "general" lobby_world = Ret (Some p, None) w' /\
    Node_HasPlayer "42" w' = Ret true w' /\
    Node_GetPlayer "7" w' = Ret None w'.
Proof.
  destruct (X16_join_registers_one_player lobby_world "42" "general" ∅)
    as (p & w' & HJ & _ & Hhas & _ & Hother & _);
    [reflexivity | discriminate | reflexivity | reflexivity | exact I |].
  exists p, w'. split; [exact HJ|]. split; [exact Hhas|].
  apply (Hother "7"). discriminate.
Defined.

Lemma online_lookup : heap online_world !! 1%positive = Some idle_player.
Proof. reflexivity. Defined.

Lemma X17_witness :
  exists (err : option error) (w' : World),
    Node_Leave write_broken plain_quote "42" online_world = Ret err w' /\
    Node_HasPlayer "42" w' = Ret false w' /\
    heap w' !! 1%positive = Some (closed_Player idle_player) /\
    node_connected (node w') = true.
Proof.
  destruct (X17_leave_touches_one_guild write_broken plain_quote online_world
              "42" {["42" := 1%positive]} 1%positive idle_player)
    as (err & w' & HL & _ & Hhas & _ & Hh & _ & Hc & _);
    [reflexivity | reflexivity | reflexivity | exact online_lookup
    | exact online_socket_ok |].
  exists err, w'. repeat split; assumption.
Defined.

Lemma X18_witness :
  registry_ok (NewNode NewConfig) /\
  forall (r : option ptr * option error) (w' : World),
    Node_Join "42" "general" lobby_world = Ret r w' -> registry_ok w'.
Proof.
  destruct (X18_registry_points_into_the_heap write_ok plain_quote NewConfig
              lobby_world) as (Hnew & Hjoin & _).
  split; [exact Hnew|]. intros r w'.
  apply (Hjoin lobby_registry_ok "42" "general").
Defined.

Lemma X19_witness :
  exists w1 : World,
    Node_Close close_ok online_world = Ret None w1 /\
    players (node w1) = None /\
    Node_GetPlayer "42" w1 = Panic nil_dereference /\
    Node_Join "42" "general" w1
    = Ret (None, Some (errors_New "can't join on non-connected node")) w1.
Proof.
  destruct (X19_node_close_drops_the_registry write_ok close_ok plain_quote
              (always {| b_Op := "playerUpdate"; b_GuildID := "42" |})
              never (always tick) never online_world) as [_ Hclose].
  destruct (Hclose eq_refl online_socket_ok eq_refl)
    as (c & w1 & _ & HC & _ & Hp & _ & _ & _ & HJ & _ & _ & HG & _).
  exists w1. split; [exact HC|]. split; [exact Hp|].
  split; [apply HG | apply HJ].
Defined.

Lemma X20_witness :
  (exists (w1 w2 : World) (p : ptr),
     Node_Connect dial_accepted "1" "1" (NewNode NewConfig) = Ret None w1 /\
     Node_Join "42" "general" w1 = Ret (Some p, None) w2 /\
     heap w2 !! p = Some (zero_Player "42")) /\
  (exists w1 : World,
     Node_Connect dial_refused "1" "1" (NewNode NewConfig)
     = Ret (Some refused) w1 /\
     node_connected (node w1) = false).
Proof.
  split.
  - destruct (X20_node_connect_then_join dial_accepted NewConfig "1" "1"
                "42" "general") as [Hup _]; [discriminate|].
    destruct (Hup 7%nat "3") as (w1 & w2 & p & HC & _ & _ & _ & HJ & Hh);
      [reflexivity | reflexivity |].
    exists w1, w2, p. repeat split; assumption.
  - destruct (X20_node_connect_then_join dial_refused NewConfig "1" "1"
                "42" "general") as [_ Hdown]; [discriminate|].
    destruct (Hdown (fun _ => refused)) as (w1 & HC & Hn & _);
      [reflexivity|].
    exists w1. split; assumption.
Defined.

Lemma X21_witness :
  Node_socketOnOpen write_ok plain_quote online_world
  = Ret tt (with_trace (log_write (resume_frame plain_quote NewConfig))
              (with_node (set_node_connected true) online_world)) /\
  Node_socketOnOpen write_broken plain_quote online_world
  = Panic (panic_msg "Could not set resume") /\
  Node_socketOnOpen write_ok plain_quote offline_world
  = Panic (panic_msg "Could not set resume").
Proof.
  destruct (X21_on_open_configures_resuming write_ok plain_quote online_world)
    as (_ & _ & Hok).
  destruct (X21_on_open_configures_resuming write_broken plain_quote
              online_world) as (_ & _ & Hbroken).
  destruct (X21_on_open_configures_resuming write_ok plain_quote offline_world)
    as (_ & Hoff & _).
  split; [exact (Hok 30 eq_refl eq_refl online_socket_ok eq_refl)|].
  split; [exact (Hbroken 30 eq_refl eq_refl online_socket_ok eq_refl)|].
  exact (Hoff eq_refl eq_refl).
Defined.

Lemma X22_witness :
  exists w1 w2 : World,
    Node_OnVoiceStateUpdate "bot" "bot" "42" "session-1" online_world
    = Ret tt w1 /\
    Node_OnVoiceServerUpdate write_ok plain_quote "42" "eu1.example" "tok" w1
    = Ret tt w2 /\
    written (trace w2)
    = [voice_frame plain_quote "42" "session-1" "eu1.example" "tok"] /\
    printed (trace w2) = [].
Proof.
  destruct (X22_voice_state_then_server_update write_ok plain_quote
              online_world ∅ "bot" "user" "42" "session-1" "eu1.example" "tok")
    as (_ & _ & w1 & w2 & H1 & _ & H2 & Hwr & Hpr & _);
    [reflexivity | exact online_socket_ok |].
  exists w1, w2. split; [exact H1|]. split; [exact H2|].
  split; [exact Hwr|]. exact (Hpr eq_refl eq_refl).
Defined.

Lemma live_lookup : heap live_world !! 1%positive = Some busy_player.
Proof. reflexivity. Defined.

Lemma X23_witness :
  exists w' : World,
    Node_socketDataReceived
      (always {| b_Op := "playerUpdate"; b_GuildID := "42" |})
      never (always tick) never "tick" live_world = Ret tt w' /\
    length (delivered (trace w')) = 1%nat /\
    (exists pl1 t1, heap w' !! 1%positive = Some pl1 /\
                    p_Track pl1 = Some t1 /\ Position (Info t1) = 15000).
Proof.
  destruct (X23_player_update_frame
              (always {| b_Op := "playerUpdate"; b_GuildID := "42" |})
              never (always tick) never live_world "tick"
              {| b_Op := "playerUpdate"; b_GuildID := "42" |} tick
              {["42" := 1%positive]}) as [_ Hknown];
    [discriminate | reflexivity | reflexivity | reflexivity | reflexivity |].
  destruct (Hknown 1%positive busy_player eq_refl live_lookup)
    as (w' & pl1 & Hret & Hheap & _ & _ & _ & _ & _ & Htrack & Hdel & _).
  destruct (Htrack sample_track eq_refl) as (t1 & Ht1 & Hpos & _).
  exists w'. split; [exact Hret|]. split; [now rewrite Hdel|].
  exists pl1, t1. split; [exact Hheap|]. split; [exact Ht1 | exact Hpos].
Defined.

Lemma X24_witness :
  Node_socketDataReceived
    (always {| b_Op := "stats"; b_GuildID := "" |})
    never never never "stats" online_world = Ret tt online_world /\
  Node_socketDataReceived
    (always {| b_Op := "stats"; b_GuildID := "" |})
    (always sample_stats) never never "stats" live_world
  = Ret tt (with_trace (log_event (StatsReceived_ev sample_stats)) live_world).
Proof.
  split.
  - destruct (X24_stats_frame (always {| b_Op := "stats"; b_GuildID := "" |})
                never never never online_world "stats"
                {| b_Op := "stats"; b_GuildID := "" |}) as [Hnone _];
      [discriminate | reflexivity | reflexivity |].
    exact (Hnone eq_refl).
  - destruct (X24_stats_frame (always {| b_Op := "stats"; b_GuildID := "" |})
                (always sample_stats) never never live_world "stats"
                {| b_Op := "stats"; b_GuildID := "" |}) as [_ Hsome];
      [discriminate | reflexivity | reflexivity |].
    exact (Hsome eq_refl).
Defined.


Lemma X26_witness :
  Node_socketDataReceived
    (always {| b_Op := "event"; b_GuildID := "42" |}) never never
    (always (event_of "42" "TrackStuckEvent" "" "" 5000)) "stuck" live_world
  = Ret tt (with_trace
              (log_event (TrackStuck_ev 1%positive (Some sample_track)
                            5000000000))
              (put 1%positive (set_State PlayerStateStopped busy_player)
                   live_world)).
Proof.
  destruct (X26_track_events_set_the_state
              (always {| b_Op := "event"; b_GuildID := "42" |}) never never
              (always (event_of "42" "TrackStuckEvent" "" "" 5000))
              live_world "stuck"
              {| b_Op := "event"; b_GuildID := "42" |}
              (event_of "42" "TrackStuckEvent" "" "" 5000)
              {["42" := 1%positive]} 1%positive busy_player)
    as (_ & _ & Hstuck);
    [discriminate | reflexivity | reflexivity | reflexivity | reflexivity
    | reflexivity | exact live_lookup |].
  apply Hstuck; [reflexivity | vm_compute; split; discriminate].
Defined.

Lemma X27_witness :
  Node_socketDataReceived
    (always {| b_Op := "event"; b_GuildID := "7" |}) never never
    (always (event_of "7" "TrackStartEvent" "" "" 0)) "start" live_world
  = Ret tt live_world /\
  Node_socketDataReceived
    (always {| b_Op := "event"; b_GuildID := "7" |}) never never
    (always (event_of "7" "WebSocketClosedEvent" "gone" "" 0)) "closed"
    live_world
  = Ret tt (with_trace
              (log_event (WebSocketClosed_ev "7" 4006 "gone" true)) live_world).
Proof.
  split.
  - destruct (X27_events_without_a_player
                (always {| b_Op := "event"; b_GuildID := "7" |}) never never
                (always (event_of "7" "TrackStartEvent" "" "" 0))
                live_world "start" {| b_Op := "event"; b_GuildID := "7" |}
                (event_of "7" "TrackStartEvent" "" "" 0)
                {["42" := 1%positive]}) as [Hdrop _];
      [discriminate | reflexivity | reflexivity | reflexivity |].
    apply Hdrop; [reflexivity | reflexivity | left; reflexivity].
  - destruct (X27_events_without_a_player
                (always {| b_Op := "event"; b_GuildID := "7" |}) never never
                (always (event_of "7" "WebSocketClosedEvent" "gone" "" 0))
                live_world "closed" {| b_Op := "event"; b_GuildID := "7" |}
                (event_of "7" "WebSocketClosedEvent" "gone" "" 0)
                {["42" := 1%positive]}) as [_ Hclosed];
      [discriminate | reflexivity | reflexivity | reflexivity |].
    apply Hclosed. reflexivity.
Defined.

Lemma X28_witness :
  Node_socketDataReceived never never never never "{" live_world
  = Panic (panic_err "*Node.DataReceived: json.Unmarshal => "
             (foreign_error "unexpected end of JSON input")) /\
  Node_socketDataReceived
    (always {| b_Op := "playerUpdate"; b_GuildID := "7" |})
    never never never "tick" live_world
  = Panic (panic_err "*Node.DataReceived: json.Unmarshal 'playerUpdated' => "
             (foreign_error "unexpected end of JSON input")).
Proof.
  split.
  - destruct (X28_malformed_frames_panic never never never never live_world "{")
      as [_ Hbad].
    destruct Hbad as (Henv & _); [discriminate|].
    apply Henv. reflexivity.
  - destruct (X28_malformed_frames_panic
                (always {| b_Op := "playerUpdate"; b_GuildID := "7" |})
                never never never live_world "tick") as [_ Hbad].
    destruct Hbad as (_ & _ & Hupd); [discriminate|].
    apply (Hupd {| b_Op := "playerUpdate"; b_GuildID := "7" |});
      reflexivity.
Defined.
